(** * The connection-health engine of src/core/health_tracker.py

    A shallow embedding of [HealthTracker]: the probe cache, the fan-out
    connectivity check, the weighted health score, the bounded history with
    its periodic flush, and the stability report; then the statistics, the
    search for the best target, the diagnosis, the parsing of the output of
    ping, and the health panel of src/ui/gui.py that displays the score.

    Conventions of the embedding.
    - A Python [float] is an exact rational ([Q]); [int] is [Z].  The
      square root taken by [statistics.stdev] is kept symbolic (type [root],
      read as a real number by [root_value]).  The weighted sum under
      [int()] is evaluated in binary64 as well ([Binary64.final_score]).
    - [time.time()], [datetime.now()] and the outcome of [subprocess.run]
      followed by [_parse_ping_output] are inputs: the n-th call of
      [ping_test] observes the n-th [tick] of the environment.
      [_parse_ping_output] is embedded on its own.
    - The tracker lives in a [World] next to the history file and a log of
      the external actions taken (probes run, flushes attempted).
    - Attributes no modelled operation reads (the logger, [thresholds],
      [os_type]) are left out. *)

From Stdlib Require Import ZArith QArith Qround List String Ascii Bool Lia Lqa.
From Stdlib Require Import DecimalString DecimalZ DecimalPos.
From Stdlib Require Reals Qreals PrimFloat Uint63.
Import ListNotations.
Local Open Scope Z_scope.
Local Open Scope string_scope.

(** ** Python numbers and builtins *)

Module Py.

Definition Qltb (x y : Q) : bool := negb (Qle_bool y x).

(** [int(x)]: truncation toward zero. *)
Definition int (x : Q) : Z := Z.quot (Qnum x) (Zpos (Qden x)).

Definition len {A : Type} (l : list A) : Z := Z.of_nat (List.length l).

(** [l[-n:]] for a positive [n]. *)
Definition lastn {A : Type} (n : nat) (l : list A) : list A :=
  skipn (List.length l - n) l.

Definition sum (l : list Q) : Q := fold_right Qplus 0%Q l.

(** [statistics.mean]; it raises on empty data, and every caller guards. *)
Definition mean (l : list Q) : Q := (sum l / inject_Z (len l))%Q.

(** [min(l)] and [max(l)] of a list whose head is [x]. *)
Definition min (x : Q) (l : list Q) : Q :=
  fold_left (fun m y => if Qltb y m then y else m) l x.
Definition max (x : Q) (l : list Q) : Q :=
  fold_left (fun m y => if Qltb m y then y else m) l x.

(** Sample variance: the sum of squared deviations over [n - 1]. *)
Definition variance (l : list Q) : Q :=
  let m := mean l in
  (sum (map (fun x => (x - m) * (x - m)) l) / inject_Z (len l - 1))%Q.

(** A nonnegative real known through its square: [Sqrt v] is the square
    root of [v]. *)
Record root : Type := Sqrt { radicand : Q }.

Definition root_zero : root := Sqrt 0.

(** [statistics.stdev]: the square root of the sample variance. *)
Definition stdev (l : list Q) : root := Sqrt (variance l).

(** [r < c] for a constant [c >= 0], decided on the squares. *)
Definition root_ltb (r : root) (c : Q) : bool := Qltb (radicand r) (c * c).

(** [r * k] for a factor [k >= 0]. *)
Definition root_scale (r : root) (k : Q) : root := Sqrt (radicand r * (k * k)).

(** The real number a root stands for. *)
Definition root_value (r : root) : Rdefinitions.R :=
  R_sqrt.sqrt (Rdefinitions.Q2R (radicand r)).

(** Nearest integer, ties to the even one. *)
Definition round_half_even (x : Q) : Z :=
  let f := Qfloor x in
  let r := (x - inject_Z f)%Q in
  if Qltb r 0.5 then f
  else if Qltb 0.5 r then f + 1
  else if Z.even f then f else f + 1.

(** [round(x, 2)]. *)
Definition round2 (x : Q) : Q := Qmake (round_half_even (x * 100)) 100.

(** [round(r, 2)] for a symbolic root: with [m = floor (2 * sqrt w)] and
    [w = 10000 * v], the nearest integer to [sqrt w] is [m / 2] when [m] is
    even and one of [(m - 1) / 2], [(m + 1) / 2] when it is odd. *)
Definition root_round2 (r : root) : Q :=
  let w := (radicand r * 10000)%Q in
  let m := Z.sqrt (Qfloor (4 * w)) in
  let k := m / 2 in
  let n :=
    if Z.even m then k
    else if Qeq_bool (4 * w) (inject_Z (m * m)) then (if Z.even k then k else k + 1)
    else k + 1 in
  Qmake n 100.

End Py.

(** ** Data model *)

(** One entry of [self.metrics], the dict built by [log_metrics]. *)
Module Metric.
Record t : Type := Build {
  timestamp : string;
  latency : option Q;
  connected : bool;
  score : Z;
  category : string
}.
End Metric.

(** The alert strings of [get_health_score]; each f-string keeps the value
    it formats. *)
Inductive alert : Type :=
| Sem_conexao                      (* 'Sem conexão com a internet' *)
| Latencia_elevada (v : Q)         (* "Latência elevada: {:.1f}ms" *)
| Latencia_alta (v : Q)            (* "⚠ Latência alta: {:.1f}ms" *)
| Latencia_critica (v : Q)         (* "🔴 Latência crítica: {:.1f}ms" *)
| Latencia_severa (v : Q)          (* "🔴 Latência severa: {:.1f}ms" *)
| Perda_pacotes (v : Q)            (* "Perda de pacotes: {:.1f}%" *)
| Perda_significativa (v : Q)      (* "⚠ Perda de pacotes significativa: {:.1f}%" *)
| Perda_alta (v : Q)               (* "🔴 Perda de pacotes alta: {:.1f}%" *)
| Perda_critica (v : Q)            (* "🔴 Perda de pacotes crítica: {:.1f}%" *)
| Jitter_elevado (v : Py.root)     (* "Jitter elevado: {:.1f}ms" *)
| Jitter_alto (v : Py.root)        (* "⚠ Jitter alto: {:.1f}ms" *)
| Jitter_critico (v : Py.root)     (* "🔴 Jitter crítico: {:.1f}ms" *)
| Uptime_baixo (v : Q)             (* "Uptime baixo: {:.1f}%" *)
| Uptime_critico (v : Q).          (* "⚠ Uptime crítico: {:.1f}%" *)

(** The dict returned by [get_health_score(detailed=True)].  The keys
    [pings_successful] and [pings_total] are absent from the dict of the
    no-connection case. *)
Module Report.
Record stats : Type := Stats { avg : Q; min : Q; max : Q }.
Record t : Type := Build {
  score : Z;
  category : string;
  latency : option stats;
  packet_loss : Q;
  jitter : option Q;
  uptime : Q;
  pings_successful : option Z;
  pings_total : option Z;
  alerts : list alert
}.
End Report.

(** [get_health_score] returns the dict or the bare score. *)
Inductive score_result : Type :=
| Detailed (r : Report.t)
| Bare (score : Z).

(** The dict returned by [get_connection_stability]; [avg_uptime_duration]
    is a key of the no-history dict only. *)
Module Stability.
Record t : Type := Build {
  stability_score : Z;
  disconnect_events : Z;
  total_downtime : Q;
  avg_uptime_duration : option Z;
  latency_variability : Q;
  recommendation : string
}.
End Stability.

Record Cache : Type := mkCache {
  last_test_time : option Q;
  last_test_result : option Q;
  cache_duration : Q
}.

Record ConnectionState : Type := mkConnectionState {
  is_connected : bool;
  last_connected : option Q;
  last_disconnected : option Q;
  disconnect_count : Z;
  total_downtime : Q
}.

Record HealthTracker : Type := mkHealthTracker {
  metrics : list Metric.t;
  is_monitoring : bool;
  ping_host : string;
  ping_hosts : list string;
  connection_state : ConnectionState;
  cache : Cache
}.

(** ** The environment *)

(** How one run of the external ping ends inside [ping_test]. *)
Inductive probe_outcome : Type :=
| Exit_nonzero                 (* result.returncode != 0 *)
| Parsed (latency : Q)         (* _parse_ping_output found a latency *)
| Unparsed                     (* _parse_ping_output returned None *)
| Timeout_expired              (* subprocess.TimeoutExpired *)
| Tool_missing                 (* FileNotFoundError *)
| Other_error.                 (* any other Exception *)

(** What one call of [ping_test] observes: the clock read by [_check_cache],
    the outcome of the probe should it run, and the clock read by
    [_update_cache] afterwards. *)
Record tick : Type := mkTick {
  t_check : Q;
  outcome : probe_outcome;
  t_update : Q
}.

Definition env : Type := nat -> tick.

(** External actions, in the order they are taken. *)
Inductive event : Type :=
| Ev_probe (host : string)     (* subprocess.run(['ping', ..., host]) *)
| Ev_save (written : bool).    (* _save_history was entered *)

Record World : Type := mkWorld {
  self : HealthTracker;
  calls : nat;                 (* ping_test calls made so far *)
  disk : option string;        (* contents of health_history.json, if it exists *)
  writable : bool;             (* whether open(history_file, 'w') succeeds *)
  events : list event
}.

Definition M (A : Type) : Type := World -> A * World.

Definition ret {A : Type} (a : A) : M A := fun w => (a, w).

Definition bind {A B : Type} (m : M A) (k : A -> M B) : M B :=
  fun w => let (a, w') := m w in k a w'.

Notation "x <- m ;; k" := (bind m (fun x => k))
  (at level 61, m at next level, right associativity).
Notation "m ;;; k" := (bind m (fun _ => k))
  (at level 61, right associativity).

Definition get_self : M HealthTracker := fun w => (self w, w).

Definition modify_self (f : HealthTracker -> HealthTracker) : M unit :=
  fun w => (tt, mkWorld (f (self w)) (calls w) (disk w) (writable w) (events w)).

Definition emit (e : event) : M unit :=
  fun w => (tt, mkWorld (self w) (calls w) (disk w) (writable w) (events w ++ [e])).

Definition set_cache (c : Cache) (t : HealthTracker) : HealthTracker :=
  mkHealthTracker (metrics t) (is_monitoring t) (ping_host t) (ping_hosts t)
    (connection_state t) c.

Definition set_metrics (ms : list Metric.t) (t : HealthTracker) : HealthTracker :=
  mkHealthTracker ms (is_monitoring t) (ping_host t) (ping_hosts t)
    (connection_state t) (cache t).

Definition set_connection_state (cs : ConnectionState) (t : HealthTracker) : HealthTracker :=
  mkHealthTracker (metrics t) (is_monitoring t) (ping_host t) (ping_hosts t)
    cs (cache t).

(** ** The history file: json.dump and json.load

    The text written by [json.dump(self.metrics, f, indent=2,
    ensure_ascii=False)] and the reading of it by [json.load].  A history
    file is an array of flat objects; the reader accepts any layout of
    white space around them and rejects nested values, which no history
    holds.  Strings are byte strings (UTF-8).  The text of a float
    ([float.__repr__]) and its reading ([float]) are parameters. *)

Module Json.

Definition dquote : ascii := ascii_of_nat 34.
Definition backslash : ascii := ascii_of_nat 92.
Definition NL : string := String (ascii_of_nat 10) EmptyString.

Inductive scalar : Type :=
| Null
| Bool (b : bool)
| Int (z : Z)
| Float (q : Q)
| Str (s : string).

Definition object : Type := list (string * scalar).

(** *** Writing *)

Definition hex_digit (n : nat) : ascii :=
  nth n (list_ascii_of_string "0123456789abcdef") "0"%char.

(** ESCAPE_DCT of json.encoder: the quote, the backslash, the five short
    escapes, and a u-escape for the other control characters. *)
Definition put_char (c : ascii) (k : string) : string :=
  let n := nat_of_ascii c in
  if (c =? dquote)%char then String backslash (String dquote k)
  else if (c =? backslash)%char then String backslash (String backslash k)
  else if (n =? 8)%nat then String backslash (String "b" k)
  else if (n =? 12)%nat then String backslash (String "f" k)
  else if (n =? 10)%nat then String backslash (String "n" k)
  else if (n =? 13)%nat then String backslash (String "r" k)
  else if (n =? 9)%nat then String backslash (String "t" k)
  else if (n <? 32)%nat then
    String backslash (String "u" (String "0" (String "0"
      (String (hex_digit (n / 16)) (String (hex_digit (n mod 16)) k)))))
  else String c k.

Fixpoint put_escaped (s : string) (k : string) : string :=
  match s with
  | EmptyString => k
  | String c s' => put_char c (put_escaped s' k)
  end.

Definition put_string (s : string) (k : string) : string :=
  String dquote (put_escaped s (String dquote k)).

Definition put_int (z : Z) (k : string) : string :=
  NilZero.string_of_int (Z.to_int z) ++ k.

Section Codec.

Variable float_repr : Q -> string.
Variable float_of_string : string -> option Q.

Definition put_scalar (v : scalar) (k : string) : string :=
  match v with
  | Null => "null" ++ k
  | Bool true => "true" ++ k
  | Bool false => "false" ++ k
  | Int z => put_int z k
  | Float q => float_repr q ++ k
  | Str s => put_string s k
  end.

(** The members of an object at indent level 2, then its closing brace
    at level 1. *)
Fixpoint put_members (m : string * scalar) (o : object) (k : string) : string :=
  "    " ++ put_string (fst m) (": " ++ put_scalar (snd m)
    match o with
    | [] => NL ++ "  }" ++ k
    | m' :: o' => "," ++ NL ++ put_members m' o' k
    end).

Definition put_object (o : object) (k : string) : string :=
  match o with
  | [] => "{}" ++ k
  | m :: o' => "{" ++ NL ++ put_members m o' k
  end.

(** The items of the array at indent level 1, then its closing
    bracket. *)
Fixpoint put_items (o : object) (l : list object) (k : string) : string :=
  "  " ++ put_object o
    match l with
    | [] => NL ++ "]" ++ k
    | o' :: l' => "," ++ NL ++ put_items o' l' k
    end.

Definition dumps (l : list object) : string :=
  match l with
  | [] => "[]"
  | o :: l' => "[" ++ NL ++ put_items o l' EmptyString
  end.

(** The dict literal of [log_metrics]. *)
Definition object_of_metric (m : Metric.t) : object :=
  [ ("timestamp", Str (Metric.timestamp m));
    ("latency", match Metric.latency m with Some q => Float q | None => Null end);
    ("connected", Bool (Metric.connected m));
    ("score", Int (Metric.score m));
    ("category", Str (Metric.category m)) ].

Definition dump (ms : list Metric.t) : string :=
  dumps (map object_of_metric ms).

(** *** Reading *)

Definition is_ws (c : ascii) : bool :=
  let n := nat_of_ascii c in
  ((n =? 32) || (n =? 9) || (n =? 10) || (n =? 13))%nat.

Fixpoint skip_ws (s : string) : string :=
  match s with
  | EmptyString => EmptyString
  | String c s' => if is_ws c then skip_ws s' else s
  end.

Definition hex_value (c : ascii) : option N :=
  let n := N_of_ascii c in
  if ((48 <=? n) && (n <=? 57))%N then Some (n - 48)%N
  else if ((97 <=? n) && (n <=? 102))%N then Some (n - 87)%N
  else if ((65 <=? n) && (n <=? 70))%N then Some (n - 55)%N
  else None.

(** The UTF-8 bytes of a code point of the basic plane; a surrogate is
    refused. *)
Definition utf8 (cp : N) : option string :=
  if (cp <? 128)%N then Some (String (ascii_of_N cp) EmptyString)
  else if (cp <? 2048)%N then
    Some (String (ascii_of_N (192 + cp / 64))
         (String (ascii_of_N (128 + cp mod 64)) EmptyString))
  else if ((55296 <=? cp) && (cp <? 57344))%N then None
  else
    Some (String (ascii_of_N (224 + cp / 4096))
         (String (ascii_of_N (128 + (cp / 64) mod 64))
         (String (ascii_of_N (128 + cp mod 64)) EmptyString))).

Definition code_point (h1 h2 h3 h4 : ascii) : option string :=
  match hex_value h1, hex_value h2, hex_value h3, hex_value h4 with
  | Some a, Some b, Some c, Some d => utf8 (((a * 16 + b) * 16 + c) * 16 + d)%N
  | _, _, _, _ => None
  end.

(** BACKSLASH of json.decoder. *)
Definition unescape (e : ascii) : option ascii :=
  if (e =? dquote)%char then Some dquote
  else if (e =? backslash)%char then Some backslash
  else if (e =? "/")%char then Some "/"%char
  else if (e =? "b")%char then Some (ascii_of_nat 8)
  else if (e =? "f")%char then Some (ascii_of_nat 12)
  else if (e =? "n")%char then Some (ascii_of_nat 10)
  else if (e =? "r")%char then Some (ascii_of_nat 13)
  else if (e =? "t")%char then Some (ascii_of_nat 9)
  else None.

Definition prepend (p : string) (r : option (string * string)) : option (string * string) :=
  match r with
  | Some (t, rest) => Some (p ++ t, rest)
  | None => None
  end.

(** The body of a string, after its opening quote, up to and including
    the closing one (strict mode: a raw control character is refused). *)
Fixpoint scan_string (s : string) : option (string * string) :=
  match s with
  | EmptyString => None
  | String c s1 =>
      if (c =? dquote)%char then Some (EmptyString, s1)
      else if (c =? backslash)%char then
        match s1 with
        | EmptyString => None
        | String e s2 =>
            if (e =? "u")%char then
              match s2 with
              | String h1 (String h2 (String h3 (String h4 s3))) =>
                  match code_point h1 h2 h3 h4 with
                  | Some bytes => prepend bytes (scan_string s3)
                  | None => None
                  end
              | _ => None
              end
            else
              match unescape e with
              | Some c' => prepend (String c' EmptyString) (scan_string s2)
              | None => None
              end
        end
      else if (nat_of_ascii c <? 32)%nat then None
      else prepend (String c EmptyString) (scan_string s1)
  end.

Definition is_digit (c : ascii) : bool :=
  let n := nat_of_ascii c in ((48 <=? n) && (n <=? 57))%nat.

Definition is_float_mark (c : ascii) : bool :=
  ((c =? ".") || (c =? "e") || (c =? "E"))%char.

Definition is_num_char (c : ascii) : bool :=
  is_digit c || is_float_mark c || (c =? "-")%char || (c =? "+")%char.

(** The longest prefix made of the characters of a number. *)
Fixpoint span_num (s : string) : string * string :=
  match s with
  | EmptyString => (EmptyString, EmptyString)
  | String c s' =>
      if is_num_char c
      then let (t, r) := span_num s' in (String c t, r)
      else (EmptyString, s)
  end.

Fixpoint has_float_mark (s : string) : bool :=
  match s with
  | EmptyString => false
  | String c s' => is_float_mark c || has_float_mark s'
  end.

(** A token with a fraction or an exponent is read by [float], any other
    by [int]; an integer is written without sign or leading zeros,
    [-0] apart. *)
Definition parse_number (s : string) : option (scalar * string) :=
  let (tok, rest) := span_num s in
  if has_float_mark tok then
    match float_of_string tok with
    | Some q => Some (Float q, rest)
    | None => None
    end
  else
    match NilZero.int_of_string tok with
    | Some d =>
        let z := Z.of_int d in
        if (put_int z EmptyString =? tok) || (tok =? "-0")
        then Some (Int z, rest) else None
    | None => None
    end.

Fixpoint strip_prefix (p s : string) : option string :=
  match p, s with
  | EmptyString, _ => Some s
  | String a p', String b s' => if (a =? b)%char then strip_prefix p' s' else None
  | String _ _, EmptyString => None
  end.

Definition parse_scalar (s : string) : option (scalar * string) :=
  match s with
  | EmptyString => None
  | String c s' =>
      if (c =? dquote)%char then
        match scan_string s' with
        | Some (t, r) => Some (Str t, r)
        | None => None
        end
      else
        match strip_prefix "null" s, strip_prefix "true" s, strip_prefix "false" s with
        | Some r, _, _ => Some (Null, r)
        | None, Some r, _ => Some (Bool true, r)
        | None, None, Some r => Some (Bool false, r)
        | None, None, None => parse_number s
        end
  end.

(** The members of an object from its first key to its closing brace. *)
Fixpoint parse_members (fuel : nat) (s : string) : option (object * string) :=
  match fuel with
  | O => None
  | S fuel' =>
      match s with
      | EmptyString => None
      | String c s1 =>
          if negb (c =? dquote)%char then None else
          match scan_string s1 with
          | None => None
          | Some (key, s2) =>
              match skip_ws s2 with
              | EmptyString => None
              | String c2 s3 =>
                  if negb (c2 =? ":")%char then None else
                  match parse_scalar (skip_ws s3) with
                  | None => None
                  | Some (v, s4) =>
                      match skip_ws s4 with
                      | EmptyString => None
                      | String c3 s5 =>
                          if (c3 =? "}")%char then Some ([(key, v)], s5)
                          else if (c3 =? ",")%char then
                            match parse_members fuel' (skip_ws s5) with
                            | Some (o, r) => Some ((key, v) :: o, r)
                            | None => None
                            end
                          else None
                      end
                  end
              end
          end
      end
  end.

Definition parse_object (s : string) : option (object * string) :=
  match s with
  | EmptyString => None
  | String c s1 =>
      if negb (c =? "{")%char then None else
      match skip_ws s1 with
      | EmptyString => None
      | String c2 s2 =>
          if (c2 =? "}")%char then Some ([], s2)
          else parse_members (String.length s1) (String c2 s2)
      end
  end.

(** The items of the array from its first object to its closing
    bracket. *)
Fixpoint parse_items (fuel : nat) (s : string) : option (list object * string) :=
  match fuel with
  | O => None
  | S fuel' =>
      match parse_object s with
      | None => None
      | Some (o, s1) =>
          match skip_ws s1 with
          | EmptyString => None
          | String c s2 =>
              if (c =? "]")%char then Some ([o], s2)
              else if (c =? ",")%char then
                match parse_items fuel' (skip_ws s2) with
                | Some (l, r) => Some (o :: l, r)
                | None => None
                end
              else None
          end
      end
  end.

Definition parse_array (s : string) : option (list object * string) :=
  match s with
  | EmptyString => None
  | String c s1 =>
      if negb (c =? "[")%char then None else
      match skip_ws s1 with
      | EmptyString => None
      | String c2 s2 =>
          if (c2 =? "]")%char then Some ([], s2)
          else parse_items (String.length s1) (String c2 s2)
      end
  end.

(** [json.loads]: one array, then nothing but white space. *)
Definition loads (s : string) : option (list object) :=
  match parse_array (skip_ws s) with
  | Some (l, r) =>
      match skip_ws r with
      | EmptyString => Some l
      | String _ _ => None
      end
  | None => None
  end.

Fixpoint lookup (key : string) (o : object) : option scalar :=
  match o with
  | [] => None
  | (k, v) :: o' => if (k =? key) then Some v else lookup key o'
  end.

(** A record of the history as a [Metric.t]: the five keys, each once,
    with values of the types [log_metrics] stores. *)
Definition metric_of_object (o : object) : option Metric.t :=
  if negb (List.length o =? 5)%nat then None else
  match lookup "timestamp" o, lookup "latency" o, lookup "connected" o,
        lookup "score" o, lookup "category" o with
  | Some (Str ts), Some l, Some (Bool c), Some (Int sc), Some (Str cat) =>
      match l with
      | Null => Some (Metric.Build ts None c sc cat)
      | Float q => Some (Metric.Build ts (Some q) c sc cat)
      | Int z => Some (Metric.Build ts (Some (inject_Z z)) c sc cat)
      | _ => None
      end
  | _, _, _, _, _ => None
  end.

Fixpoint metrics_of_objects (l : list object) : option (list Metric.t) :=
  match l with
  | [] => Some []
  | o :: l' =>
      match metric_of_object o, metrics_of_objects l' with
      | Some m, Some ms => Some (m :: ms)
      | _, _ => None
      end
  end.

(** [json.load] of a history file; [None] stands for a decoding error
    or a document that is not an array of history records. *)
Definition load (s : string) : option (list Metric.t) :=
  match loads s with
  | Some l => metrics_of_objects l
  | None => None
  end.

End Codec.

End Json.

(** ** The operations of HealthTracker *)

Section Tracker.

Variable E : env.
Variable float_repr : Q -> string.
Variable float_of_string : string -> option Q.

(** The observations of the next [ping_test] call. *)
Definition next_tick : M tick :=
  fun w => (E (calls w),
            mkWorld (self w) (S (calls w)) (disk w) (writable w) (events w)).

(** *** The probe cache *)

Definition _check_cache (host : string) (now : Q) (c : Cache) : bool :=
  match last_test_time c with
  | None => false
  | Some t => Py.Qltb (now - t) (cache_duration c)
  end.

Definition _update_cache (host : string) (result : option Q) (now : Q) (c : Cache) : Cache :=
  mkCache (Some now) result (cache_duration c).

Definition record_result (host : string) (result : option Q) (now : Q) : M unit :=
  modify_self (fun t => set_cache (_update_cache host result now (cache t)) t).

Definition ping_test (host : option string) : M (option Q) :=
  t <- get_self ;;
  let host :=
    match host with
    | Some h => if (h =? "") then ping_host t else h
    | None => ping_host t
    end in
  tk <- next_tick ;;
  if _check_cache host (t_check tk) (cache t)
  then ret (last_test_result (cache t))
  else
    emit (Ev_probe host) ;;;
    match outcome tk with
    | Exit_nonzero => record_result host None (t_update tk) ;;; ret None
    | Parsed latency =>
        record_result host (Some latency) (t_update tk) ;;; ret (Some latency)
    | Unparsed => record_result host None (t_update tk) ;;; ret None
    | Timeout_expired => record_result host None (t_update tk) ;;; ret None
    | Tool_missing => ret None
    | Other_error => ret None
    end.

(** [ping_test] in its two steps, for requests that run in different
    threads: up to the start of [subprocess.run], which reads the slot, and
    from its end, which writes it.  Another thread may run between the
    two. *)
Inductive started : Type :=
| Served (result : option Q)               (* returned from the cache *)
| Probing (host : string) (tk : tick).     (* the external probe is running *)

Definition ping_test_start (host : option string) : M started :=
  t <- get_self ;;
  let host :=
    match host with
    | Some h => if (h =? "") then ping_host t else h
    | None => ping_host t
    end in
  tk <- next_tick ;;
  if _check_cache host (t_check tk) (cache t)
  then ret (Served (last_test_result (cache t)))
  else emit (Ev_probe host) ;;; ret (Probing host tk).

Definition ping_test_finish (s : started) : M (option Q) :=
  match s with
  | Served result => ret result
  | Probing host tk =>
      match outcome tk with
      | Exit_nonzero => record_result host None (t_update tk) ;;; ret None
      | Parsed latency =>
          record_result host (Some latency) (t_update tk) ;;; ret (Some latency)
      | Unparsed => record_result host None (t_update tk) ;;; ret None
      | Timeout_expired => record_result host None (t_update tk) ;;; ret None
      | Tool_missing => ret None
      | Other_error => ret None
      end
  end.

(** *** The fan-out connectivity check *)

(** What [future.result()] gives for one worker. *)
Inductive future_result : Type :=
| Returned (latency : option Q)
| Raised.

(** [latency < fastest_latency], where [None] is [float('inf')]. *)
Definition lt_inf (latency : Q) (fastest_latency : option Q) : bool :=
  match fastest_latency with
  | None => true
  | Some f => Py.Qltb latency f
  end.

(** The loop over [as_completed(future_to_host)], in completion order. *)
Fixpoint collect (completed : list (string * future_result))
    (fastest_latency : option Q) (fastest_host : option string)
    : option Q * option string :=
  match completed with
  | [] => (fastest_latency, fastest_host)
  | (host, r) :: rest =>
      match r with
      | Returned (Some latency) =>
          if lt_inf latency fastest_latency
          then collect rest (Some latency) (Some host)
          else collect rest fastest_latency fastest_host
      | Returned None => collect rest fastest_latency fastest_host
      | Raised => collect rest fastest_latency fastest_host
      end
  end.

(** The update of [self.connection_state] at the end of
    [check_connectivity]. *)
Definition update_state (is_conn : bool) (now : Q) (cs : ConnectionState) : ConnectionState :=
  if is_conn then
    let downtime :=
      if negb (is_connected cs) then
        match last_disconnected cs with
        | Some t => (total_downtime cs + (now - t))%Q
        | None => total_downtime cs
        end
      else total_downtime cs in
    mkConnectionState true (Some now) (last_disconnected cs)
      (disconnect_count cs) downtime
  else
    if is_connected cs then
      mkConnectionState false (last_connected cs) (Some now)
        (disconnect_count cs + 1) (total_downtime cs)
    else
      mkConnectionState false (last_connected cs) (last_disconnected cs)
        (disconnect_count cs) (total_downtime cs).

(** [check_connectivity], given the workers' results in the order
    [as_completed] yields them and the reading of [datetime.now()].  With
    no host at all, [ThreadPoolExecutor(max_workers=0)] raises
    ([None]).  Every worker is taken to finish within the 10 s that
    [as_completed] allows.  The workers' own [ping_test] calls race on the
    cache slot; their effect on it is not tracked here. *)
Definition check_connectivity (completed : list (string * future_result)) (now : Q)
    (cs : ConnectionState) : option ((bool * option string) * ConnectionState) :=
  match completed with
  | [] => None
  | _ :: _ =>
      let (fastest_latency, fastest_host) := collect completed None None in
      let is_conn := match fastest_host with Some _ => true | None => false end in
      Some ((is_conn, fastest_host), update_state is_conn now cs)
  end.

(** *** The health score *)

Definition ping_count : Z := 10.

(** The loop [for i in range(ping_count)] with [n] rounds to go. *)
Fixpoint burst (n : nat) (pings : list Q) : M (list Q) :=
  match n with
  | O => ret pings
  | S n' =>
      latency <- ping_test None ;;
      burst n' match latency with
               | Some l => (pings ++ [l])%list
               | None => pings
               end
  end.

Definition latency_score (avg_latency : Q) : Z * list alert :=
  if Py.Qltb avg_latency 20 then (100, [])
  else if Py.Qltb avg_latency 50 then (90, [])
  else if Py.Qltb avg_latency 100 then (70, [Latencia_elevada avg_latency])
  else if Py.Qltb avg_latency 200 then (50, [Latencia_alta avg_latency])
  else if Py.Qltb avg_latency 300 then (30, [Latencia_critica avg_latency])
  else (10, [Latencia_severa avg_latency]).

Definition packet_loss_score (packet_loss_pct : Q) : Z * list alert :=
  if Qeq_bool packet_loss_pct 0 then (100, [])
  else if Py.Qltb packet_loss_pct 1 then (95, [])
  else if Py.Qltb packet_loss_pct 5 then (80, [Perda_pacotes packet_loss_pct])
  else if Py.Qltb packet_loss_pct 10 then (60, [Perda_significativa packet_loss_pct])
  else if Py.Qltb packet_loss_pct 20 then (40, [Perda_alta packet_loss_pct])
  else (20, [Perda_critica packet_loss_pct]).

Definition jitter_score (jitter : Py.root) : Z * list alert :=
  if Py.root_ltb jitter 5 then (100, [])
  else if Py.root_ltb jitter 10 then (90, [])
  else if Py.root_ltb jitter 30 then (70, [])
  else if Py.root_ltb jitter 50 then (50, [Jitter_elevado jitter])
  else if Py.root_ltb jitter 100 then (30, [Jitter_alto jitter])
  else (10, [Jitter_critico jitter]).

(** [uptime_percent] over the last 100 records of a non-empty history. *)
Definition uptime_percent (ms : list Metric.t) : Q :=
  let recent_metrics := Py.lastn 100 ms in
  let successful_tests := Py.len (filter Metric.connected recent_metrics) in
  let total_tests := Py.len recent_metrics in
  if (0 <? total_tests)%Z
  then (inject_Z successful_tests / inject_Z total_tests * 100)%Q
  else 100%Q.

Definition uptime_score (ms : list Metric.t) : Q * (Z * list alert) :=
  match ms with
  | [] => (100.0%Q, (100, []))
  | _ :: _ =>
      let u := uptime_percent ms in
      (u,
       if Qle_bool 99 u then (100, [])
       else if Qle_bool 95 u then (85, [])
       else if Qle_bool 90 u then (70, [])
       else if Qle_bool 80 u then (50, [Uptime_baixo u])
       else (30, [Uptime_critico u]))
  end.

Definition final_score (latency_score packet_loss_score jitter_score uptime_score : Z) : Z :=
  Py.int (inject_Z latency_score * 0.4 + inject_Z packet_loss_score * 0.3
          + inject_Z jitter_score * 0.2 + inject_Z uptime_score * 0.1)%Q.

Definition get_health_category (score : Z) : string :=
  if (80 <=? score)%Z then "Excelente"
  else if (60 <=? score)%Z then "Bom"
  else if (40 <=? score)%Z then "Regular"
  else "Ruim".

Definition no_connection : Report.t :=
  Report.Build 0 "Desconectado" None 100.0%Q None 0.0%Q None None [Sem_conexao].

Definition packet_loss_pct (pings : list Q) : Q :=
  (inject_Z (ping_count - Py.len pings) / inject_Z ping_count * 100)%Q.

Definition jitter_of (pings : list Q) : Py.root :=
  if (1 <? Py.len pings)%Z then Py.stdev pings else Py.root_zero.

(** [get_health_score] from the end of the burst on. *)
Definition score_pings (ms : list Metric.t) (pings : list Q) (detailed : bool) : score_result :=
  match pings with
  | [] => if detailed then Detailed no_connection else Bare 0
  | p :: ps =>
      let avg_latency := Py.mean pings in
      let min_latency := Py.min p ps in
      let max_latency := Py.max p ps in
      let loss := packet_loss_pct pings in
      let jitter := jitter_of pings in
      let '(l_score, l_alerts) := latency_score avg_latency in
      let '(p_score, p_alerts) := packet_loss_score loss in
      let '(j_score, j_alerts) := jitter_score jitter in
      let '(uptime, (u_score, u_alerts)) := uptime_score ms in
      let final := final_score l_score p_score j_score u_score in
      let category := get_health_category final in
      let result :=
        Report.Build final category
          (Some (Report.Stats (Py.round2 avg_latency) (Py.round2 min_latency)
                              (Py.round2 max_latency)))
          (Py.round2 loss) (Some (Py.root_round2 jitter)) (Py.round2 uptime)
          (Some (Py.len pings)) (Some ping_count)
          (l_alerts ++ p_alerts ++ j_alerts ++ u_alerts)%list in
      if detailed then Detailed result else Bare final
  end.

Definition get_health_score (detailed : bool) : M score_result :=
  pings <- burst (Z.to_nat ping_count) [] ;;
  t <- get_self ;;
  ret (score_pings (metrics t) pings detailed).

(** *** The history *)

Definition _save_history : M unit :=
  fun w =>
    if writable w
    then (tt, mkWorld (self w) (calls w)
                (Some (Json.dump float_repr (metrics (self w))))
                true (events w ++ [Ev_save true]))
    else (tt, mkWorld (self w) (calls w) (disk w) false
                (events w ++ [Ev_save false])).

(** [_load_history] on a tracker under construction. *)
Definition _load_history (d : option string) (t : HealthTracker) : HealthTracker :=
  match d with
  | None => t
  | Some text =>
      match Json.load float_of_string text with
      | Some ms => set_metrics ms t
      | None => set_metrics [] t
      end
  end.

(** [HealthTracker(ping_host)], reading the history file [d]. *)
Definition init (ping_host : string) (d : option string) : HealthTracker :=
  _load_history d
    (mkHealthTracker [] false ping_host
       ["8.8.8.8"; "1.1.1.1"; "208.67.222.222"]
       (mkConnectionState false None None 0 0)
       (mkCache None None 2)).

(** [timestamp] is the reading of [datetime.now().isoformat()]. *)
Definition log_metrics (timestamp : string) : M unit :=
  latency <- ping_test None ;;
  let connected := match latency with Some _ => true | None => false end in
  score_data <- get_health_score false ;;
  let score :=
    match score_data with
    | Bare n => n
    | Detailed r => Report.score r
    end in
  let metric :=
    Metric.Build timestamp latency connected score (get_health_category score) in
  modify_self (fun t => set_metrics (metrics t ++ [metric])%list t) ;;;
  t <- get_self ;;
  (if (1000 <? Py.len (metrics t))%Z
   then modify_self (set_metrics (Py.lastn 1000 (metrics t)))
   else ret tt) ;;;
  t <- get_self ;;
  if (Py.len (metrics t) mod 10 =? 0)%Z then _save_history else ret tt.

(** *** The stability report *)

Definition no_history : Stability.t :=
  Stability.Build 100 0 0 (Some 0) 0 "Sem dados históricos ainda".

(** The truth value of [m.get('latency')]. *)
Definition truthy_latency (m : Metric.t) : bool :=
  match Metric.latency m with
  | Some l => negb (Qeq_bool l 0)
  | None => false
  end.

Definition some_latencies (ms : list Metric.t) : list Q :=
  flat_map (fun m => match Metric.latency m with Some l => [l] | None => [] end) ms.

Definition latency_cv (ms : list Metric.t) : Py.root :=
  let latencies := some_latencies (filter truthy_latency (Py.lastn 100 ms)) in
  if (10 <? Py.len latencies)%Z then
    let latency_stdev := Py.stdev latencies in
    let latency_mean := Py.mean latencies in
    if Py.Qltb 0 latency_mean
    then Py.root_scale latency_stdev (/ latency_mean * 100)
    else Py.root_zero
  else Py.root_zero.

Definition stability_ladder (disconnect_events : Z) (cv : Py.root) : Z * string :=
  if (disconnect_events =? 0)%Z && Py.root_ltb cv 20 then
    (100, "Conexão excelente e estável")
  else if (disconnect_events <? 3)%Z && Py.root_ltb cv 40 then
    (80, "Conexão boa com pequenas variações")
  else if (disconnect_events <? 5)%Z && Py.root_ltb cv 60 then
    (60, "Conexão instável, considere reiniciar roteador")
  else
    (40, "Conexão muito instável, verifique cabeamento e equipamentos").

Definition get_connection_stability (t : HealthTracker) : Stability.t :=
  match metrics t with
  | [] => no_history
  | _ :: _ =>
      let disconnect_events := disconnect_count (connection_state t) in
      let downtime := total_downtime (connection_state t) in
      let cv := latency_cv (metrics t) in
      let (stability_score, recommendation) := stability_ladder disconnect_events cv in
      Stability.Build stability_score disconnect_events (Py.round2 downtime)
        None (Py.root_round2 cv) recommendation
  end.

End Tracker.

(** ** Further operations of HealthTracker *)

Local Open Scope Z_scope.

(** *** Reading the history *)

(** [l[i:]]: a negative [i] counts from the end, and a bound out of range
    is clipped. *)
Definition slice_from {A : Type} (i : Z) (l : list A) : list A :=
  let n := Py.len l in
  let start := if i <? 0 then Z.max (n + i) 0 else Z.min i n in
  skipn (Z.to_nat start) l.

Definition get_recent_metrics (count : Z) (t : HealthTracker) : list Metric.t :=
  match metrics t with
  | [] => []
  | _ :: _ => slice_from (- count) (metrics t)
  end.

(** The dict returned by [get_statistics]: empty, with three keys, or with
    six. *)
Module Statistics.
Inductive t : Type :=
| Empty
| No_success (total_tests successful_tests : Z) (success_rate : Q)
| Full (avg_latency min_latency max_latency : Q)
       (total_tests successful_tests : Z) (success_rate : Q).
End Statistics.

Definition get_statistics (t : HealthTracker) : Statistics.t :=
  match metrics t with
  | [] => Statistics.Empty
  | _ :: _ =>
      let latencies := some_latencies (metrics t) in
      match latencies with
      | [] => Statistics.No_success (Py.len (metrics t)) 0 0.0%Q
      | l :: ls =>
          Statistics.Full
            (Py.round2 (Py.mean latencies))
            (Py.round2 (Py.min l ls))
            (Py.round2 (Py.max l ls))
            (Py.len (metrics t))
            (Py.len latencies)
            (Py.round2 (inject_Z (Py.len latencies) / inject_Z (Py.len (metrics t)) * 100))
      end
  end.

(** *** Fan-outs of probes *)

(** What a pool of [ping_test] workers leaves behind: the workers' results
    in the order [as_completed] yields them, the targets for which a worker
    ran the external probe, and [last_test_time] and [last_test_result] as
    the workers' [_update_cache] calls leave them, if any of them recorded.
    The workers run concurrently and are described by this record, not by
    the ticks of the environment. *)
Record fanout : Type := mkFanout {
  fan_completed : list (string * future_result);
  fan_probed : list string;
  fan_slot : option (Q * option Q)
}.

Definition run_fanout (f : fanout) : M unit :=
  fun w =>
    let t :=
      match fan_slot f with
      | Some (time, result) =>
          set_cache (mkCache (Some time) result (cache_duration (cache (self w)))) (self w)
      | None => self w
      end in
    (tt, mkWorld t (calls w) (disk w) (writable w)
           (events w ++ map Ev_probe (fan_probed f))).

(** [check_connectivity()] on the tracker, over a pool that behaves as [f];
    [None] when it raises. *)
Definition check_connectivity_on (f : fanout) (now : Q) : M (option (bool * option string)) :=
  match fan_completed f with
  | [] => ret None
  | _ :: _ =>
      run_fanout f ;;;
      t <- get_self ;;
      match check_connectivity (fan_completed f) now (connection_state t) with
      | None => ret None
      | Some (result, cs) =>
          modify_self (set_connection_state cs) ;;;
          ret (Some result)
      end
  end.

(** [latency and latency < best_latency]: a latency of 0.0 is false. *)
Definition truthy_and_lt (latency : Q) (best_latency : option Q) : bool :=
  negb (Qeq_bool latency 0) && lt_inf latency best_latency.

(** The loop of [get_best_ping_host] over the completed futures. *)
Fixpoint collect_best (completed : list (string * future_result))
    (best_latency : option Q) (best_host : option string)
    : option Q * option string :=
  match completed with
  | [] => (best_latency, best_host)
  | (host, r) :: rest =>
      match r with
      | Returned (Some latency) =>
          if truthy_and_lt latency best_latency
          then collect_best rest (Some latency) (Some host)
          else collect_best rest best_latency best_host
      | Returned None => collect_best rest best_latency best_host
      | Raised => collect_best rest best_latency best_host
      end
  end.

(** [get_best_ping_host], given the workers' results in completion order;
    [None] when it raises ([ThreadPoolExecutor(max_workers=0)]). *)
Definition get_best_ping_host (completed : list (string * future_result))
    : option (option string) :=
  match completed with
  | [] => None
  | _ :: _ => Some (snd (collect_best completed None None))
  end.

Definition get_best_ping_host_on (f : fanout) : M (option (option string)) :=
  match fan_completed f with
  | [] => ret None
  | _ :: _ => run_fanout f ;;; ret (get_best_ping_host (fan_completed f))
  end.

(** *** The diagnosis *)

(** How [socket.gethostbyname] ends, with the clock read before and after. *)
Inductive dns_outcome : Type :=
| Resolved (start finish : Q)
| Resolution_failed.            (* socket.gaierror or any other Exception *)

Definition test_dns_resolution (o : dns_outcome) : option Q :=
  match o with
  | Resolved start finish => Some ((finish - start) * 1000)%Q
  | Resolution_failed => None
  end.

(** The dict returned by [diagnose_connection]. *)
Module Diagnosis.
Record t : Type := Build {
  timestamp : string;
  connected : bool;
  best_host : option string;
  optimal_host : option string;
  health_score : Report.t;
  dns_resolution_time : option Q;
  stability : Stability.t;
  recommendations : list string
}.
End Diagnosis.

Definition no_connection_advice : list string :=
  [ "🔴 CRÍTICO: Sem conexão com a internet";
    "   - Verifique cabos de rede";
    "   - Reinicie o roteador";
    "   - Verifique configurações de rede" ].

Definition latency_advice : list string :=
  [ "⚠ Latência alta detectada";
    "   - Verifique se há downloads/uploads em andamento";
    "   - Teste em horários diferentes" ].

Definition packet_loss_advice : list string :=
  [ "⚠ Perda de pacotes significativa";
    "   - Verifique cabos e conexões";
    "   - Teste conexão cabeada ao invés de Wi-Fi" ].

Definition jitter_advice : list string :=
  [ "⚠ Variação de latência alta (Jitter)";
    "   - Reduza dispositivos conectados";
    "   - Priorize tráfego (QoS no roteador)" ].

Definition dns_advice : list string :=
  [ "⚠ Resolução DNS lenta";
    "   - Considere usar DNS público (8.8.8.8, 1.1.1.1)" ].

Definition disconnect_advice : list string :=
  [ "⚠ Múltiplas desconexões detectadas";
    "   - Verifique estabilidade do provedor";
    "   - Atualize firmware do roteador" ].

Definition healthy_advice : list string :=
  [ "✅ Conexão saudável, nenhum problema detectado" ].

(** Step 6 of [diagnose_connection]; [None] when a comparison raises
    TypeError ([health['jitter']] is [None] in the no-connection dict). *)
Definition recommend (is_connected : bool) (health : Report.t) (dns_time : option Q)
    (stability : Stability.t) : option (list string) :=
  let finish (recommendations : list string) :=
    match recommendations with
    | [] => healthy_advice
    | _ :: _ => recommendations
    end in
  if negb is_connected then Some (finish no_connection_advice)
  else
    let r1 :=
      match Report.latency health with
      | Some s => if Py.Qltb 100 (Report.avg s) then latency_advice else []
      | None => []
      end in
    let r2 := if Py.Qltb 5 (Report.packet_loss health) then packet_loss_advice else [] in
    match Report.jitter health with
    | None => None
    | Some jitter =>
        let r3 := if Py.Qltb 50 jitter then jitter_advice else [] in
        let r4 :=
          match dns_time with
          | Some d => if negb (Qeq_bool d 0) && Py.Qltb 100 d then dns_advice else []
          | None => []
          end in
        let r5 :=
          if 5 <? Stability.disconnect_events stability then disconnect_advice else [] in
        Some (finish (r1 ++ r2 ++ r3 ++ r4 ++ r5)%list)
    end.

Section Diagnose.

Variable E : env.

(** [diagnose_connection], given the two pools of workers, the clock read
    by [check_connectivity], the DNS lookup and the final timestamp; [None]
    when it raises.  A bare score in place of the dict cannot be
    subscripted. *)
Definition diagnose_connection (f1 : fanout) (now : Q) (dns : dns_outcome) (f2 : fanout)
    (timestamp : string) : M (option Diagnosis.t) :=
  c <- check_connectivity_on f1 now ;;
  match c with
  | None => ret None
  | Some (is_connected, best_host) =>
      health <- get_health_score E true ;;
      let dns_time := if is_connected then test_dns_resolution dns else None in
      t <- get_self ;;
      let stability := get_connection_stability t in
      optimal <- (if is_connected then get_best_ping_host_on f2 else ret (Some None)) ;;
      match optimal, health with
      | Some optimal_host, Detailed health =>
          match recommend is_connected health dns_time stability with
          | Some recommendations =>
              ret (Some (Diagnosis.Build timestamp is_connected best_host optimal_host
                           health dns_time stability recommendations))
          | None => ret None
          end
      | _, _ => ret None
      end
  end.

End Diagnose.

(** ** Parsing the output of ping

    [_parse_ping_output] searches the output with five regular
    expressions and falls back on every number followed by [ms].  A [str]
    is a list of code points.  The engine below is the backtracking
    matcher of [re] for the operators these patterns use: leftmost match,
    alternatives in order, greedy repetition.  The Unicode tables behind
    [\d], [\s] and [re.IGNORECASE], and [float()] on the captured text, are
    parameters. *)

Module Re.

Definition char : Type := N.

(** The code points of an ASCII literal. *)
Definition codes (s : string) : list char :=
  map N_of_ascii (list_ascii_of_string s).

(** A member of a character set: a character, [\d] or [\s]. *)
Inductive item : Type :=
| I_char (c : char)
| I_digit
| I_space.

Inductive regex : Type :=
| Eps
| Cls (items : list item)           (* [...] , or a single character or class *)
| Seq (r1 r2 : regex)
| Alt (r1 r2 : regex)               (* r1|r2 *)
| Star (r : regex)                  (* r*, greedy *)
| Group (r : regex).                (* (r), the capturing group *)

Definition Plus (r : regex) : regex := Seq r (Star r).      (* r+ *)
Definition Opt (r : regex) : regex := Alt r Eps.            (* r? *)

Definition seq (rs : list regex) : regex := fold_right Seq Eps rs.

Definition lit (c : string) : regex := seq (map (fun c => Cls [I_char c]) (codes c)).

Section Engine.

Variable is_digit : char -> bool.                 (* \d: the decimal digits of Unicode *)
Variable is_space : char -> bool.                 (* \s: the whitespace of Unicode *)
Variable same_letter : char -> char -> bool.      (* equal but for case *)

(** Whether the character [c] of the text matches a member of a set. *)
Definition item_matches (ignorecase : bool) (c : char) (i : item) : bool :=
  match i with
  | I_char p => (c =? p)%N || (ignorecase && same_letter p c)
  | I_digit => is_digit c
  | I_space => is_space c
  end.

Section Run.

Variable A : Type.
Variable ignorecase : bool.

(** [run r s cap k]: match [r] at the start of [s], then continue with
    [k] on the rest of the text and the text of the group; the first way to
    match that [k] accepts wins. *)
Fixpoint run (r : regex) (s : list char) (cap : option (list char))
    (k : list char -> option (list char) -> option A) {struct r} : option A :=
  match r with
  | Eps => k s cap
  | Cls items =>
      match s with
      | c :: s' => if existsb (item_matches ignorecase c) items then k s' cap else None
      | [] => None
      end
  | Seq r1 r2 => run r1 s cap (fun s' cap' => run r2 s' cap' k)
  | Alt r1 r2 =>
      match run r1 s cap k with
      | Some a => Some a
      | None => run r2 s cap k
      end
  | Star r1 =>
      (fix loop (n : nat) (s : list char) (cap : option (list char)) {struct n} : option A :=
         match n with
         | O => k s cap
         | S n' =>
             match run r1 s cap
                     (fun s' cap' =>
                        if (List.length s' <? List.length s)%nat then loop n' s' cap'
                        else None) with
             | Some a => Some a
             | None => k s cap
             end
         end) (List.length s) s cap
  | Group r1 =>
      run r1 s cap
        (fun s' _ => k s' (Some (firstn (List.length s - List.length s') s)))
  end.

End Run.

(** [re.search(r, s, flags)]: the text of the group in the leftmost
    match. *)
Fixpoint search (ignorecase : bool) (r : regex) (s : list char)
    : option (option (list char)) :=
  match run (option (list char)) ignorecase r s None (fun _ cap => Some cap) with
  | Some cap => Some cap
  | None =>
      match s with
      | [] => None
      | _ :: s' => search ignorecase r s'
      end
  end.

(** [re.findall(r, s)] for a pattern with one group: the text of the
    group in each match, scanning from left to right without overlap. *)
Fixpoint findall_from (fuel : nat) (r : regex) (s : list char) : list (option (list char)) :=
  match fuel with
  | O => []
  | S fuel' =>
      match run (list char * option (list char)) false r s None
              (fun s' cap => Some (s', cap)) with
      | Some (s', cap) =>
          cap :: match s with
                 | [] => []
                 | _ :: tail =>
                     if (List.length s' <? List.length s)%nat
                     then findall_from fuel' r s'
                     else findall_from fuel' r tail
                 end
      | None =>
          match s with
          | [] => []
          | _ :: tail => findall_from fuel' r tail
          end
      end
  end.

Definition findall (r : regex) (s : list char) : list (option (list char)) :=
  findall_from (S (List.length s)) r s.

End Engine.

End Re.

Section Parse.

Variable is_digit : Re.char -> bool.
Variable is_space : Re.char -> bool.
Variable same_letter : Re.char -> Re.char -> bool.

(** [float(text)]; [None] when it raises ValueError. *)
Variable float : list Re.char -> option Q.

Definition digit : Re.regex := Re.Cls [Re.I_digit].
Definition space : Re.regex := Re.Cls [Re.I_space].
Definition digit_or_dot : Re.regex := Re.Cls [Re.I_digit; Re.I_char 46%N].

(** [\d+(?:\.\d+)?] *)
Definition number : Re.regex :=
  Re.Seq (Re.Plus digit) (Re.Opt (Re.Seq (Re.lit ".") (Re.Plus digit))).

(** [M[ée]dia\s*=\s*(\d+(?:\.\d+)?)ms]; é is U+00E9. *)
Definition pattern_media : Re.regex :=
  Re.seq [Re.lit "M"; Re.Cls [Re.I_char 233%N; Re.I_char 101%N]; Re.lit "dia";
          Re.Star space; Re.lit "="; Re.Star space; Re.Group number; Re.lit "ms"].

(** [Average\s*=\s*(\d+(?:\.\d+)?)ms] *)
Definition pattern_average : Re.regex :=
  Re.seq [Re.lit "Average"; Re.Star space; Re.lit "="; Re.Star space;
          Re.Group number; Re.lit "ms"].

(** [min/avg/max/(?:mdev|stddev)\s*=\s*[\d.]+/([\d.]+)/[\d.]+/[\d.]+\s*ms],
    after [rtt\s+] or [round-trip\s+]. *)
Definition summary_after (name : string) : Re.regex :=
  Re.seq [Re.lit name; Re.Plus space; Re.lit "min/avg/max/";
          Re.Alt (Re.lit "mdev") (Re.lit "stddev"); Re.Star space; Re.lit "=";
          Re.Star space; Re.Plus digit_or_dot; Re.lit "/";
          Re.Group (Re.Plus digit_or_dot); Re.lit "/"; Re.Plus digit_or_dot; Re.lit "/";
          Re.Plus digit_or_dot; Re.Star space; Re.lit "ms"].

Definition pattern_rtt : Re.regex := summary_after "rtt".
Definition pattern_round_trip : Re.regex := summary_after "round-trip".

(** [time[=<]\s*(\d+(?:\.\d+)?)\s*ms] *)
Definition pattern_time : Re.regex :=
  Re.seq [Re.lit "time"; Re.Cls [Re.I_char 61%N; Re.I_char 60%N]; Re.Star space;
          Re.Group number; Re.Star space; Re.lit "ms"].

Definition patterns : list Re.regex :=
  [pattern_media; pattern_average; pattern_rtt; pattern_round_trip; pattern_time].

(** [(\d+(?:\.\d+)?)\s*ms] *)
Definition pattern_any_ms : Re.regex :=
  Re.seq [Re.Group number; Re.Star space; Re.lit "ms"].

(** The loop over the patterns: the group of the first pattern that
    matches. *)
Fixpoint first_match (ps : list Re.regex) (output : list Re.char)
    : option (option (list Re.char)) :=
  match ps with
  | [] => None
  | pattern :: rest =>
      match Re.search is_digit is_space same_letter true pattern output with
      | Some group => Some group
      | None => first_match rest output
      end
  end.

(** [[float(n) for n in numbers]]; [None] when a conversion raises. *)
Fixpoint floats (numbers : list (option (list Re.char))) : option (list Q) :=
  match numbers with
  | [] => Some []
  | n :: rest =>
      match n with
      | Some text =>
          match float text, floats rest with
          | Some v, Some vs => Some (v :: vs)
          | _, _ => None
          end
      | None => None
      end
  end.

(** Any exception is caught and gives [None]. *)
Definition _parse_ping_output (output : list Re.char) : option Q :=
  match first_match patterns output with
  | Some (Some text) => float text
  | Some None => None
  | None =>
      match Re.findall is_digit is_space same_letter pattern_any_ms output with
      | [] => None
      | numbers =>
          match floats numbers with
          | Some values =>
              match filter (fun v => Py.Qltb v 5000) values with
              | [] => None
              | valid_values => Some (Py.mean valid_values)
              end
          | None => None
          end
      end
  end.

End Parse.

(** ** The health panel of src/ui/gui.py

    [MonitorGUI] asks the tracker for a score in a worker thread and
    displays it on the main thread, where it asks for a second report to
    label the panel with.  Widgets are kept as the values and colours they
    are built from. *)

(** The three colours of COLORS that the health panel chooses among. *)
Inductive colour : Type :=
| Success                       (* COLORS['success'] *)
| Warning                       (* COLORS['warning'] *)
| Danger.                       (* COLORS['danger'] *)

(** What [health_data.get(key)] gives for the keys the panel reads. *)
Inductive value : Type :=
| V_none
| V_number (x : Q)
| V_dict (s : Report.stats).

Definition get_latency (health_data : Report.t) : value :=
  match Report.latency health_data with
  | Some s => V_dict s
  | None => V_none
  end.

Definition get_packet_loss (health_data : Report.t) : value :=
  V_number (Report.packet_loss health_data).

Definition get_jitter (health_data : Report.t) : value :=
  match Report.jitter health_data with
  | Some j => V_number j
  | None => V_none
  end.

(** [v is not None and isinstance(v, (int, float)) and v > bound] *)
Definition number_above (v : value) (bound : Q) : option Q :=
  match v with
  | V_number x => if Py.Qltb bound x then Some x else None
  | V_none => None
  | V_dict _ => None
  end.

(** The labels packed into [metrics_frame], each with the value it
    formats and its colour. *)
Inductive metric_label : Type :=
| Latency_label (v : Q) (c : colour)      (* "📡 {:.0f}ms" *)
| Loss_label (v : Q) (c : colour)         (* "⚠️ {:.0f}% perda" *)
| Jitter_label (v : Q) (c : colour).      (* "📈 {:.0f}ms" *)

Definition metric_labels (health_data : Report.t) : list metric_label :=
  (match number_above (get_latency health_data) 0 with
   | Some latency =>
       [Latency_label latency
          (if Py.Qltb latency 50 then Success
           else if Py.Qltb latency 100 then Warning else Danger)]
   | None => []
   end
   ++ match number_above (get_packet_loss health_data) 0 with
      | Some packet_loss =>
          [Loss_label packet_loss (if Py.Qltb packet_loss 10 then Warning else Danger)]
      | None => []
      end
   ++ match number_above (get_jitter health_data) 5 with
      | Some jitter =>
          [Jitter_label jitter (if Py.Qltb jitter 30 then Warning else Danger)]
      | None => []
      end)%list.

(** The colour of the score and of the category. *)
Definition score_color (score : Z) : colour :=
  if 80 <=? score then Success
  else if 60 <=? score then Warning
  else Danger.

(** [deque(maxlen=60).append(x)] *)
Definition deque_append {A : Type} (maxlen : nat) (d : list A) (x : A) : list A :=
  Py.lastn maxlen (d ++ [x]).

(** What [_update_health_display] puts in the health panel. *)
Record Panel : Type := mkPanel {
  panel_score : Z;
  panel_category : string;
  panel_color : colour;
  panel_labels : list metric_label;
  panel_graph : bool              (* whether _draw_health_graph is called *)
}.

(** [_update_health_display(score, category)] on the panel's
    [health_history]; the dict it asks the tracker for comes from a burst of
    its own.  [None] when a bare score comes back, which has no [get]. *)
Definition _update_health_display (E : env) (score : Z) (category : string)
    (health_history : list Z) : M (option (Panel * list Z)) :=
  let health_history := deque_append 60 health_history score in
  health_data <- get_health_score E true ;;
  match health_data with
  | Detailed health_data =>
      ret (Some (mkPanel score category (score_color score) (metric_labels health_data)
                   (2 <=? Py.len health_history),
                 health_history))
  | Bare _ => ret None
  end.

(** [_check_health_thread], followed by the display it schedules on the
    main thread. *)
Definition _check_health_thread (E : env) (health_history : list Z)
    : M (option (Panel * list Z)) :=
  health_data <- get_health_score E true ;;
  match health_data with
  | Detailed r =>
      _update_health_display E (Report.score r) (Report.category r) health_history
  | Bare score =>
      _update_health_display E score (get_health_category score) health_history
  end.

(** The points of the curve of [_draw_health_graph]: canvas 320 x 160,
    paddings 40, 15, 20 and 30. *)
Definition graph_width : Q := 320 - 40 - 15.
Definition graph_height : Q := 160 - 20 - 30.

Fixpoint graph_points_from (i : nat) (n : Z) (scores : list Z) : list (Q * Q) :=
  match scores with
  | [] => []
  | score :: rest =>
      ((40 + graph_width * inject_Z (Z.of_nat i) / inject_Z (n - 1))%Q,
       (20 + graph_height - graph_height * inject_Z score / 100)%Q)
      :: graph_points_from (S i) n rest
  end.

Definition graph_points (health_history : list Z) : list (Q * Q) :=
  graph_points_from 0 (Py.len health_history) health_history.

(** ** Reference definitions used by the statements *)

Local Open Scope Z_scope.

(** The score carried by either shape of result. *)
Definition score_of (r : score_result) : Z :=
  match r with
  | Bare n => n
  | Detailed rep => Report.score rep
  end.

(** A breakpoint ladder read downwards: the sub-score of the first
    breakpoint the value lies below, else the last sub-score. *)
Fixpoint ladder_below {V : Type} (ltb : V -> Q -> bool) (steps : list (Q * Z)) (last : Z) (x : V) : Z :=
  match steps with
  | [] => last
  | (b, s) :: rest => if ltb x b then s else ladder_below ltb rest last x
  end.

(** A breakpoint ladder read upwards: the sub-score of the first breakpoint
    the value reaches, else the last sub-score. *)
Fixpoint ladder_reach (steps : list (Q * Z)) (last : Z) (x : Q) : Z :=
  match steps with
  | [] => last
  | (b, s) :: rest => if Qle_bool b x then s else ladder_reach rest last x
  end.

(** latency 20/50/100/200/300 ms -> 100/90/70/50/30/10 *)
Definition latency_subscore : Q -> Z :=
  ladder_below Py.Qltb [(20%Q, 100); (50%Q, 90); (100%Q, 70); (200%Q, 50); (300%Q, 30)] 10.

(** loss 0/1/5/10/20 % -> 100/95/80/60/40/20: no loss at all scores 100. *)
Definition packet_loss_subscore (p : Q) : Z :=
  if Qle_bool p 0 then 100
  else ladder_below Py.Qltb [(1%Q, 95); (5%Q, 80); (10%Q, 60); (20%Q, 40)] 20 p.

(** jitter 5/10/30/50/100 ms -> 100/90/70/50/30/10 *)
Definition jitter_subscore : Py.root -> Z :=
  ladder_below Py.root_ltb [(5%Q, 100); (10%Q, 90); (30%Q, 70); (50%Q, 50); (100%Q, 30)] 10.

(** uptime 99/95/90/80 % -> 100/85/70/50/30 *)
Definition uptime_subscore : Q -> Z :=
  ladder_reach [(99%Q, 100); (95%Q, 85); (90%Q, 70); (80%Q, 50)] 30.

(** The share of connected records among the last 100, in percent; 100 for
    an empty history. *)
Definition uptime_share (ms : list Metric.t) : Q :=
  match ms with
  | [] => 100%Q
  | _ :: _ =>
      (inject_Z (Py.len (filter Metric.connected (Py.lastn 100 ms)))
       / inject_Z (Py.len (Py.lastn 100 ms)) * 100)%Q
  end.

(** The successful samples of a scoring burst started in world [w]. *)
Definition burst_samples (E : env) (w : World) : list Q :=
  fst (burst E (Z.to_nat ping_count) [] w).

(** *** What a probe leaves untouched *)

(** Two worlds that differ at most in the cache slot, the count of
    [ping_test] calls and the log of external actions. *)
Definition same_but_cache (w w' : World) : Prop :=
  metrics (self w') = metrics (self w)
  /\ connection_state (self w') = connection_state (self w)
  /\ ping_host (self w') = ping_host (self w)
  /\ cache_duration (cache (self w')) = cache_duration (cache (self w))
  /\ disk w' = disk w
  /\ writable w' = writable w.

(** *** The weighted score *)

(** The weighted sum of four sub-scores within 0..100, as a rational. *)
Definition weighted (l p j u : Z) : Q :=
  (0.4 * inject_Z l + 0.3 * inject_Z p + 0.2 * inject_Z j + 0.1 * inject_Z u)%Q.

(** The weighted sum as Python evaluates it, in binary64, left to right. *)
Module Binary64.
Import PrimFloat.
#[local] Set Warnings "-inexact-float".

Definition of_Z (n : Z) : float := of_uint63 (Uint63.of_Z n).

Definition final_score (latency_score packet_loss_score jitter_score uptime_score : Z) : float :=
  (of_Z latency_score * 0.4 + of_Z packet_loss_score * 0.3
   + of_Z jitter_score * 0.2 + of_Z uptime_score * 0.1)%float.

(** [int(x) = n] for a float [x >= 0]. *)
Definition truncates_to (x : float) (n : Z) : bool :=
  leb (of_Z n) x && ltb x (of_Z (n + 1)).

End Binary64.

(** Whether [f] holds of every combination of sub-scores the four ladders
    can give. *)
Definition every_subscore (f : Z -> Z -> Z -> Z -> bool) : bool :=
  forallb (fun l =>
    forallb (fun p =>
      forallb (fun j =>
        forallb (fun u => f l p j u) [100; 85; 70; 50; 30])
        [100; 90; 70; 50; 30; 10])
      [100; 95; 80; 60; 40; 20])
    [100; 90; 70; 50; 30; 10].

(** The results of the [n] calls of [ping_test] a burst makes from [w]. *)
Fixpoint burst_results (E : env) (n : nat) (w : World) : list (option Q) :=
  match n with
  | O => []
  | S n' => fst (ping_test E None w) :: burst_results E n' (snd (ping_test E None w))
  end.

Definition successes (rs : list (option Q)) : list Q :=
  flat_map (fun r => match r with Some l => [l] | None => [] end) rs.

(** A clock that advances 50 ms per [ping_test] call, each probe ending as
    [o] says and taking no time. *)
Definition every_50ms (o : nat -> probe_outcome) : env :=
  fun n => let t := (inject_Z (Z.of_nat n) * 0.05)%Q in mkTick t (o n) t.

(** A tracker just constructed, with no history file. *)
Definition new_world : World :=
  mkWorld (init (fun _ => None) "8.8.8.8" None) 0 None true [].

(** *** The probe cache *)

(** The number of external probe invocations in a log. *)
Definition probes (evs : list event) : nat :=
  List.length (filter (fun e => match e with Ev_probe _ => true | Ev_save _ => false end) evs).

(** The outcomes after which [ping_test] calls [_update_cache]. *)
Definition recorded (o : probe_outcome) : bool :=
  match o with
  | Exit_nonzero | Parsed _ | Unparsed | Timeout_expired => true
  | Tool_missing | Other_error => false
  end.

(** What [ping_test] returns when the probe ends as [o]. *)
Definition result_of (o : probe_outcome) : option Q :=
  match o with
  | Parsed latency => Some latency
  | _ => None
  end.

(** [host or self.ping_host] *)
Definition target (w : World) (host : option string) : string :=
  match host with
  | Some h => if (h =? "")%string then ping_host (self w) else h
  | None => ping_host (self w)
  end.

(** The world after [n] calls of [ping_test()]. *)
Fixpoint after_pings (E : env) (n : nat) (w : World) : World :=
  match n with
  | O => w
  | S n' => after_pings E n' (snd (ping_test E None w))
  end.

(** A slot filled at time 0 with 20 ms, then two requests, 1.5 s and 2.5 s
    later, to another target. *)
Definition stale_env : env :=
  fun n =>
    match n with
    | 0%nat => mkTick 0 (Parsed 20) 0
    | 1%nat => mkTick 1.5 (Parsed 25) 1.5
    | _ => mkTick 2.5 (Parsed 30) 2.5
    end.

Definition stale_world : World :=
  snd (ping_test stale_env (Some "8.8.8.8") new_world).

(** The ping tool is not installed: every probe raises FileNotFoundError. *)
Definition no_tool_env : env := every_50ms (fun _ => Tool_missing).

(** Two requests from two threads: the second starts while the probe of
    the first is still running. *)
Definition overlapped (E : env) (h1 h2 : option string) : M (option Q * option Q) :=
  s1 <- ping_test_start E h1 ;;
  s2 <- ping_test_start E h2 ;;
  r1 <- ping_test_finish s1 ;;
  r2 <- ping_test_finish s2 ;;
  ret (r1, r2).

(** Probes that take 20 ms, the second request 10 ms after the first. *)
Definition overlap_env : env :=
  fun n =>
    match n with
    | 0%nat => mkTick 0 (Parsed 20) 0.02
    | _ => mkTick 0.01 (Parsed 25) 0.03
    end.

(** *** A burst behind an older entry *)

(** The samples of a burst that is one measurement repeated: equal
    samples, no jitter, and none or all of the probes lost. *)
Definition one_measurement (pings : list Q) : Prop :=
  (forall x y, In x pings -> In y pings -> x = y)
  /\ (Py.radicand (jitter_of pings) == 0)%Q
  /\ ((packet_loss_pct pings == 0)%Q \/ (packet_loss_pct pings == 100)%Q).

(** A failure recorded at time 0, then a burst that starts 1.9 s later on
    a link that answers in 20 ms. *)
Definition late_env : env :=
  fun n =>
    match n with
    | O => mkTick 0 Timeout_expired 0
    | S m => let t := (1.9 + inject_Z (Z.of_nat m) * 0.05)%Q in mkTick t (Parsed 20) t
    end.

Definition late_world : World := snd (ping_test late_env None new_world).

(** The same with 80 ms recorded at time 0. *)
Definition drift_env : env :=
  fun n =>
    match n with
    | O => mkTick 0 (Parsed 80) 0
    | S m => let t := (1.9 + inject_Z (Z.of_nat m) * 0.05)%Q in mkTick t (Parsed 20) t
    end.

Definition drift_world : World := snd (ping_test drift_env None new_world).

(** *** The fan-out *)

(** Whether some worker returned a latency. *)
Definition any_success (completed : list (string * future_result)) : bool :=
  existsb (fun c => match snd c with Returned (Some _) => true | _ => false end) completed.

(** What the loop over the completed futures holds after consuming [done]:
    nothing while no probe has succeeded, else an occurrence of a success
    that is strictly below every success before it and not above any
    success after it. *)
Definition first_minimum (done : list (string * future_result))
    (fastest_latency : option Q) (fastest_host : option string) : Prop :=
  match fastest_latency, fastest_host with
  | None, None => forall h l, ~ In (h, Returned (Some l)) done
  | Some l, Some h =>
      exists pre post,
        done = (pre ++ (h, Returned (Some l)) :: post)%list
        /\ (forall h' l', In (h', Returned (Some l')) pre -> (l < l')%Q)
        /\ (forall h' l', In (h', Returned (Some l')) post -> (l <= l')%Q)
  | _, _ => False
  end.

(** The targets A, B, C answering 50 ms, 20 ms and not at all. *)
Definition abc : list (string * future_result) :=
  [("A", Returned (Some 50%Q)); ("B", Returned (Some 20%Q)); ("C", Returned None)].

Definition disconnected : ConnectionState := mkConnectionState false None None 0 0.

(** *** Connection transitions *)

(** A sequence of [check_connectivity] calls, each with the results of its
    workers and its reading of the clock; a call that raises leaves the
    state as it was. *)
Fixpoint run_checks (cs : ConnectionState)
    (calls : list (list (string * future_result) * Q)) : ConnectionState :=
  match calls with
  | [] => cs
  | (completed, now) :: rest =>
      match check_connectivity completed now cs with
      | Some (_, cs') => run_checks cs' rest
      | None => run_checks cs rest
      end
  end.

(** What the calls that return observe: whether some probe succeeded, and
    when. *)
Definition observations (calls : list (list (string * future_result) * Q)) : list (bool * Q) :=
  flat_map (fun c => match fst c with
                     | [] => []
                     | _ :: _ => [(any_success (fst c), snd c)]
                     end) calls.

(** The number of connected-to-disconnected transitions of a sequence of
    observations that starts from [prev]. *)
Fixpoint losses (prev : bool) (obs : list (bool * Q)) : Z :=
  match obs with
  | [] => 0
  | (b, _) :: rest => (if prev && negb b then 1 else 0) + losses b rest
  end.

(** The time spent disconnected that a sequence of observations accounts
    for: at each disconnected-to-connected transition, the time elapsed
    since the latest connected-to-disconnected one ([since], when known). *)
Fixpoint outage (prev : bool) (since : option Q) (obs : list (bool * Q)) : Q :=
  match obs with
  | [] => 0%Q
  | (b, now) :: rest =>
      ((if negb prev && b
        then match since with Some t => now - t | None => 0 end
        else 0)
       + outage b (if prev && negb b then Some now else since) rest)%Q
  end.

(** *** The history *)

(** The record a [log_metrics] call started in [w] appends. *)
Definition logged_metric (E : env) (timestamp : string) (w : World) : Metric.t :=
  let latency := fst (ping_test E None w) in
  let score := score_of (fst (get_health_score E false (snd (ping_test E None w)))) in
  Metric.Build timestamp latency
    match latency with Some _ => true | None => false end
    score (get_health_category score).

(** The world in which a [log_metrics] call started in [w] appends its
    record: after its probe and its burst. *)
Definition after_scoring (E : env) (w : World) : World :=
  snd (get_health_score E false (snd (ping_test E None w))).

(** Successive [log_metrics] calls, one per timestamp. *)
Fixpoint log_many (E : env) (float_repr : Q -> string) (tss : list string) (w : World) : World :=
  match tss with
  | [] => w
  | ts :: rest => log_many E float_repr rest (snd (log_metrics E float_repr ts w))
  end.

(** The records those calls append, in order. *)
Fixpoint logged_metrics (E : env) (float_repr : Q -> string) (tss : list string) (w : World)
    : list Metric.t :=
  match tss with
  | [] => []
  | ts :: rest =>
      logged_metric E ts w
      :: logged_metrics E float_repr rest (snd (log_metrics E float_repr ts w))
  end.

(** *** The periodic flush *)

(** The number of flushes attempted in a log. *)
Definition flushes (evs : list event) : nat :=
  List.length (filter (fun e => match e with Ev_save _ => true | Ev_probe _ => false end) evs).

(** A stand-in for the text of a float, to run the model on: the
    numerator, [e], the denominator. *)
Definition fraction_repr (q : Q) : string :=
  Json.put_int (Qnum q) (String "e" (Json.put_int (Zpos (Qden q)) EmptyString)).

Definition sample_record : Metric.t :=
  Metric.Build "2026-01-01T00:00:00" (Some 20%Q) true 96 "Excelente".

(** A tracker whose history holds 1000 records. *)
Definition full_world : World :=
  mkWorld (set_metrics (repeat sample_record 1000) (self new_world)) 0 None true [].

(** *** The stability report *)

(** The coefficient of variation as the specification defines it: over the
    latencies of the last 100 records that have one, stdev / mean * 100,
    and 0 when there are 10 or fewer of them. *)
Definition claimed_latency_cv (ms : list Metric.t) : Py.root :=
  let latencies := some_latencies (Py.lastn 100 ms) in
  if (10 <? Py.len latencies)
  then Py.root_scale (Py.stdev latencies) (/ Py.mean latencies * 100)
  else Py.root_zero.

(** A record has a usable latency when it has one and it is positive. *)
Definition positive_latency (m : Metric.t) : Prop :=
  match Metric.latency m with
  | Some l => (0 < l)%Q
  | None => True
  end.

(** Ten records of 10 ms after one of 0 ms. *)
Definition zero_latency_history : list Metric.t :=
  Metric.Build "2026-01-01T00:00:00" (Some 0%Q) true 96 "Excelente"
  :: repeat (Metric.Build "2026-01-01T00:00:10" (Some 10%Q) true 96 "Excelente") 10.

(** *** The history file: reading back what was written *)

Fixpoint all_num_chars (s : string) : bool :=
  match s with
  | EmptyString => true
  | String c s' => Json.is_num_char c && all_num_chars s'
  end.

(** The shape of the text of a float: characters of a number, with a
    fraction or an exponent. *)
Definition float_token (s : string) : bool :=
  match s with
  | EmptyString => false
  | String _ _ => all_num_chars s && Json.has_float_mark s
  end.

(** The text of [q] is that of a float and reads back as [q]. *)
Definition float_text_ok (fr : Q -> string) (fs : string -> option Q) (q : Q) : Prop :=
  fs (fr q) = Some q /\ float_token (fr q) = true.

Definition scalar_ok (fr : Q -> string) (fs : string -> option Q) (v : Json.scalar) : Prop :=
  match v with
  | Json.Float q => float_text_ok fr fs q
  | _ => True
  end.

Definition metric_ok (fr : Q -> string) (fs : string -> option Q) (m : Metric.t) : Prop :=
  match Metric.latency m with
  | Some q => float_text_ok fr fs q
  | None => True
  end.

(** An object the reader recovers: all its values are. *)
Definition object_ok (fr : Q -> string) (fs : string -> option Q) (o : Json.object) : Prop :=
  Forall (fun kv => scalar_ok fr fs (snd kv)) o.

(** What may follow a number: the end of the text or a character that is
    not part of a number. *)
Definition ends_number (k : string) : bool :=
  match k with
  | EmptyString => true
  | String c _ => negb (Json.is_num_char c)
  end.

(** *** A text for floats to run the reader on *)

(** The text before the first [e] and the text after it. *)
Fixpoint split_at_e (s : string) : string * string :=
  match s with
  | EmptyString => (EmptyString, EmptyString)
  | String c s' =>
      if (c =? "e")%char then (EmptyString, s')
      else let (a, b) := split_at_e s' in (String c a, b)
  end.

(** The reading of [fraction_repr]. *)
Definition fraction_of_string (s : string) : option Q :=
  let (a, b) := split_at_e s in
  match NilZero.int_of_string a, NilZero.int_of_string b with
  | Some n, Some d =>
      match Z.of_int d with
      | Z.pos p => Some (Qmake (Z.of_int n) p)
      | _ => None
      end
  | _, _ => None
  end.

(** A history of two records, one of them a failed probe. *)
Definition two_records : list Metric.t :=
  [ sample_record;
    Metric.Build "2026-01-01T00:00:02" None false 0 "Ruim" ].

Definition two_records_world : World :=
  mkWorld (set_metrics two_records (self new_world)) 0 None true [].

(** *** The best target and the diagnosis *)

(** What the loop of [get_best_ping_host] holds after consuming [done]:
    nothing while no probe has returned a latency other than 0.0, else an
    occurrence of such a latency that is strictly below every one before
    it and not above any one after it. *)
Definition best_so_far (done : list (string * future_result))
    (best_latency : option Q) (best_host : option string) : Prop :=
  match best_latency, best_host with
  | None, None => forall h l, In (h, Returned (Some l)) done -> (l == 0)%Q
  | Some l, Some h =>
      ~ (l == 0)%Q
      /\ exists pre post,
           done = (pre ++ (h, Returned (Some l)) :: post)%list
           /\ (forall h' l', In (h', Returned (Some l')) pre -> ~ (l' == 0)%Q -> (l < l')%Q)
           /\ (forall h' l', In (h', Returned (Some l')) post -> ~ (l' == 0)%Q -> (l <= l')%Q)
  | _, _ => False
  end.

(** The world in which [diagnose_connection] scores the link: after its
    connectivity check. *)
Definition after_connectivity (f : fanout) (now : Q) (w : World) : World :=
  snd (check_connectivity_on f now w).

(** Two targets answered and the third, the last to finish, left its
    failure in the slot at time 5. *)
Definition one_target_down : fanout :=
  mkFanout
    [("8.8.8.8", Returned (Some 20%Q)); ("1.1.1.1", Returned (Some 25%Q));
     ("208.67.222.222", Returned None)]
    ["8.8.8.8"; "1.1.1.1"; "208.67.222.222"]
    (Some (5%Q, None)).

(** No target answered. *)
Definition all_targets_down : fanout :=
  mkFanout
    [("8.8.8.8", Returned None); ("1.1.1.1", Returned None);
     ("208.67.222.222", Returned None)]
    ["8.8.8.8"; "1.1.1.1"; "208.67.222.222"]
    (Some (5%Q, None)).

(** All three targets answered, the slowest last. *)
Definition all_targets_up : fanout :=
  mkFanout
    [("8.8.8.8", Returned (Some 20%Q)); ("1.1.1.1", Returned (Some 25%Q));
     ("208.67.222.222", Returned (Some 30%Q))]
    ["8.8.8.8"; "1.1.1.1"; "208.67.222.222"]
    (Some (5%Q, Some 30%Q)).

(** A link that answers every probe in 20 ms, probed every 50 ms from
    time 5.1 on. *)
Definition answering_env : env :=
  fun n => let t := (5.1 + inject_Z (Z.of_nat n) * 0.05)%Q in mkTick t (Parsed 20) t.

(** What [diagnose_connection] finds nothing to advise on. *)
Definition nothing_to_advise (d : Diagnosis.t) : Prop :=
  Diagnosis.connected d = true
  /\ match Report.latency (Diagnosis.health_score d) with
     | Some s => (Report.avg s <= 100)%Q
     | None => True
     end
  /\ (Report.packet_loss (Diagnosis.health_score d) <= 5)%Q
  /\ match Report.jitter (Diagnosis.health_score d) with
     | Some j => (j <= 50)%Q
     | None => True
     end
  /\ match Diagnosis.dns_resolution_time d with
     | Some t => (t <= 100)%Q
     | None => True
     end
  /\ Stability.disconnect_events (Diagnosis.stability d) <= 5.

(** *** The records of the history and the loss ladder *)

(** What [log_metrics] guarantees of the record it appends. *)
Definition well_formed (m : Metric.t) : Prop :=
  (Metric.connected m = true <-> Metric.latency m <> None)
  /\ 0 <= Metric.score m <= 100
  /\ Metric.category m = get_health_category (Metric.score m).

(** The alerts of the two rungs of the loss ladder that ten probes cannot
    reach. *)
Definition unreachable_loss_alert (a : alert) : bool :=
  match a with
  | Perda_pacotes _ | Perda_significativa _ => true
  | _ => false
  end.

(** *** The connection state over time *)

(** The readings of [datetime.now()] of a sequence of checks never step
    back, starting from [t]. *)
Fixpoint clock_from (t : Q) (calls : list (list (string * future_result) * Q)) : Prop :=
  match calls with
  | [] => True
  | (_, now) :: rest => (t <= now)%Q /\ clock_from now rest
  end.

(** The latest disconnection on record, if any, is not after [t]. *)
Definition disconnected_by (cs : ConnectionState) (t : Q) : Prop :=
  match last_disconnected cs with
  | Some d => (d <= t)%Q
  | None => True
  end.

(** A link found up at 10 and down at 20, then up again by a clock set
    back to 15. *)
Definition clock_set_back : list (list (string * future_result) * Q) :=
  [ (abc, 10%Q); ([("A", Returned None)], 20%Q); (abc, 15%Q) ].

(** A tracker with a history and five disconnections on record. *)
Definition five_disconnections : HealthTracker :=
  set_metrics two_records
    (set_connection_state (mkConnectionState false (Some 1%Q) (Some 2%Q) 5 1)
       (self new_world)).

(** *** What a restart finds on disk *)

(** What a tracker constructed now would load from the history file. *)
Definition restart (float_of_string : string -> option Q) (w : World) : list Metric.t :=
  metrics (init float_of_string (ping_host (self w)) (disk w)).

(** The history is what a restart would load, followed by the records
    appended since the last flush, fewer than the position in the current
    ten. *)
Definition flushed_up_to_ten (fs : string -> option Q) (w : World) : Prop :=
  exists unsaved : list Metric.t,
    metrics (self w) = (restart fs w ++ unsaved)%list
    /\ Py.len unsaved <= Py.len (metrics (self w)) mod 10.

(** *** Parsing the output of ping *)

(** What it is for a text to match a pattern, and the text of the group
    after the match. *)
Inductive matches (is_digit is_space : Re.char -> bool)
    (same_letter : Re.char -> Re.char -> bool) (ignorecase : bool)
    : Re.regex -> list Re.char -> option (list Re.char) -> option (list Re.char) -> Prop :=
| M_eps (cap : option (list Re.char)) :
    matches is_digit is_space same_letter ignorecase Re.Eps [] cap cap
| M_cls (items : list Re.item) (c : Re.char) (cap : option (list Re.char)) :
    existsb (Re.item_matches is_digit is_space same_letter ignorecase c) items = true ->
    matches is_digit is_space same_letter ignorecase (Re.Cls items) [c] cap cap
| M_seq (r1 r2 : Re.regex) (s1 s2 : list Re.char) (c0 c1 c2 : option (list Re.char)) :
    matches is_digit is_space same_letter ignorecase r1 s1 c0 c1 ->
    matches is_digit is_space same_letter ignorecase r2 s2 c1 c2 ->
    matches is_digit is_space same_letter ignorecase (Re.Seq r1 r2) (s1 ++ s2) c0 c2
| M_alt_l (r1 r2 : Re.regex) (s : list Re.char) (c0 c1 : option (list Re.char)) :
    matches is_digit is_space same_letter ignorecase r1 s c0 c1 ->
    matches is_digit is_space same_letter ignorecase (Re.Alt r1 r2) s c0 c1
| M_alt_r (r1 r2 : Re.regex) (s : list Re.char) (c0 c1 : option (list Re.char)) :
    matches is_digit is_space same_letter ignorecase r2 s c0 c1 ->
    matches is_digit is_space same_letter ignorecase (Re.Alt r1 r2) s c0 c1
| M_star_nil (r : Re.regex) (cap : option (list Re.char)) :
    matches is_digit is_space same_letter ignorecase (Re.Star r) [] cap cap
| M_star_cons (r : Re.regex) (s1 s2 : list Re.char) (c0 c1 c2 : option (list Re.char)) :
    matches is_digit is_space same_letter ignorecase r s1 c0 c1 ->
    matches is_digit is_space same_letter ignorecase (Re.Star r) s2 c1 c2 ->
    matches is_digit is_space same_letter ignorecase (Re.Star r) (s1 ++ s2) c0 c2
| M_group (r : Re.regex) (s : list Re.char) (c0 c1 : option (list Re.char)) :
    matches is_digit is_space same_letter ignorecase r s c0 c1 ->
    matches is_digit is_space same_letter ignorecase (Re.Group r) s c0 (Some s).

(** Whether the character [c] of the text is the letter [p], in either
    case. *)
Definition letter_matches (same_letter : Re.char -> Re.char -> bool) (p c : Re.char) : bool :=
  (c =? p)%N || same_letter p c.

(** Whether the text holds an [m] followed by an [s], in either case. *)
Fixpoint mentions_ms (same_letter : Re.char -> Re.char -> bool) (s : list Re.char) : bool :=
  match s with
  | [] => false
  | a :: rest =>
      match rest with
      | b :: _ => letter_matches same_letter 109%N a && letter_matches same_letter 115%N b
      | [] => false
      end
      || mentions_ms same_letter rest
  end.

(** Every character set of the pattern lies within [[\d.]]. *)
Fixpoint digits_and_dots (r : Re.regex) : bool :=
  match r with
  | Re.Eps => true
  | Re.Cls items =>
      forallb (fun i => match i with
                        | Re.I_digit => true
                        | Re.I_char c => (c =? 46)%N
                        | Re.I_space => false
                        end) items
  | Re.Seq r1 r2 | Re.Alt r1 r2 => digits_and_dots r1 && digits_and_dots r2
  | Re.Star r1 | Re.Group r1 => digits_and_dots r1
  end.

(** Every group of the pattern holds digits and dots only. *)
Fixpoint groups_numeric (r : Re.regex) : bool :=
  match r with
  | Re.Eps | Re.Cls _ => true
  | Re.Seq r1 r2 | Re.Alt r1 r2 => groups_numeric r1 && groups_numeric r2
  | Re.Star r1 => groups_numeric r1
  | Re.Group r1 => digits_and_dots r1
  end.

(** A character that [\d] or [\.] accepts. *)
Definition numeric_char (is_digit : Re.char -> bool)
    (same_letter : Re.char -> Re.char -> bool) (c : Re.char) : Prop :=
  is_digit c = true \/ letter_matches same_letter 46%N c = true.

(** The tables restricted to ASCII, and [float()] on decimal text. *)
Definition ascii_digit (c : Re.char) : bool := ((48 <=? c) && (c <=? 57))%N.

Definition ascii_space (c : Re.char) : bool :=
  existsb (N.eqb c) [9; 10; 11; 12; 13; 28; 29; 30; 31; 32]%N.

Definition ascii_lower (c : Re.char) : Re.char :=
  if ((65 <=? c) && (c <=? 90))%N then (c + 32)%N else c.

Definition ascii_same_letter (p c : Re.char) : bool :=
  (ascii_lower p =? ascii_lower c)%N.

Fixpoint digits_value (acc : N) (s : list Re.char) : option N :=
  match s with
  | [] => Some acc
  | c :: s' => if ascii_digit c then digits_value (acc * 10 + (c - 48)) s' else None
  end.

Fixpoint split_at_dot (s : list Re.char) : list Re.char * option (list Re.char) :=
  match s with
  | [] => ([], None)
  | c :: s' =>
      if (c =? 46)%N then ([], Some s')
      else let (a, b) := split_at_dot s' in (c :: a, b)
  end.

Fixpoint pow10 (k : nat) : positive :=
  match k with
  | O => 1%positive
  | S k' => (10 * pow10 k')%positive
  end.

(** Digits, with at most one dot among them and at least one digit. *)
Definition decimal_float (text : list Re.char) : option Q :=
  let (whole, rest) := split_at_dot text in
  match rest with
  | None =>
      match whole with
      | [] => None
      | _ :: _ => option_map (fun n => inject_Z (Z.of_N n)) (digits_value 0 whole)
      end
  | Some fraction =>
      match whole, fraction with
      | [], [] => None
      | _, _ =>
          match digits_value 0 whole, digits_value 0 fraction with
          | Some a, Some b =>
              Some (Qmake (Z.of_N (a * Npos (pow10 (List.length fraction)) + b))
                      (pow10 (List.length fraction)))
          | _, _ => None
          end
      end
  end.

(** A reply line and the summary of ping on Linux, the summary of ping on
    Windows, and a timeout. *)
Definition linux_output : list Re.char :=
  (Re.codes "64 bytes from 8.8.8.8: icmp_seq=1 ttl=117 time=23.4 ms" ++ [10%N]
   ++ Re.codes "rtt min/avg/max/mdev = 12.3/45.6/78.9/10.2 ms")%list.

Definition windows_output : list Re.char :=
  (Re.codes "Reply from 8.8.8.8: bytes=32 time=14ms TTL=117" ++ [10%N]
   ++ Re.codes "    Minimum = 10ms, Maximum = 14ms, Average = 12ms")%list.

Definition timeout_output : list Re.char := Re.codes "Request timed out.".

(** * Proofs *)

(** ** Numbers *)

Lemma Qltb_lt (x y : Q) : Py.Qltb x y = true <-> (x < y)%Q.
Proof.
  unfold Py.Qltb. rewrite negb_true_iff, <- not_true_iff_false, Qle_bool_iff.
  split; [apply Qnot_le_lt | apply Qlt_not_le].
Qed.

Lemma Qltb_ge (x y : Q) : Py.Qltb x y = false <-> (y <= x)%Q.
Proof.
  unfold Py.Qltb. rewrite negb_false_iff. apply Qle_bool_iff.
Qed.

Lemma int_floor (x : Q) : (0 <= x)%Q -> Py.int x = Qfloor x.
Proof.
  destruct x as [n d]. unfold Qle, Py.int, Qfloor. simpl. intros H.
  apply Z.quot_div_nonneg; lia.
Qed.

Lemma len_nonneg {A : Type} (l : list A) : 0 <= Py.len l.
Proof. unfold Py.len. lia. Qed.

Lemma lastn_length {A : Type} (n : nat) (l : list A) :
  List.length (Py.lastn n l) = Nat.min n (List.length l).
Proof. unfold Py.lastn. rewrite length_skipn. lia. Qed.

Lemma lastn_all {A : Type} (n : nat) (l : list A) :
  (List.length l <= n)%nat -> Py.lastn n l = l.
Proof.
  intros H. unfold Py.lastn. replace (List.length l - n)%nat with 0%nat by lia.
  reflexivity.
Qed.

Lemma lastn_app {A : Type} (n : nat) (l1 l2 : list A) :
  (n <= List.length l2)%nat -> Py.lastn n (l1 ++ l2) = Py.lastn n l2.
Proof.
  intros H. unfold Py.lastn. rewrite length_app, skipn_app.
  replace (List.length l1 + List.length l2 - n - List.length l1)%nat
    with (List.length l2 - n)%nat by lia.
  rewrite skipn_all2 by lia. reflexivity.
Qed.

Lemma sum_squares_nonneg (m : Q) (l : list Q) :
  (0 <= Py.sum (map (fun x => (x - m) * (x - m)) l))%Q.
Proof.
  unfold Py.sum. induction l as [|x l IH]; cbn [map fold_right]; [lra|].
  set (d := (x - m)%Q).
  assert (Hd : (0 <= d * d)%Q).
  { destruct (Qlt_le_dec d 0) as [Hneg|Hpos].
    - setoid_replace (d * d)%Q with ((- d) * (- d))%Q by ring.
      apply Qmult_le_0_compat; lra.
    - apply Qmult_le_0_compat; exact Hpos. }
  lra.
Qed.

(** The sample variance of two or more values is not negative, so
    [stdev] takes the root of a nonnegative number. *)
Lemma variance_nonneg (l : list Q) :
  1 < Py.len l -> (0 <= Py.variance l)%Q.
Proof.
  intros H. unfold Py.variance.
  apply Qle_shift_div_l.
  - change 0%Q with (inject_Z 0). rewrite <- Zlt_Qlt. lia.
  - rewrite Qmult_0_l. apply sum_squares_nonneg.
Qed.

(** The comparisons and products taken on the squares are those of the
    real square roots. *)
Module RootSemantics.
Import Reals Qreals.
Local Open Scope R_scope.

Lemma root_zero_value : Py.root_value Py.root_zero = 0.
Proof.
  unfold Py.root_value, Py.root_zero. cbn [Py.radicand].
  rewrite RMicromega.Q2R_0. apply sqrt_0.
Qed.

Lemma root_ltb_sound (r : Py.root) (c : Q) :
  (0 <= Py.radicand r)%Q -> (0 <= c)%Q ->
  Py.root_ltb r c = true <-> Py.root_value r < Q2R c.
Proof.
  intros Hv Hc. unfold Py.root_ltb, Py.root_value. rewrite Qltb_lt.
  apply Qle_Rle in Hv, Hc. rewrite RMicromega.Q2R_0 in Hv, Hc.
  split; intros H.
  - apply Qlt_Rlt in H. rewrite Q2R_mult in H.
    rewrite <- (sqrt_square (Q2R c)) by exact Hc.
    apply sqrt_lt_1_alt. split; assumption.
  - apply Rlt_Qlt. rewrite Q2R_mult.
    rewrite <- (sqrt_square (Q2R c)) in H by exact Hc.
    apply sqrt_lt_0_alt in H. exact H.
Qed.

Lemma root_scale_sound (r : Py.root) (k : Q) :
  (0 <= Py.radicand r)%Q -> (0 <= k)%Q ->
  Py.root_value (Py.root_scale r k) = Py.root_value r * Q2R k.
Proof.
  intros Hv Hk. unfold Py.root_value, Py.root_scale. cbn [Py.radicand].
  apply Qle_Rle in Hv, Hk. rewrite RMicromega.Q2R_0 in Hv, Hk.
  rewrite !Q2R_mult, sqrt_mult, sqrt_square; auto.
  apply Rmult_le_pos; assumption.
Qed.

End RootSemantics.

(** ** What a probe leaves untouched *)

Ltac unfold_monad :=
  unfold bind, ret, get_self, next_tick, emit, record_result, modify_self,
    set_cache, _update_cache in *; simpl in *.

Lemma same_but_cache_refl (w : World) : same_but_cache w w.
Proof. repeat split. Qed.

Lemma same_but_cache_trans (w1 w2 w3 : World) :
  same_but_cache w1 w2 -> same_but_cache w2 w3 -> same_but_cache w1 w3.
Proof.
  unfold same_but_cache. intros (A1 & A2 & A3 & A4 & A5 & A6) (B1 & B2 & B3 & B4 & B5 & B6).
  repeat split; congruence.
Qed.

Lemma ping_test_frame (E : env) (host : option string) (w : World) :
  same_but_cache w (snd (ping_test E host w)).
Proof.
  unfold ping_test. unfold_monad.
  destruct (_check_cache _ _ _); simpl; [repeat split|].
  destruct (outcome (E (calls w))); simpl; repeat split.
Qed.

Lemma ping_test_calls (E : env) (host : option string) (w : World) :
  calls (snd (ping_test E host w)) = S (calls w).
Proof.
  unfold ping_test. unfold_monad.
  destruct (_check_cache _ _ _); simpl; [reflexivity|].
  destruct (outcome (E (calls w))); reflexivity.
Qed.

Lemma burst_step (E : env) (n : nat) (pings : list Q) (w : World) :
  burst E (S n) pings w =
  burst E n (match fst (ping_test E None w) with
             | Some l => pings ++ [l]
             | None => pings
             end)%list
    (snd (ping_test E None w)).
Proof.
  simpl. unfold bind. destruct (ping_test E None w) as [r w']. reflexivity.
Qed.

Lemma burst_frame (E : env) (n : nat) : forall (pings : list Q) (w : World),
  same_but_cache w (snd (burst E n pings w)).
Proof.
  induction n as [|n IH]; intros pings w.
  - apply same_but_cache_refl.
  - rewrite burst_step.
    eapply same_but_cache_trans; [apply ping_test_frame | apply IH].
Qed.

Lemma burst_length (E : env) (n : nat) : forall (pings : list Q) (w : World),
  (List.length pings <= List.length (fst (burst E n pings w)) <= List.length pings + n)%nat.
Proof.
  induction n as [|n IH]; intros pings w.
  - simpl. lia.
  - rewrite burst_step.
    destruct (fst (ping_test E None w)) as [l|].
    + specialize (IH (pings ++ [l])%list (snd (ping_test E None w))).
      rewrite length_app in IH. simpl in IH. lia.
    + specialize (IH pings (snd (ping_test E None w))). lia.
Qed.

Lemma burst_samples_length (E : env) (w : World) :
  (List.length (burst_samples E w) <= 10)%nat.
Proof.
  unfold burst_samples. change (Z.to_nat ping_count) with 10%nat.
  pose proof (burst_length E 10 [] w) as H.
  change (List.length (@nil Q)) with 0%nat in H. lia.
Qed.

Lemma get_health_score_eq (E : env) (detailed : bool) (w : World) :
  get_health_score E detailed w =
  (score_pings (metrics (self w)) (burst_samples E w) detailed,
   snd (burst E (Z.to_nat ping_count) [] w)).
Proof.
  unfold get_health_score, burst_samples, bind, get_self, ret.
  pose proof (burst_frame E (Z.to_nat ping_count) [] w) as (Hm & _).
  destruct (burst E (Z.to_nat ping_count) [] w) as [pings w']. simpl in *.
  rewrite Hm. reflexivity.
Qed.

(** ** The weighted score *)

Lemma latency_score_ladder (x : Q) : fst (latency_score x) = latency_subscore x.
Proof.
  unfold latency_score, latency_subscore. simpl.
  repeat (destruct (Py.Qltb x _); [reflexivity|]). reflexivity.
Qed.

Lemma packet_loss_score_ladder (p : Q) :
  (0 <= p)%Q -> fst (packet_loss_score p) = packet_loss_subscore p.
Proof.
  intros Hp. unfold packet_loss_score, packet_loss_subscore. simpl.
  destruct (Qeq_bool p 0) eqn:He; destruct (Qle_bool p 0) eqn:Hl.
  - reflexivity.
  - apply Qeq_bool_iff in He. rewrite <- not_true_iff_false, Qle_bool_iff in Hl.
    exfalso. apply Hl. rewrite He. apply Qle_refl.
  - apply Qle_bool_iff in Hl. rewrite <- not_true_iff_false, Qeq_bool_iff in He.
    exfalso. apply He. apply Qle_antisym; assumption.
  - repeat (destruct (Py.Qltb p _); [reflexivity|]). reflexivity.
Qed.

Lemma jitter_score_ladder (j : Py.root) : fst (jitter_score j) = jitter_subscore j.
Proof.
  unfold jitter_score, jitter_subscore. simpl.
  repeat (destruct (Py.root_ltb j _); [reflexivity|]). reflexivity.
Qed.

Lemma uptime_score_ladder (ms : list Metric.t) :
  fst (snd (uptime_score ms)) = uptime_subscore (uptime_share ms).
Proof.
  destruct ms as [|m ms]; [reflexivity|].
  unfold uptime_score, uptime_share, uptime_percent.
  assert (H : (0 <? Py.len (Py.lastn 100 (m :: ms))) = true).
  { apply Z.ltb_lt. unfold Py.len. rewrite lastn_length. simpl List.length. lia. }
  rewrite H. cbv zeta. simpl fst. simpl snd.
  set (u := (_ / _ * 100)%Q). unfold uptime_subscore. simpl.
  repeat (destruct (Qle_bool _ u); [reflexivity|]). reflexivity.
Qed.

Lemma latency_subscore_range (x : Q) : 10 <= latency_subscore x <= 100.
Proof.
  unfold latency_subscore. simpl.
  repeat (destruct (Py.Qltb x _); [lia|]). lia.
Qed.

Lemma packet_loss_subscore_range (p : Q) : 20 <= packet_loss_subscore p <= 100.
Proof.
  unfold packet_loss_subscore. simpl. destruct (Qle_bool p 0); [lia|].
  repeat (destruct (Py.Qltb p _); [lia|]). lia.
Qed.

Lemma jitter_subscore_range (j : Py.root) : 10 <= jitter_subscore j <= 100.
Proof.
  unfold jitter_subscore. simpl.
  repeat (destruct (Py.root_ltb j _); [lia|]). lia.
Qed.

Lemma uptime_subscore_range (u : Q) : 30 <= uptime_subscore u <= 100.
Proof.
  unfold uptime_subscore. simpl.
  repeat (destruct (Qle_bool _ u); [lia|]). lia.
Qed.

Lemma weighted_range (l p j u : Z) :
  0 <= l <= 100 -> 0 <= p <= 100 -> 0 <= j <= 100 -> 0 <= u <= 100 ->
  (0 <= weighted l p j u <= 100)%Q.
Proof.
  intros [Hl1 Hl2] [Hp1 Hp2] [Hj1 Hj2] [Hu1 Hu2]. unfold weighted.
  rewrite Zle_Qle in Hl1, Hl2, Hp1, Hp2, Hj1, Hj2, Hu1, Hu2.
  change (inject_Z 0) with 0%Q in *. change (inject_Z 100) with 100%Q in *.
  split; lra.
Qed.

Lemma final_score_floor (l p j u : Z) :
  0 <= l <= 100 -> 0 <= p <= 100 -> 0 <= j <= 100 -> 0 <= u <= 100 ->
  final_score l p j u = Qfloor (weighted l p j u)
  /\ 0 <= final_score l p j u <= 100.
Proof.
  intros Hl Hp Hj Hu.
  destruct (weighted_range l p j u Hl Hp Hj Hu) as [H0 H100].
  assert (Heq : final_score l p j u = Qfloor (weighted l p j u)).
  { unfold final_score. rewrite int_floor.
    - apply Qfloor_comp. unfold weighted. ring.
    - eapply Qle_trans; [exact H0|]. apply Qle_lteq. right. unfold weighted. ring. }
  split; [exact Heq|]. rewrite Heq. split.
  - change 0 with (Qfloor 0). apply Qfloor_resp_le. exact H0.
  - change 100 with (Qfloor 100). apply Qfloor_resp_le. exact H100.
Qed.

(** On every combination of sub-scores, truncating the binary64 value of
    the weighted sum gives the score computed on the rationals. *)
Lemma final_score_binary64 :
  every_subscore (fun l p j u =>
    Binary64.truncates_to (Binary64.final_score l p j u) (final_score l p j u)) = true.
Proof. vm_compute. reflexivity. Qed.

Lemma packet_loss_pct_nonneg (pings : list Q) :
  (List.length pings <= 10)%nat -> (0 <= packet_loss_pct pings)%Q.
Proof.
  intros H. unfold packet_loss_pct, ping_count.
  assert (H' : (0 <= inject_Z (10 - Py.len pings))%Q).
  { change 0%Q with (inject_Z 0). rewrite <- Zle_Qle. unfold Py.len. lia. }
  change (inject_Z 10) with 10%Q.
  set (x := inject_Z (10 - Py.len pings)) in *.
  assert ((x / 10 * 100 == x * 10)%Q) as -> by (field).
  lra.
Qed.

(** C1: in every burst with at least one successful probe, the score is the
    floor of 0.4 L + 0.3 P + 0.2 J + 0.1 U, each sub-score read off its
    breakpoint ladder, and it lies between 0 and 100. *)
Theorem C1_weighted_score (E : env) (w : World) (detailed : bool) :
  burst_samples E w <> [] ->
  let pings := burst_samples E w in
  let L := latency_subscore (Py.mean pings) in
  let P := packet_loss_subscore (packet_loss_pct pings) in
  let J := jitter_subscore (jitter_of pings) in
  let U := uptime_subscore (uptime_share (metrics (self w))) in
  let final := score_of (fst (get_health_score E detailed w)) in
  final = Qfloor (0.4 * inject_Z L + 0.3 * inject_Z P + 0.2 * inject_Z J + 0.1 * inject_Z U)
  /\ 0 <= final <= 100.
Proof.
  intros Hne. cbv zeta. rewrite get_health_score_eq. simpl fst.
  pose proof (burst_samples_length E w) as Hlen.
  destruct (burst_samples E w) as [|p ps] eqn:Hp; [congruence|].
  unfold score_pings.
  pose proof (latency_score_ladder (Py.mean (p :: ps))) as HL.
  pose proof (packet_loss_score_ladder _ (packet_loss_pct_nonneg (p :: ps) Hlen)) as HP.
  pose proof (jitter_score_ladder (jitter_of (p :: ps))) as HJ.
  pose proof (uptime_score_ladder (metrics (self w))) as HU.
  destruct (latency_score _) as [l la].
  destruct (packet_loss_score _) as [q qa].
  destruct (jitter_score _) as [j ja].
  destruct (uptime_score _) as [up [u ua]].
  simpl in HL, HP, HJ, HU. subst l q j u.
  assert (Hs : forall (r : Report.t) (n : Z) (d : bool),
    Report.score r = n -> score_of (if d then Detailed r else Bare n) = n).
  { intros r n [] Hr; simpl; congruence. }
  rewrite Hs by reflexivity.
  pose proof (latency_subscore_range (Py.mean (p :: ps))).
  pose proof (packet_loss_subscore_range (packet_loss_pct (p :: ps))).
  pose proof (jitter_subscore_range (jitter_of (p :: ps))).
  pose proof (uptime_subscore_range (uptime_share (metrics (self w)))).
  apply final_score_floor; lia.
Qed.

Lemma burst_results_samples (E : env) (n : nat) : forall (pings : list Q) (w : World),
  fst (burst E n pings w) = (pings ++ successes (burst_results E n w))%list.
Proof.
  induction n as [|n IH]; intros pings w.
  - simpl. rewrite app_nil_r. reflexivity.
  - rewrite burst_step, IH. simpl burst_results. unfold successes. simpl flat_map.
    destruct (fst (ping_test E None w)); [rewrite <- app_assoc|]; reflexivity.
Qed.

Lemma successes_none (rs : list (option Q)) :
  Forall (fun r => r = None) rs -> successes rs = [].
Proof.
  induction 1 as [|r rs Hr _ IH]; [reflexivity|]. subst r. exact IH.
Qed.

Lemma no_success_no_sample (E : env) (w : World) :
  Forall (fun r => r = None) (burst_results E 10 w) -> burst_samples E w = [].
Proof.
  intros H. unfold burst_samples. rewrite burst_results_samples.
  change (Z.to_nat ping_count) with 10%nat.
  rewrite (successes_none _ H). reflexivity.
Qed.

Lemma C1_weighted_score_witness :
  burst_samples (every_50ms (fun _ => Parsed 20)) new_world <> []
  /\ 0 <= score_of (fst (get_health_score (every_50ms (fun _ => Parsed 20)) true new_world)) <= 100.
Proof.
  assert (H : burst_samples (every_50ms (fun _ => Parsed 20)) new_world <> [])
    by (vm_compute; discriminate).
  split; [exact H|].
  apply (C1_weighted_score (every_50ms (fun _ => Parsed 20)) new_world true H).
Defined.

(** C2: when none of the ten probes of a burst succeeds, the detailed
    result has score 0, category 'Desconectado', packet loss 100, no latency
    or jitter figure and the single alert 'Sem conexão com a internet'; the
    plain result is the integer 0. *)
Theorem C2_no_success (E : env) (w : World) :
  Forall (fun r => r = None) (burst_results E 10 w) ->
  match fst (get_health_score E true w) with
  | Detailed r =>
      Report.score r = 0
      /\ Report.category r = "Desconectado"
      /\ (Report.packet_loss r == 100)%Q
      /\ Report.alerts r = [Sem_conexao]
      /\ Report.latency r = None
      /\ Report.jitter r = None
  | Bare _ => False
  end
  /\ fst (get_health_score E false w) = Bare 0.
Proof.
  intros H. apply no_success_no_sample in H.
  rewrite !get_health_score_eq, H. simpl.
  repeat split; reflexivity.
Qed.

Lemma C2_no_success_witness :
  fst (get_health_score (every_50ms (fun _ => Timeout_expired)) false new_world) = Bare 0.
Proof.
  apply (C2_no_success (every_50ms (fun _ => Timeout_expired)) new_world).
  vm_compute. repeat constructor.
Defined.

(** ** The probe cache *)

Lemma check_cache_any_host (h h' : string) (now : Q) (c : Cache) :
  _check_cache h now c = _check_cache h' now c.
Proof. reflexivity. Qed.

(** A call that finds a usable entry returns it, runs nothing and leaves
    the slot as it is. *)
Lemma ping_test_hit (E : env) (host : option string) (w : World) :
  _check_cache (target w host) (t_check (E (calls w))) (cache (self w)) = true ->
  ping_test E host w =
  (last_test_result (cache (self w)),
   mkWorld (self w) (S (calls w)) (disk w) (writable w) (events w)).
Proof.
  intros H. unfold ping_test. unfold_monad. fold (target w host). rewrite H.
  reflexivity.
Qed.

(** A call that finds none runs the probe once; a recorded outcome fills
    the slot. *)
Lemma ping_test_miss (E : env) (host : option string) (w : World) :
  _check_cache (target w host) (t_check (E (calls w))) (cache (self w)) = false ->
  recorded (outcome (E (calls w))) = true ->
  ping_test E host w =
  (result_of (outcome (E (calls w))),
   mkWorld
     (set_cache (mkCache (Some (t_update (E (calls w))))
                   (result_of (outcome (E (calls w))))
                   (cache_duration (cache (self w)))) (self w))
     (S (calls w)) (disk w) (writable w)
     (events w ++ [Ev_probe (target w host)])).
Proof.
  intros H Hrec. unfold ping_test. unfold_monad. fold (target w host). rewrite H.
  destruct (outcome (E (calls w))); try discriminate Hrec; reflexivity.
Qed.

Lemma probes_app (evs evs' : list event) :
  probes (evs ++ evs') = (probes evs + probes evs')%nat.
Proof. unfold probes. rewrite filter_app, length_app. reflexivity. Qed.

(** A call that finds no usable entry runs the probe, whatever its
    outcome. *)
Lemma ping_test_miss_events (E : env) (host : option string) (w : World) :
  _check_cache (target w host) (t_check (E (calls w))) (cache (self w)) = false ->
  events (snd (ping_test E host w)) = (events w ++ [Ev_probe (target w host)])%list.
Proof.
  intros H. unfold ping_test. unfold_monad. fold (target w host). rewrite H.
  destruct (outcome (E (calls w))); reflexivity.
Qed.

(** An outcome that is not recorded leaves the slot as it was. *)
Lemma ping_test_unrecorded (E : env) (host : option string) (w : World) :
  _check_cache (target w host) (t_check (E (calls w))) (cache (self w)) = false ->
  recorded (outcome (E (calls w))) = false ->
  ping_test E host w =
  (None,
   mkWorld (self w) (S (calls w)) (disk w) (writable w)
     (events w ++ [Ev_probe (target w host)])).
Proof.
  intros H Hrec. unfold ping_test. unfold_monad. fold (target w host). rewrite H.
  destruct (outcome (E (calls w))); try discriminate Hrec; reflexivity.
Qed.

(** The two steps, run one after the other, are [ping_test]. *)
Lemma ping_test_steps (E : env) (host : option string) (w : World) :
  ping_test E host w = (s <- ping_test_start E host ;; ping_test_finish s) w.
Proof.
  unfold ping_test, ping_test_start, ping_test_finish. unfold_monad.
  destruct (_check_cache _ _ _); [reflexivity|].
  simpl. destruct (outcome (E (calls w))); reflexivity.
Qed.

(** C3, as the code has it, for two requests through [ping_test] made one
    after the other, the second after the first has returned, whatever
    target either names.  Let the first find no usable entry, so that it
    runs the probe.  If the outcome of that probe is recorded, the first
    returns it; when the cache check of the second comes less than
    [cache_duration] after the recording, which is made when the probe
    ends, the second returns the same result from the slot and the pair has
    run the external probe exactly once; otherwise the second runs the
    probe as well, and the pair has run it twice.  If the outcome is not
    recorded, the first returns [None], the slot is left as it was, and the
    second runs the probe again unless the older entry is usable at its
    check. *)
Theorem C3_cache_suppression (E : env) (w : World) (h1 h2 : option string) :
  let tk1 := E (calls w) in
  let tk2 := E (S (calls w)) in
  _check_cache (target w h1) (t_check tk1) (cache (self w)) = false ->
  let r1 := fst (ping_test E h1 w) in
  let w1 := snd (ping_test E h1 w) in
  let r2 := fst (ping_test E h2 w1) in
  let w2 := snd (ping_test E h2 w1) in
  let within := (t_check tk2 - t_update tk1 < cache_duration (cache (self w)))%Q in
  (recorded (outcome tk1) = true ->
     r1 = result_of (outcome tk1)
     /\ (within ->
         r2 = r1
         /\ events w2 = (events w ++ [Ev_probe (target w h1)])%list
         /\ probes (events w2) = S (probes (events w)))
     /\ (~ within ->
         events w2 = (events w ++ [Ev_probe (target w h1); Ev_probe (target w h2)])%list
         /\ probes (events w2) = S (S (probes (events w)))))
  /\ (recorded (outcome tk1) = false ->
      r1 = None
      /\ cache (self w1) = cache (self w)
      /\ (_check_cache (target w h2) (t_check tk2) (cache (self w)) = false ->
          events w2 = (events w ++ [Ev_probe (target w h1); Ev_probe (target w h2)])%list
          /\ probes (events w2) = S (S (probes (events w))))).
Proof.
  intros tk1 tk2 Hmiss. cbv zeta. unfold tk1, tk2 in *. clear tk1 tk2.
  assert (Htwo : forall evs a b,
            probes (evs ++ [Ev_probe a; Ev_probe b]) = S (S (probes evs))).
  { intros evs a b. rewrite probes_app.
    change (probes [Ev_probe a; Ev_probe b]) with 2%nat. lia. }
  split; intros Hrec.
  - rewrite (ping_test_miss E h1 w Hmiss Hrec). simpl fst. simpl snd.
    split; [reflexivity|]. split; intros Hwin.
    + rewrite ping_test_hit.
      * simpl. repeat split. rewrite probes_app.
        change (probes [Ev_probe (target w h1)]) with 1%nat. lia.
      * unfold _check_cache. simpl. apply Qltb_lt. exact Hwin.
    + rewrite ping_test_miss_events.
      * simpl. rewrite <- app_assoc. simpl. split; [reflexivity|]. apply Htwo.
      * unfold _check_cache. simpl. apply Qltb_ge. lra.
  - rewrite (ping_test_unrecorded E h1 w Hmiss Hrec). simpl fst. simpl snd.
    split; [reflexivity|]. split; [reflexivity|]. intros Hmiss2.
    rewrite ping_test_miss_events.
    + simpl. rewrite <- app_assoc. simpl. split; [reflexivity|]. apply Htwo.
    + exact Hmiss2.
Qed.

Lemma C3_cache_suppression_witness :
  probes (events (snd (ping_test (every_50ms (fun _ => Parsed 20)) (Some "1.1.1.1")
                    (snd (ping_test (every_50ms (fun _ => Parsed 20)) (Some "8.8.8.8")
                            new_world))))) = 1%nat.
Proof.
  refine (proj2 (proj2 (proj1 (proj2 (proj1
            (C3_cache_suppression (every_50ms (fun _ => Parsed 20)) new_world
               (Some "8.8.8.8") (Some "1.1.1.1") _) _)) _)));
    vm_compute; reflexivity.
Defined.

(** C3 as stated fails.  With a slot filled 1.5 s before, two requests 1 s
    apart straddle its expiry: the first is served the old 20 ms, the second
    runs the probe again and returns a fresh 30 ms.  And where the ping tool
    is missing nothing is ever recorded: two requests 50 ms apart on a new
    tracker run the probe twice.  Two requests 10 ms apart from two threads,
    the second starting while the probe of the first is running, both find
    the slot empty and both run the probe.  And two requests 50 ms apart
    behind a fresh entry run no probe at all. *)
Lemma C3_counterexample :
  ((t_check (stale_env 2%nat) - t_check (stale_env 1%nat) < cache_duration (cache (self stale_world)))%Q
   /\ fst (ping_test stale_env (Some "1.1.1.1") stale_world) = Some 20%Q
   /\ fst (ping_test stale_env (Some "1.1.1.1")
             (snd (ping_test stale_env (Some "1.1.1.1") stale_world))) = Some 30%Q
   /\ events (snd (ping_test stale_env (Some "1.1.1.1")
                (snd (ping_test stale_env (Some "1.1.1.1") stale_world))))
      = (events stale_world ++ [Ev_probe "1.1.1.1"])%list)
  /\ ((t_check (no_tool_env 1%nat) - t_check (no_tool_env 0%nat) < cache_duration (cache (self new_world)))%Q
      /\ probes (events (snd (ping_test no_tool_env None
                           (snd (ping_test no_tool_env None new_world))))) = 2%nat)
  /\ ((t_check (overlap_env 1%nat) - t_check (overlap_env 0%nat) < cache_duration (cache (self new_world)))%Q
      /\ fst (overlapped overlap_env (Some "8.8.8.8") (Some "1.1.1.1") new_world)
         = (Some 20%Q, Some 25%Q)
      /\ events (snd (overlapped overlap_env (Some "8.8.8.8") (Some "1.1.1.1") new_world))
         = [Ev_probe "8.8.8.8"; Ev_probe "1.1.1.1"])
  /\ ((t_check (every_50ms (fun _ => Parsed 20) 2%nat)
       - t_check (every_50ms (fun _ => Parsed 20) 1%nat)
       < cache_duration (cache (self (after_pings (every_50ms (fun _ => Parsed 20)) 1 new_world))))%Q
      /\ events (snd (ping_test (every_50ms (fun _ => Parsed 20)) (Some "1.1.1.1")
                   (snd (ping_test (every_50ms (fun _ => Parsed 20)) (Some "1.1.1.1")
                           (after_pings (every_50ms (fun _ => Parsed 20)) 1 new_world)))))
         = events (after_pings (every_50ms (fun _ => Parsed 20)) 1 new_world)).
Proof.
  repeat split; vm_compute; reflexivity.
Qed.

(** ** The burst and the cache *)

Lemma after_pings_calls (E : env) (n : nat) : forall w : World,
  calls (after_pings E n w) = (calls w + n)%nat.
Proof.
  induction n as [|n IH]; intros w; simpl.
  - lia.
  - rewrite IH, ping_test_calls. lia.
Qed.

Lemma after_pings_frame (E : env) (n : nat) : forall w : World,
  same_but_cache w (after_pings E n w).
Proof.
  induction n as [|n IH]; intros w; simpl.
  - apply same_but_cache_refl.
  - eapply same_but_cache_trans; [apply ping_test_frame | apply IH].
Qed.

Lemma burst_results_length (E : env) (n : nat) : forall w : World,
  List.length (burst_results E n w) = n.
Proof.
  induction n as [|n IH]; intros w; simpl; [reflexivity|]. rewrite IH. reflexivity.
Qed.

Lemma burst_results_app (E : env) (n m : nat) : forall w : World,
  burst_results E (n + m) w =
  (burst_results E n w ++ burst_results E m (after_pings E n w))%list.
Proof.
  induction n as [|n IH]; intros w; simpl; [reflexivity|]. rewrite IH. reflexivity.
Qed.

(** While every check falls inside the window of the entry in the slot,
    every call returns that entry. *)
Lemma burst_results_cached (E : env) (n : nat) : forall (w : World) (tu : Q) (r : option Q),
  last_test_time (cache (self w)) = Some tu ->
  last_test_result (cache (self w)) = r ->
  (forall i, (i < n)%nat ->
     (t_check (E (calls w + i)%nat) - tu < cache_duration (cache (self w)))%Q) ->
  burst_results E n w = repeat r n.
Proof.
  induction n as [|n IH]; intros w tu r Ht Hr Hwin; [reflexivity|].
  assert (Hhit : _check_cache (target w None) (t_check (E (calls w))) (cache (self w)) = true).
  { unfold _check_cache. rewrite Ht. apply Qltb_lt.
    specialize (Hwin 0%nat). rewrite Nat.add_0_r in Hwin. apply Hwin. lia. }
  simpl. rewrite (ping_test_hit E None w Hhit). simpl. rewrite Hr. f_equal.
  apply (IH _ tu r); simpl; try assumption.
  intros i Hi. specialize (Hwin (S i)).
  match goal with
  | |- context [E ?k] => replace k with (calls w + S i)%nat by lia
  end.
  apply Hwin. lia.
Qed.

Lemma nth_repeat_below {A : Type} (a d : A) (n i : nat) :
  (i < n)%nat -> nth i (repeat a n) d = a.
Proof.
  revert i. induction n as [|n IH]; intros i Hi; [lia|].
  destruct i as [|i]; simpl; [reflexivity|]. apply IH. lia.
Qed.

(** After the call that fills the slot, the rest of the burst repeats its
    result. *)
Lemma burst_results_filled (E : env) (w : World) (n : nat) :
  _check_cache (target w None) (t_check (E (calls w))) (cache (self w)) = false ->
  recorded (outcome (E (calls w))) = true ->
  (forall i, (0 < i < n)%nat ->
     (t_check (E (calls w + i)%nat) - t_update (E (calls w))
      < cache_duration (cache (self w)))%Q) ->
  burst_results E n w = repeat (result_of (outcome (E (calls w)))) n.
Proof.
  intros Hmiss Hrec Hwin. destruct n as [|n]; [reflexivity|].
  simpl. rewrite (ping_test_miss E None w Hmiss Hrec). simpl. f_equal.
  apply (burst_results_cached E n _ (t_update (E (calls w)))); simpl; try reflexivity.
  intros i Hi.
  match goal with
  | |- context [E (?a + i)%nat] => replace (a + i)%nat with (calls w + S i)%nat by lia
  | |- context [E (S ?a)] => replace (S a) with (calls w + S i)%nat by lia
  end.
  apply Hwin. lia.
Qed.

(** *** Equal samples *)

Lemma sum_repeat (x : Q) (n : nat) :
  (Py.sum (repeat x n) == inject_Z (Z.of_nat n) * x)%Q.
Proof.
  induction n as [|n IH].
  - simpl. ring.
  - change (Py.sum (repeat x (S n))) with (x + Py.sum (repeat x n))%Q.
    rewrite IH, Nat2Z.inj_succ. unfold Z.succ. rewrite inject_Z_plus. ring.
Qed.

Lemma mean_repeat (x : Q) (n : nat) : (Py.mean (repeat x (S n)) == x)%Q.
Proof.
  unfold Py.mean, Py.len. rewrite sum_repeat, repeat_length.
  assert (H : ~ (inject_Z (Z.of_nat (S n)) == 0)%Q).
  { change 0%Q with (inject_Z 0). rewrite inject_Z_injective. lia. }
  field. exact H.
Qed.

Lemma variance_repeat (x : Q) (n : nat) : (Py.variance (repeat x (S n)) == 0)%Q.
Proof.
  unfold Py.variance. cbv zeta. rewrite map_repeat, sum_repeat, mean_repeat.
  unfold Qdiv. ring.
Qed.

Lemma jitter_repeat (x : Q) (n : nat) :
  (Py.radicand (jitter_of (repeat x n)) == 0)%Q.
Proof.
  unfold jitter_of. destruct (1 <? Py.len (repeat x n)) eqn:H.
  - destruct n as [|n]; [discriminate H|]. apply variance_repeat.
  - reflexivity.
Qed.

Lemma successes_repeat (r : option Q) (n : nat) :
  successes (repeat r n) = match r with Some x => repeat x n | None => [] end.
Proof.
  induction n as [|n IH]; [destruct r; reflexivity|].
  unfold successes in *. simpl. rewrite IH. destruct r; reflexivity.
Qed.

(** A burst that repeats one result is one measurement. *)
Lemma one_measurement_repeat (E : env) (w : World) (r : option Q) :
  burst_results E 10 w = repeat r 10 -> one_measurement (burst_samples E w).
Proof.
  intros H. unfold one_measurement, burst_samples.
  rewrite burst_results_samples. change (Z.to_nat ping_count) with 10%nat.
  rewrite H, successes_repeat. change ([] ++ ?l)%list with l.
  destruct r as [x|].
  - split; [|split].
    + intros a b Ha Hb. apply repeat_spec in Ha, Hb. congruence.
    + apply jitter_repeat.
    + left. vm_compute. reflexivity.
  - split; [|split].
    + intros a b [].
    + reflexivity.
    + right. vm_compute. reflexivity.
Qed.

(** Behind an entry, a call returns it when every check of the burst so
    far has fallen inside its window. *)
Lemma burst_results_nth_cached (E : env) (n j : nat) (w : World) (tu : Q) (r : option Q) :
  last_test_time (cache (self w)) = Some tu ->
  last_test_result (cache (self w)) = r ->
  (j < n)%nat ->
  (forall i, (i <= j)%nat ->
     (t_check (E (calls w + i)%nat) - tu < cache_duration (cache (self w)))%Q) ->
  nth j (burst_results E n w) None = r.
Proof.
  intros Ht Hr Hj Hwin.
  replace n with (S j + (n - S j))%nat by lia.
  rewrite burst_results_app, app_nth1 by (rewrite burst_results_length; lia).
  rewrite (burst_results_cached E (S j) w tu r Ht Hr).
  - apply nth_repeat_below. lia.
  - intros i Hi. apply Hwin. lia.
Qed.

(** After the call that fills the slot, a call returns its result when
    every check since has fallen inside the window. *)
Lemma burst_results_nth_filled (E : env) (n j : nat) (w : World) :
  _check_cache (target w None) (t_check (E (calls w))) (cache (self w)) = false ->
  recorded (outcome (E (calls w))) = true ->
  (j < n)%nat ->
  (forall i, (0 < i <= j)%nat ->
     (t_check (E (calls w + i)%nat) - t_update (E (calls w))
      < cache_duration (cache (self w)))%Q) ->
  nth j (burst_results E n w) None = result_of (outcome (E (calls w))).
Proof.
  intros Hmiss Hrec Hj Hwin.
  replace n with (S j + (n - S j))%nat by lia.
  rewrite burst_results_app, app_nth1 by (rewrite burst_results_length; lia).
  rewrite (burst_results_filled E w (S j) Hmiss Hrec).
  - apply nth_repeat_below. lia.
  - intros i Hi. apply Hwin. lia.
Qed.

(** C10, as the code has it, for the ten calls of a [get_health_score]
    burst.  When the burst starts behind an entry of the cache, a call
    returns that entry, a failure included, if every check of the burst up
    to and including its own falls within [cache_duration] of the entry's
    recording; if all ten do, the samples are one measurement: all equal,
    jitter 0, packet loss 0 or 100.  When a call of the burst finds no
    usable entry and records its result, a later call returns that result,
    a failure included, if every check after the recording call up to and
    including its own falls within [cache_duration] of the recording; if
    the recording call is the first of the burst and the checks of the nine
    others all do, the samples are one measurement. *)
Theorem C10_burst_served_from_cache (E : env) (w : World) :
  let results := burst_results E 10 w in
  let pings := burst_samples E w in
  let window := cache_duration (cache (self w)) in
  (forall (tu : Q) (r : option Q),
     last_test_time (cache (self w)) = Some tu ->
     last_test_result (cache (self w)) = r ->
     (forall j, (j < 10)%nat ->
        (forall i, (i <= j)%nat -> (t_check (E (calls w + i)%nat) - tu < window)%Q) ->
        nth j results None = r)
     /\ ((forall i, (i < 10)%nat -> (t_check (E (calls w + i)%nat) - tu < window)%Q) ->
         results = repeat r 10 /\ one_measurement pings))
  /\ (forall k : nat, (k < 10)%nat ->
      let wk := after_pings E k w in
      let tk := E (calls wk) in
      _check_cache (target wk None) (t_check tk) (cache (self wk)) = false ->
      recorded (outcome tk) = true ->
      (forall j, (k <= j < 10)%nat ->
         (forall i, (k < i <= j)%nat ->
            (t_check (E (calls w + i)%nat) - t_update tk < window)%Q) ->
         nth j results None = result_of (outcome tk))
      /\ (k = 0%nat ->
          (forall i, (0 < i < 10)%nat ->
             (t_check (E (calls w + i)%nat) - t_update tk < window)%Q) ->
          results = repeat (result_of (outcome tk)) 10 /\ one_measurement pings)).
Proof.
  cbv zeta. split.
  - intros tu r Ht Hr. split.
    + intros j Hj Hwin. apply (burst_results_nth_cached E 10 j w tu r Ht Hr Hj Hwin).
    + intros Hwin.
      assert (H : burst_results E 10 w = repeat r 10)
        by apply (burst_results_cached E 10 w tu r Ht Hr Hwin).
      split; [exact H|]. apply (one_measurement_repeat E w r H).
  - intros k Hk Hmiss Hrec.
    assert (Hcalls : calls (after_pings E k w) = (calls w + k)%nat)
      by apply after_pings_calls.
    destruct (after_pings_frame E k w) as (_ & _ & _ & Hdur & _).
    split.
    + intros j Hj Hwin.
      replace 10%nat with (k + (10 - k))%nat at 1 by lia.
      rewrite burst_results_app, app_nth2 by (rewrite burst_results_length; lia).
      rewrite burst_results_length.
      apply burst_results_nth_filled; try assumption; [lia|].
      intros i Hi. rewrite Hdur.
      replace (calls (after_pings E k w) + i)%nat with (calls w + (k + i))%nat by lia.
      apply Hwin. lia.
    + intros -> Hwin. simpl after_pings in *.
      assert (H : burst_results E 10 w = repeat (result_of (outcome (E (calls w)))) 10)
        by apply (burst_results_filled E w 10 Hmiss Hrec Hwin).
      split; [exact H|]. apply (one_measurement_repeat E w _ H).
Qed.

(** On a link that answers in 20 ms, the first burst of a new tracker fills
    the slot at its first call, and a second burst 50 ms later is served
    from the slot throughout. *)
Lemma C10_burst_served_from_cache_witness :
  nth 9 (burst_results (every_50ms (fun _ => Parsed 20)) 10 new_world) None = Some 20%Q
  /\ burst_results (every_50ms (fun _ => Parsed 20)) 10
       (after_pings (every_50ms (fun _ => Parsed 20)) 10 new_world)
     = repeat (Some 20%Q) 10.
Proof.
  split.
  - refine (proj1 (proj2 (C10_burst_served_from_cache (every_50ms (fun _ => Parsed 20))
                            new_world) 0%nat _ _ _) 9%nat _ _).
    + lia.
    + reflexivity.
    + reflexivity.
    + lia.
    + intros i Hi.
      do 10 (destruct i as [|i]; [vm_compute; reflexivity|]). lia.
  - refine (proj1 (proj2 (proj1 (C10_burst_served_from_cache
                                   (every_50ms (fun _ => Parsed 20))
                                   (after_pings (every_50ms (fun _ => Parsed 20)) 10 new_world))
                            (t_update (every_50ms (fun _ => Parsed 20) 0%nat))
                            (Some 20%Q) _ _) _)).
    + reflexivity.
    + reflexivity.
    + intros i Hi.
      do 10 (destruct i as [|i]; [vm_compute; reflexivity|]). lia.
Defined.

(** C10 as stated fails.  An entry recorded 1.9 s before the burst expires
    after two calls: with a failure in the slot the burst collects 8 samples
    of 10 and the packet loss is 20; with 80 ms in the slot the samples are
    80, 80 and eight times 20, and the jitter is not 0. *)
Lemma C10_counterexample :
  (burst_results late_env 10 late_world
   = [None; None; Some 20; Some 20; Some 20; Some 20; Some 20; Some 20; Some 20; Some 20]%Q
   /\ (packet_loss_pct (burst_samples late_env late_world) == 20)%Q)
  /\ (burst_samples drift_env drift_world = [80; 80; 20; 20; 20; 20; 20; 20; 20; 20]%Q
      /\ ~ (Py.radicand (jitter_of (burst_samples drift_env drift_world)) == 0)%Q).
Proof.
  repeat split; try (vm_compute; reflexivity).
  intros H. vm_compute in H. discriminate H.
Qed.

(** ** The fan-out *)

Lemma first_minimum_skip (done : list (string * future_result)) (x : string * future_result)
    (fl : option Q) (fh : option string) :
  (forall l, snd x <> Returned (Some l)) ->
  first_minimum done fl fh -> first_minimum (done ++ [x]) fl fh.
Proof.
  intros Hx H. destruct fl as [l|], fh as [h|]; simpl in *; try contradiction.
  - destruct H as (pre & post & -> & Hpre & Hpost).
    exists pre, (post ++ [x])%list. rewrite <- app_assoc. simpl. repeat split; [exact Hpre|].
    intros h' l' Hin. apply in_app_or in Hin. destruct Hin as [Hin|[Hin|[]]].
    + eapply Hpost; exact Hin.
    + subst x. exfalso. apply (Hx l'). reflexivity.
  - intros h l Hin. apply in_app_or in Hin. destruct Hin as [Hin|[Hin|[]]].
    + apply (H h l Hin).
    + subst x. apply (Hx l). reflexivity.
Qed.

Lemma first_minimum_take (done : list (string * future_result)) (host : string) (latency : Q)
    (fl : option Q) (fh : option string) :
  lt_inf latency fl = true ->
  first_minimum done fl fh ->
  first_minimum (done ++ [(host, Returned (Some latency))]) (Some latency) (Some host).
Proof.
  intros Hlt H. simpl. exists done, []. repeat split.
  - intros h' l' Hin. destruct fl as [l|], fh as [h|]; simpl in *; try contradiction.
    + apply Qltb_lt in Hlt. destruct H as (pre & post & -> & Hpre & Hpost).
      apply in_app_or in Hin. destruct Hin as [Hin|[Hin|Hin]].
      * specialize (Hpre _ _ Hin). lra.
      * inversion Hin; subst. exact Hlt.
      * specialize (Hpost _ _ Hin). lra.
    + exfalso. apply (H h' l' Hin).
  - intros h' l' [].
Qed.

Lemma first_minimum_keep (done : list (string * future_result)) (host : string) (latency : Q)
    (fl : option Q) (fh : option string) :
  lt_inf latency fl = false ->
  first_minimum done fl fh ->
  first_minimum (done ++ [(host, Returned (Some latency))]) fl fh.
Proof.
  intros Hlt H. destruct fl as [l|]; [|discriminate Hlt].
  destruct fh as [h|]; simpl in *; [|contradiction].
  apply Qltb_ge in Hlt. destruct H as (pre & post & -> & Hpre & Hpost).
  exists pre, (post ++ [(host, Returned (Some latency))])%list.
  rewrite <- app_assoc. simpl. repeat split; [exact Hpre|].
  intros h' l' Hin. apply in_app_or in Hin. destruct Hin as [Hin|[Hin|[]]].
  - eapply Hpost; exact Hin.
  - inversion Hin; subst. exact Hlt.
Qed.

Lemma collect_first_minimum (rest : list (string * future_result)) :
  forall (done : list (string * future_result)) (fl : option Q) (fh : option string),
  first_minimum done fl fh ->
  first_minimum (done ++ rest) (fst (collect rest fl fh)) (snd (collect rest fl fh)).
Proof.
  induction rest as [|[host r] rest IH]; intros done fl fh H.
  - rewrite app_nil_r. exact H.
  - replace (done ++ (host, r) :: rest)%list with ((done ++ [(host, r)]) ++ rest)%list
      by (rewrite <- app_assoc; reflexivity).
    simpl. destruct r as [[latency|]|].
    + destruct (lt_inf latency fl) eqn:Hlt; apply IH.
      * eapply first_minimum_take; eassumption.
      * apply first_minimum_keep; assumption.
    + apply IH. apply first_minimum_skip; [intros l; discriminate | exact H].
    + apply IH. apply first_minimum_skip; [intros l; discriminate | exact H].
Qed.

Lemma any_success_In (completed : list (string * future_result)) :
  any_success completed = true <-> exists h l, In (h, Returned (Some l)) completed.
Proof.
  unfold any_success. rewrite existsb_exists. split.
  - intros ([h r] & Hin & Hr). simpl in Hr. destruct r as [[l|]|]; try discriminate.
    exists h, l. exact Hin.
  - intros (h & l & Hin). exists (h, Returned (Some l)). split; [exact Hin | reflexivity].
Qed.

Lemma collect_connected (completed : list (string * future_result)) :
  match snd (collect completed None None) with
  | Some _ => true
  | None => false
  end = any_success completed.
Proof.
  pose proof (collect_first_minimum completed [] None None) as H.
  simpl in H. specialize (H (fun h l (F : False) => F)).
  destruct (collect completed None None) as [fl fh]. simpl in *.
  destruct (any_success completed) eqn:Ha.
  - apply any_success_In in Ha. destruct Ha as (h & l & Hin).
    destruct fh as [h0|]; [reflexivity|].
    destruct fl as [l0|]; [contradiction|]. exfalso. apply (H h l Hin).
  - destruct fh as [h0|]; [|reflexivity]. destruct fl as [l0|]; [|contradiction].
    destruct H as (pre & post & Heq & _).
    assert (any_success completed = true); [|congruence].
    apply any_success_In. exists h0, l0. rewrite Heq. apply in_elt.
Qed.

Lemma check_connectivity_eq (completed : list (string * future_result)) (now : Q)
    (cs : ConnectionState) :
  completed <> [] ->
  check_connectivity completed now cs =
  Some ((any_success completed, snd (collect completed None None)),
        update_state (any_success completed) now cs).
Proof.
  intros Hne. unfold check_connectivity.
  destruct completed as [|c rest]; [congruence|].
  rewrite <- collect_connected.
  destruct (collect (c :: rest) None None) as [fl fh]. reflexivity.
Qed.

(** C7: a fan-out call over at least one target reports connected exactly
    when some probe succeeded, and its fastest target is the first
    occurrence, in completion order, of the minimum latency among the
    successes. *)
Theorem C7_fastest_target (completed : list (string * future_result)) (now : Q)
    (cs : ConnectionState) :
  completed <> [] ->
  exists (connected : bool) (fastest : option string) (cs' : ConnectionState),
    check_connectivity completed now cs = Some ((connected, fastest), cs')
    /\ (connected = true <-> exists h l, In (h, Returned (Some l)) completed)
    /\ match fastest with
       | Some h =>
           connected = true
           /\ exists pre l post,
                completed = (pre ++ (h, Returned (Some l)) :: post)%list
                /\ (forall h' l', In (h', Returned (Some l')) pre -> (l < l')%Q)
                /\ (forall h' l', In (h', Returned (Some l')) post -> (l <= l')%Q)
       | None => connected = false
       end.
Proof.
  intros Hne. rewrite (check_connectivity_eq _ now cs Hne).
  eexists _, _, _. split; [reflexivity|]. split; [apply any_success_In|].
  pose proof (collect_first_minimum completed [] None None) as H.
  simpl in H. specialize (H (fun h l (F : False) => F)).
  pose proof (collect_connected completed) as Hc.
  destruct (collect completed None None) as [fl fh]. simpl in *.
  destruct fh as [h|].
  - split; [symmetry; exact Hc|]. destruct fl as [l|]; [|contradiction].
    destruct H as (pre & post & Heq & Hpre & Hpost). exists pre, l, post. auto.
  - symmetry. exact Hc.
Qed.

Lemma C7_fastest_target_witness :
  exists (connected : bool) (fastest : option string) (cs' : ConnectionState),
    check_connectivity abc 1 disconnected = Some ((connected, fastest), cs')
    /\ (connected = true <-> exists h l, In (h, Returned (Some l)) abc)
    /\ match fastest with
       | Some h =>
           connected = true
           /\ exists pre l post,
                abc = (pre ++ (h, Returned (Some l)) :: post)%list
                /\ (forall h' l', In (h', Returned (Some l')) pre -> (l < l')%Q)
                /\ (forall h' l', In (h', Returned (Some l')) post -> (l <= l')%Q)
       | None => connected = false
       end.
Proof.
  apply (C7_fastest_target abc 1 disconnected). discriminate.
Defined.

(** Whatever the order of completion, A:50, B:20, C:failure gives (true, B). *)
Lemma abc_any_order (now : Q) (cs : ConnectionState) (completed : list (string * future_result)) :
  In completed
     [ [("A", Returned (Some 50%Q)); ("B", Returned (Some 20%Q)); ("C", Returned None)];
       [("A", Returned (Some 50%Q)); ("C", Returned None); ("B", Returned (Some 20%Q))];
       [("B", Returned (Some 20%Q)); ("A", Returned (Some 50%Q)); ("C", Returned None)];
       [("B", Returned (Some 20%Q)); ("C", Returned None); ("A", Returned (Some 50%Q))];
       [("C", Returned None); ("A", Returned (Some 50%Q)); ("B", Returned (Some 20%Q))];
       [("C", Returned None); ("B", Returned (Some 20%Q)); ("A", Returned (Some 50%Q))] ] ->
  option_map fst (check_connectivity completed now cs) = Some (true, Some "B").
Proof.
  intros H. simpl in H.
  repeat (destruct H as [<-|H]; [reflexivity|]). contradiction.
Qed.

(** ** Connection transitions *)

(** One call: the counter moves by one exactly on a loss of connection, the
    downtime grows exactly on a recovery, by the time since the recorded
    disconnection. *)
Lemma update_state_step (conn : bool) (now : Q) (cs : ConnectionState) :
  is_connected (update_state conn now cs) = conn
  /\ disconnect_count (update_state conn now cs)
     = disconnect_count cs + (if is_connected cs && negb conn then 1 else 0)
  /\ total_downtime (update_state conn now cs)
     = (if negb (is_connected cs) && conn
        then match last_disconnected cs with
             | Some t => (total_downtime cs + (now - t))%Q
             | None => total_downtime cs
             end
        else total_downtime cs)
  /\ last_disconnected (update_state conn now cs)
     = (if is_connected cs && negb conn then Some now else last_disconnected cs).
Proof.
  unfold update_state. destruct conn, (is_connected cs); simpl; repeat split; lia.
Qed.

Lemma run_checks_cons (cs : ConnectionState) (completed : list (string * future_result))
    (now : Q) (rest : list (list (string * future_result) * Q)) :
  run_checks cs ((completed, now) :: rest) =
  match completed with
  | [] => run_checks cs rest
  | _ :: _ => run_checks (update_state (any_success completed) now cs) rest
  end.
Proof.
  destruct completed as [|c l]; [reflexivity|].
  cbn [run_checks]. rewrite check_connectivity_eq by discriminate. reflexivity.
Qed.

(** C4: over any sequence of [check_connectivity] calls, [disconnect_count]
    grows by the number of connected-to-disconnected transitions and by
    nothing else, and [total_downtime] grows only at
    disconnected-to-connected transitions, each adding the time elapsed
    since [last_disconnected]. *)
Theorem C4_transition_accounting (calls : list (list (string * future_result) * Q)) :
  forall cs : ConnectionState,
  disconnect_count (run_checks cs calls)
  = disconnect_count cs + losses (is_connected cs) (observations calls)
  /\ (total_downtime (run_checks cs calls)
      == total_downtime cs
         + outage (is_connected cs) (last_disconnected cs) (observations calls))%Q.
Proof.
  induction calls as [|[completed now] rest IH]; intros cs.
  - simpl. split; [lia | ring].
  - rewrite run_checks_cons. destruct completed as [|c l].
    + apply IH.
    + change (observations ((c :: l, now) :: rest))
        with ((any_success (c :: l), now) :: observations rest).
      set (conn := any_success (c :: l)).
      destruct (IH (update_state conn now cs)) as [IHc IHd].
      destruct (update_state_step conn now cs) as (Hc & Hn & Hd & Hl).
      rewrite Hc, Hn in IHc. rewrite Hc, Hd, Hl in IHd.
      split.
      * rewrite IHc. simpl losses. lia.
      * rewrite IHd. simpl outage.
        destruct (negb (is_connected cs) && conn); [destruct (last_disconnected cs)|]; ring.
Qed.

(** Starting disconnected: fail, fail, succeed one second apart lose no
    connection; the succeed, fail that follow lose exactly one, and the
    reconnection three seconds later records three seconds of downtime. *)
Lemma transition_scenario :
  let up := [("8.8.8.8", Returned (Some 12%Q))] in
  let down := [("8.8.8.8", Returned None)] in
  let s1 := run_checks disconnected [(down, 1%Q); (down, 2%Q); (up, 3%Q)] in
  let s2 := run_checks s1 [(up, 4%Q); (down, 5%Q)] in
  let s3 := run_checks s2 [(up, 8%Q)] in
  (disconnect_count s1 = 0 /\ is_connected s1 = true)
  /\ disconnect_count s2 = 1
  /\ (total_downtime s3 == 3)%Q.
Proof. vm_compute. repeat split; reflexivity. Qed.

(** ** The history *)

Lemma after_scoring_frame (E : env) (w : World) : same_but_cache w (after_scoring E w).
Proof.
  unfold after_scoring. rewrite get_health_score_eq. cbn [snd].
  eapply same_but_cache_trans; [apply ping_test_frame | apply burst_frame].
Qed.

Lemma log_metrics_eq (E : env) (fr : Q -> string) (ts : string) (w : World) :
  log_metrics E fr ts w =
  let w2 := after_scoring E w in
  let ms := Py.lastn 1000 (metrics (self w) ++ [logged_metric E ts w]) in
  let w3 := mkWorld (set_metrics ms (self w2)) (calls w2) (disk w2) (writable w2) (events w2) in
  (tt, if Py.len ms mod 10 =? 0 then snd (_save_history fr w3) else w3).
Proof.
  cbv zeta. unfold log_metrics, logged_metric, after_scoring.
  pose proof (after_scoring_frame E w) as (Hm & _). unfold after_scoring in Hm.
  unfold bind at 1. destruct (ping_test E None w) as [latency w1]. simpl fst. simpl snd in *.
  unfold bind at 1. destruct (get_health_score E false w1) as [score_data w2].
  simpl fst. simpl snd in *.
  unfold bind, modify_self, get_self, ret. simpl.
  rewrite Hm.
  replace (match score_data with Bare n => n | Detailed r => Report.score r end)
    with (score_of score_data) by (destruct score_data; reflexivity).
  set (m := Metric.Build ts latency _ _ _).
  destruct (1000 <? Py.len (metrics (self w) ++ [m])) eqn:Hcap; simpl.
  - unfold set_metrics at 1. simpl.
    destruct (Py.len (Py.lastn 1000 (metrics (self w) ++ [m])) mod 10 =? 0);
      [|reflexivity].
    unfold _save_history. simpl. destruct (writable w2); reflexivity.
  - apply Z.ltb_ge in Hcap. unfold Py.len in Hcap.
    rewrite (lastn_all 1000 (metrics (self w) ++ [m])) by lia.
    destruct (Py.len (metrics (self w) ++ [m]) mod 10 =? 0); [|reflexivity].
    unfold _save_history. simpl. destruct (writable w2); reflexivity.
Qed.

Lemma log_metrics_metrics (E : env) (fr : Q -> string) (ts : string) (w : World) :
  metrics (self (snd (log_metrics E fr ts w)))
  = Py.lastn 1000 (metrics (self w) ++ [logged_metric E ts w]).
Proof.
  rewrite log_metrics_eq. cbv zeta. simpl snd.
  destruct (_ =? 0); [|reflexivity].
  unfold _save_history. simpl. destruct (writable (after_scoring E w)); reflexivity.
Qed.

Lemma lastn_lastn_app {A : Type} (n : nat) (l1 l2 : list A) :
  Py.lastn n (Py.lastn n l1 ++ l2) = Py.lastn n (l1 ++ l2).
Proof.
  unfold Py.lastn. destruct (Nat.le_gt_cases (List.length l1) n) as [Hle|Hgt].
  - replace (List.length l1 - n)%nat with 0%nat by lia. reflexivity.
  - set (a := (List.length l1 - n)%nat).
    assert (Hs : skipn a (l1 ++ l2) = (skipn a l1 ++ l2)%list).
    { rewrite skipn_app. replace (a - List.length l1)%nat with 0%nat by (unfold a; lia).
      reflexivity. }
    rewrite <- Hs, skipn_skipn. f_equal.
    rewrite length_skipn, !length_app. unfold a. lia.
Qed.

Lemma log_many_metrics (E : env) (fr : Q -> string) (tss : list string) :
  forall (ts : string) (w : World),
  metrics (self (log_many E fr (ts :: tss) w))
  = Py.lastn 1000 (metrics (self w) ++ logged_metrics E fr (ts :: tss) w).
Proof.
  induction tss as [|ts' tss IH]; intros ts w.
  - simpl. apply log_metrics_metrics.
  - change (log_many E fr (ts :: ts' :: tss) w)
      with (log_many E fr (ts' :: tss) (snd (log_metrics E fr ts w))).
    rewrite IH, log_metrics_metrics, lastn_lastn_app, <- app_assoc. reflexivity.
Qed.

Lemma logged_metrics_timestamps (E : env) (fr : Q -> string) (tss : list string) :
  forall w : World, map Metric.timestamp (logged_metrics E fr tss w) = tss.
Proof.
  induction tss as [|ts tss IH]; intros w; simpl; [reflexivity|].
  rewrite IH. reflexivity.
Qed.

(** C5: after any run of one or more [log_metrics] calls the history holds
    at most 1000 records: the records it held and the records appended, in
    order, less the oldest ones in excess of 1000. *)
Theorem C5_history_bound (E : env) (float_repr : Q -> string) (ts : string)
    (tss : list string) (w : World) :
  let w' := log_many E float_repr (ts :: tss) w in
  let appended := logged_metrics E float_repr (ts :: tss) w in
  let all := (metrics (self w) ++ appended)%list in
  (List.length (metrics (self w')) <= 1000)%nat
  /\ map Metric.timestamp appended = ts :: tss
  /\ metrics (self w') = skipn (List.length all - 1000) all.
Proof.
  cbv zeta. rewrite log_many_metrics. repeat split.
  - rewrite lastn_length. lia.
  - apply logged_metrics_timestamps.
Qed.

(** Appending 1050 records to an empty history leaves exactly the last
    1000, in order. *)
Lemma history_1050 (E : env) (float_repr : Q -> string) (tss : list string) (w : World) :
  metrics (self w) = [] ->
  List.length tss = 1050%nat ->
  metrics (self (log_many E float_repr tss w)) = skipn 50 (logged_metrics E float_repr tss w)
  /\ List.length (metrics (self (log_many E float_repr tss w))) = 1000%nat.
Proof.
  intros Hm Hlen. destruct tss as [|ts tss]; [discriminate Hlen|].
  assert (Hl : List.length (logged_metrics E float_repr (ts :: tss) w) = 1050%nat).
  { rewrite <- (length_map Metric.timestamp), logged_metrics_timestamps. exact Hlen. }
  rewrite log_many_metrics, Hm, app_nil_l. unfold Py.lastn. rewrite Hl.
  split; [reflexivity|].
  rewrite length_skipn, Hl. reflexivity.
Qed.

(** ** The periodic flush *)

Lemma flushes_app (evs evs' : list event) :
  flushes (evs ++ evs') = (flushes evs + flushes evs')%nat.
Proof. unfold flushes. rewrite filter_app, length_app. reflexivity. Qed.

Lemma ping_test_flushes (E : env) (host : option string) (w : World) :
  flushes (events (snd (ping_test E host w))) = flushes (events w).
Proof.
  unfold ping_test. unfold_monad.
  destruct (_check_cache _ _ _); simpl; [reflexivity|].
  destruct (outcome (E (calls w))); simpl; rewrite flushes_app;
    match goal with
    | |- context [flushes [Ev_probe ?h]] => change (flushes [Ev_probe h]) with 0%nat
    end; lia.
Qed.

Lemma burst_flushes (E : env) (n : nat) : forall (pings : list Q) (w : World),
  flushes (events (snd (burst E n pings w))) = flushes (events w).
Proof.
  induction n as [|n IH]; intros pings w; [reflexivity|].
  rewrite burst_step, IH. apply ping_test_flushes.
Qed.

Lemma after_scoring_flushes (E : env) (w : World) :
  flushes (events (after_scoring E w)) = flushes (events w).
Proof.
  unfold after_scoring. rewrite get_health_score_eq. cbn [snd].
  rewrite burst_flushes. apply ping_test_flushes.
Qed.

(** One call appends one record and attempts a flush exactly when the
    length the history then has is a multiple of 10. *)
Lemma log_metrics_flushes (E : env) (fr : Q -> string) (ts : string) (w : World) :
  flushes (events (snd (log_metrics E fr ts w)))
  = (flushes (events w)
     + if (Py.len (metrics (self (snd (log_metrics E fr ts w)))) mod 10 =? 0)%Z
       then 1 else 0)%nat.
Proof.
  rewrite log_metrics_metrics, log_metrics_eq. cbv zeta. cbn [snd].
  destruct (_ =? 0).
  - unfold _save_history. cbn [writable events self].
    destruct (writable (after_scoring E w)); cbn [snd events];
      rewrite flushes_app, after_scoring_flushes; reflexivity.
  - cbn [events]. rewrite after_scoring_flushes. lia.
Qed.

(** Below the cap the flush comes with every tenth append. *)
Lemma flush_below_capacity (E : env) (fr : Q -> string) (ts : string) (w : World) :
  (List.length (metrics (self w)) < 1000)%nat ->
  metrics (self (snd (log_metrics E fr ts w))) = (metrics (self w) ++ [logged_metric E ts w])%list
  /\ flushes (events (snd (log_metrics E fr ts w)))
     = (flushes (events w)
        + if ((Z.of_nat (List.length (metrics (self w))) + 1) mod 10 =? 0)%Z
          then 1 else 0)%nat.
Proof.
  intros Hlt. rewrite log_metrics_flushes, log_metrics_metrics.
  rewrite lastn_all by (rewrite length_app; simpl; lia).
  split; [reflexivity|]. unfold Py.len. rewrite length_app. simpl List.length.
  replace (Z.of_nat (List.length (metrics (self w)) + 1)) with
    (Z.of_nat (List.length (metrics (self w))) + 1) by lia.
  reflexivity.
Qed.

(** At the cap the length stays 1000, a multiple of 10: every append
    flushes. *)
Lemma flush_at_capacity (E : env) (fr : Q -> string) (ts : string) (w : World) :
  List.length (metrics (self w)) = 1000%nat ->
  List.length (metrics (self (snd (log_metrics E fr ts w)))) = 1000%nat
  /\ flushes (events (snd (log_metrics E fr ts w))) = S (flushes (events w)).
Proof.
  intros Hlen.
  assert (H : List.length (metrics (self (snd (log_metrics E fr ts w)))) = 1000%nat).
  { rewrite log_metrics_metrics, lastn_length, length_app, Hlen. apply Nat.min_l. lia. }
  split; [exact H|]. rewrite log_metrics_flushes. unfold Py.len. rewrite H.
  change (Z.of_nat 1000 mod 10 =? 0) with true. cbv iota. lia.
Qed.

(** C9 fails on a full history: two consecutive [log_metrics] calls on a
    history of 1000 records both flush. *)
Theorem C9_flush_on_every_append_at_capacity :
  List.length (metrics (self full_world)) = 1000%nat
  /\ flushes (events (snd (log_metrics (every_50ms (fun _ => Parsed 20)) fraction_repr "t1"
                             full_world))) = 1%nat
  /\ flushes (events (snd (log_metrics (every_50ms (fun _ => Parsed 20)) fraction_repr "t2"
                             (snd (log_metrics (every_50ms (fun _ => Parsed 20)) fraction_repr
                                     "t1" full_world))))) = 2%nat.
Proof.
  assert (H0 : List.length (metrics (self full_world)) = 1000%nat)
    by apply repeat_length.
  destruct (flush_at_capacity (every_50ms (fun _ => Parsed 20)) fraction_repr "t1"
              full_world H0) as [H1 F1].
  destruct (flush_at_capacity (every_50ms (fun _ => Parsed 20)) fraction_repr "t2"
              _ H1) as [_ F2].
  split; [exact H0|]. split; [exact F1|]. rewrite F2, F1. reflexivity.
Qed.

(** ** The stability report *)

Lemma filter_truthy_positive (ms : list Metric.t) :
  Forall positive_latency ms ->
  some_latencies (filter truthy_latency ms) = some_latencies ms.
Proof.
  induction 1 as [|m ms Hm _ IH]; [reflexivity|].
  unfold some_latencies in *. simpl. unfold truthy_latency, positive_latency in *.
  destruct (Metric.latency m) as [l|] eqn:Hl.
  - assert (Qeq_bool l 0 = false) as ->.
    { apply not_true_iff_false. rewrite Qeq_bool_iff. intros H. rewrite H in Hm.
      apply (Qlt_irrefl 0 Hm). }
    simpl. rewrite Hl. simpl. f_equal. exact IH.
  - simpl. exact IH.
Qed.

Lemma some_latencies_positive (ms : list Metric.t) :
  Forall positive_latency ms -> Forall (fun l => (0 < l)%Q) (some_latencies ms).
Proof.
  induction 1 as [|m ms Hm _ IH]; [constructor|].
  unfold some_latencies in *. simpl. unfold positive_latency in Hm.
  destruct (Metric.latency m); simpl; [constructor|]; assumption.
Qed.

Lemma sum_positive (l : list Q) :
  Forall (fun x => (0 < x)%Q) l -> l <> [] -> (0 < Py.sum l)%Q.
Proof.
  induction 1 as [|x l Hx Hl IH]; intros Hne; [congruence|].
  change (Py.sum (x :: l)) with (x + Py.sum l)%Q.
  destruct l as [|y l].
  - simpl. lra.
  - assert (0 < Py.sum (y :: l))%Q by (apply IH; discriminate). lra.
Qed.

Lemma mean_positive (l : list Q) :
  Forall (fun x => (0 < x)%Q) l -> l <> [] -> (0 < Py.mean l)%Q.
Proof.
  intros Hl Hne. unfold Py.mean, Qdiv.
  apply Qmult_lt_0_compat; [apply sum_positive; assumption|].
  apply Qinv_lt_0_compat. change 0%Q with (inject_Z 0). rewrite <- Zlt_Qlt.
  unfold Py.len. destruct l; [congruence | simpl List.length; lia].
Qed.

(** Where every latency of the last 100 records is positive, the code
    computes the coefficient of variation the specification defines. *)
Lemma latency_cv_as_claimed (ms : list Metric.t) :
  Forall positive_latency (Py.lastn 100 ms) ->
  latency_cv ms = claimed_latency_cv ms.
Proof.
  intros H. unfold latency_cv, claimed_latency_cv. cbv zeta.
  rewrite (filter_truthy_positive _ H).
  destruct (10 <? Py.len (some_latencies (Py.lastn 100 ms))) eqn:Hn; [|reflexivity].
  assert (Hpos : (0 < Py.mean (some_latencies (Py.lastn 100 ms)))%Q).
  { apply mean_positive; [apply some_latencies_positive; exact H|].
    intros Hnil. rewrite Hnil in Hn. discriminate Hn. }
  apply Qltb_lt in Hpos. rewrite Hpos. reflexivity.
Qed.

(** With no history the report is the neutral one. *)
Lemma stability_no_history (t : HealthTracker) :
  metrics t = [] ->
  get_connection_stability t =
  Stability.Build 100 0 0 (Some 0) 0 "Sem dados históricos ainda".
Proof. intros H. unfold get_connection_stability. rewrite H. reflexivity. Qed.

(** With a history, the score and the recommendation are read off the
    ladder at the disconnect count and the coefficient of variation. *)
Lemma stability_with_history (t : HealthTracker) :
  metrics t <> [] ->
  (Stability.stability_score (get_connection_stability t),
   Stability.recommendation (get_connection_stability t))
  = stability_ladder (disconnect_count (connection_state t)) (latency_cv (metrics t))
  /\ Stability.disconnect_events (get_connection_stability t)
     = disconnect_count (connection_state t).
Proof.
  intros H. unfold get_connection_stability.
  destruct (metrics t) as [|m ms] eqn:Hm; [congruence|].
  destruct (stability_ladder _ _) as [s r]. split; reflexivity.
Qed.

(** C6 fails on a record whose latency is 0.0: [m.get('latency')] is then
    false and the record is left out.  With one record of 0 ms and ten of
    10 ms the code sees 10 samples, takes the variation to be 0 and scores
    100; over the 11 latencies the variation is about 33 percent, for which
    the ladder gives 80. *)
Theorem C6_zero_latency_left_out :
  let t := set_metrics zero_latency_history (self new_world) in
  Stability.stability_score (get_connection_stability t) = 100
  /\ latency_cv (metrics t) = Py.root_zero
  /\ Py.len (some_latencies (Py.lastn 100 (metrics t))) = 11
  /\ Py.root_ltb (claimed_latency_cv (metrics t)) 20 = false
  /\ fst (stability_ladder (disconnect_count (connection_state t))
            (claimed_latency_cv (metrics t))) = 80.
Proof. vm_compute. repeat split; reflexivity. Qed.

(** ** The history file: reading back what was written *)

Lemma append_empty_r (s : string) : (s ++ EmptyString)%string = s.
Proof. induction s as [|c s IH]; simpl; [reflexivity | rewrite IH; reflexivity]. Qed.

Lemma length_append (s k : string) :
  String.length (s ++ k) = (String.length s + String.length k)%nat.
Proof. induction s as [|c s IH]; simpl; [reflexivity | rewrite IH; reflexivity]. Qed.

Lemma num_char_class (c : ascii) :
  Json.is_num_char c = true ->
  Json.is_ws c = false
  /\ (c =? Json.dquote)%char = false
  /\ ("n" =? c)%char = false /\ ("t" =? c)%char = false /\ ("f" =? c)%char = false.
Proof.
  destruct c as [[] [] [] [] [] [] [] []]; vm_compute; intros H;
    try discriminate H; repeat split.
Qed.

Lemma span_num_app (t k : string) :
  all_num_chars t = true -> ends_number k = true ->
  Json.span_num (t ++ k) = (t, k).
Proof.
  intros Ht Hk.
  induction t as [|c t IH]; cbn [all_num_chars Json.span_num String.append] in *.
  - destruct k as [|c k]; [reflexivity|]. cbn [ends_number Json.span_num] in *.
    apply negb_true_iff in Hk. rewrite Hk. reflexivity.
  - apply andb_true_iff in Ht. destruct Ht as [Hc Ht]. rewrite Hc, (IH Ht). reflexivity.
Qed.

Lemma uint_text (d : Decimal.uint) :
  all_num_chars (NilEmpty.string_of_uint d) = true
  /\ Json.has_float_mark (NilEmpty.string_of_uint d) = false.
Proof.
  induction d as [|d [IH1 IH2]|d [IH1 IH2]|d [IH1 IH2]|d [IH1 IH2]|d [IH1 IH2]
                  |d [IH1 IH2]|d [IH1 IH2]|d [IH1 IH2]|d [IH1 IH2]|d [IH1 IH2]];
    simpl; [split; reflexivity | ..];
    rewrite IH1, IH2; split; reflexivity.
Qed.

Lemma int_text (z : Z) :
  all_num_chars (NilZero.string_of_int (Z.to_int z)) = true
  /\ Json.has_float_mark (NilZero.string_of_int (Z.to_int z)) = false
  /\ NilZero.string_of_int (Z.to_int z) <> EmptyString.
Proof.
  assert (Hu : forall d, all_num_chars (NilZero.string_of_uint d) = true
                         /\ Json.has_float_mark (NilZero.string_of_uint d) = false
                         /\ NilZero.string_of_uint d <> EmptyString).
  { intros d. destruct (uint_text d) as [H1 H2].
    destruct d; simpl in *; repeat split; try assumption; discriminate. }
  destruct z as [|p|p]; simpl.
  - repeat split; discriminate.
  - apply Hu.
  - destruct (Hu (Pos.to_uint p)) as (H1 & H2 & _).
    change (Json.is_num_char "-") with true. simpl. rewrite H1, H2.
    repeat split. discriminate.
Qed.

Lemma int_text_reads (z : Z) :
  NilZero.int_of_string (NilZero.string_of_int (Z.to_int z)) = Some (Z.to_int z).
Proof.
  apply NilZero.isi; destruct z as [|p|p]; simpl; try discriminate;
    intros H; injection H as H; exact (DecimalPos.Unsigned.to_uint_nonnil p H).
Qed.

Section ReadBack.

Variable fr : Q -> string.
Variable fs : string -> option Q.

Lemma parse_number_int (z : Z) (k : string) :
  ends_number k = true ->
  Json.parse_number fs (Json.put_int z k) = Some (Json.Int z, k).
Proof.
  intros Hk. destruct (int_text z) as (H1 & H2 & _).
  unfold Json.parse_number, Json.put_int.
  rewrite (span_num_app _ _ H1 Hk), H2, int_text_reads, DecimalZ.of_to.
  unfold Json.put_int. rewrite append_empty_r, String.eqb_refl. reflexivity.
Qed.

Lemma parse_number_float (q : Q) (k : string) :
  float_text_ok fr fs q -> ends_number k = true ->
  Json.parse_number fs (fr q ++ k) = Some (Json.Float q, k).
Proof.
  intros [Hread Htok] Hk. unfold float_token in Htok.
  destruct (fr q) as [|c t] eqn:Hq; [discriminate Htok|].
  apply andb_true_iff in Htok. destruct Htok as [Hnum Hmark].
  unfold Json.parse_number. rewrite (span_num_app _ _ Hnum Hk), Hmark, Hread.
  reflexivity.
Qed.

(** A text that begins like a number is read as one. *)
Lemma parse_scalar_number (t k : string) :
  t <> EmptyString -> all_num_chars t = true ->
  Json.parse_scalar fs (t ++ k) = Json.parse_number fs (t ++ k)
  /\ Json.skip_ws (t ++ k) = (t ++ k)%string.
Proof.
  intros Hne Hnum. destruct t as [|c t]; [congruence|].
  simpl in Hnum. apply andb_true_iff in Hnum. destruct Hnum as [Hc _].
  destruct (num_char_class c Hc) as (Hws & Hq & Hn & Ht & Hf).
  split.
  - change ((String c t ++ k)%string) with (String c (t ++ k)).
    unfold Json.parse_scalar. rewrite Hq.
    cbn [Json.strip_prefix]. rewrite Hn, Ht, Hf. reflexivity.
  - simpl. rewrite Hws. reflexivity.
Qed.

End ReadBack.

(** One character, written with its escape if it needs one, is read back
    as itself. *)
Lemma scan_put_char (c : ascii) (rest : string) :
  Json.scan_string (Json.put_char c rest)
  = Json.prepend (String c EmptyString) (Json.scan_string rest).
Proof. destruct c as [[] [] [] [] [] [] [] []]; reflexivity. Qed.

(** A string written with its escapes is read back as it was. *)
Lemma scan_put_escaped (s k : string) :
  Json.scan_string (Json.put_escaped s (String Json.dquote k)) = Some (s, k).
Proof.
  induction s as [|c s IH]; [reflexivity|].
  cbn [Json.put_escaped]. rewrite scan_put_char, IH. reflexivity.
Qed.

Lemma length_put_char (c : ascii) (k : string) :
  (String.length k <= String.length (Json.put_char c k))%nat.
Proof.
  unfold Json.put_char.
  repeat match goal with
         | |- context [if ?b then _ else _] => destruct b
         end; simpl; lia.
Qed.

Lemma length_put_string (s k : string) :
  (String.length k <= String.length (Json.put_string s k))%nat.
Proof.
  unfold Json.put_string. simpl.
  assert (H : forall k', (String.length k' <= String.length (Json.put_escaped s k'))%nat).
  { induction s as [|c s IH]; intros k'; simpl; [lia|].
    pose proof (length_put_char c (Json.put_escaped s k')). specialize (IH k'). lia. }
  specialize (H (String Json.dquote k)). simpl in H. lia.
Qed.

Lemma length_put_scalar (fr : Q -> string) (v : Json.scalar) (k : string) :
  (String.length k <= String.length (Json.put_scalar fr v k))%nat.
Proof.
  destruct v as [|[]|z|q|s]; unfold Json.put_scalar, Json.put_int;
    try (rewrite length_append; lia).
  apply length_put_string.
Qed.

Lemma length_put_members (fr : Q -> string) (o : Json.object) :
  forall (m : string * Json.scalar) (k : string),
  (String.length k + List.length o < String.length (Json.put_members fr m o k))%nat.
Proof.
  induction o as [|m' o IH]; intros m k; cbn [Json.put_members];
    rewrite length_append.
  - pose proof (length_put_string (fst m)
                  (": " ++ Json.put_scalar fr (snd m) (Json.NL ++ "  }" ++ k))) as H1.
    rewrite length_append in H1.
    pose proof (length_put_scalar fr (snd m) (Json.NL ++ "  }" ++ k)) as H2.
    rewrite !length_append in H2. simpl in *. lia.
  - pose proof (length_put_string (fst m)
                  (": " ++ Json.put_scalar fr (snd m)
                             ("," ++ Json.NL ++ Json.put_members fr m' o k))) as H1.
    rewrite length_append in H1.
    pose proof (length_put_scalar fr (snd m)
                  ("," ++ Json.NL ++ Json.put_members fr m' o k)) as H2.
    rewrite !length_append in H2. specialize (IH m' k).
    cbn [String.length List.length] in *. lia.
Qed.

Section ReadBackValues.

Variable fr : Q -> string.
Variable fs : string -> option Q.

(** A value is read back, and no white space is skipped before it. *)
Lemma parse_scalar_put (v : Json.scalar) (k : string) :
  scalar_ok fr fs v -> ends_number k = true ->
  Json.parse_scalar fs (Json.put_scalar fr v k) = Some (v, k)
  /\ Json.skip_ws (Json.put_scalar fr v k) = Json.put_scalar fr v k.
Proof.
  intros Hv Hk. destruct v as [|[]|z|q|s]; cbn [Json.put_scalar].
  - split; reflexivity.
  - split; reflexivity.
  - split; reflexivity.
  - destruct (int_text z) as (H1 & H2 & H3). unfold Json.put_int.
    destruct (parse_scalar_number fs _ k H3 H1) as [-> ->].
    split; [apply (parse_number_int fs z k Hk) | reflexivity].
  - destruct Hv as [Hread Htok].
    assert (Hne : fr q <> EmptyString)
      by (intros H; rewrite H in Htok; discriminate Htok).
    assert (Hnum : all_num_chars (fr q) = true).
    { unfold float_token in Htok. destruct (fr q); [discriminate|].
      apply andb_true_iff in Htok. apply Htok. }
    destruct (parse_scalar_number fs _ k Hne Hnum) as [-> ->].
    split; [apply parse_number_float; [split|]; assumption | reflexivity].
  - split; [|reflexivity].
    unfold Json.put_string, Json.parse_scalar.
    change (Json.dquote =? Json.dquote)%char with true. cbv iota.
    rewrite scan_put_escaped. reflexivity.
Qed.

Lemma parse_members_put (o : Json.object) :
  forall (m : string * Json.scalar) (k : string) (fuel : nat),
  Forall (fun kv => scalar_ok fr fs (snd kv)) (m :: o) ->
  (List.length o < fuel)%nat ->
  Json.parse_members fs fuel (Json.skip_ws (Json.put_members fr m o k))
  = Some (m :: o, k).
Proof.
  induction o as [|m' o IH]; intros [key v] k fuel Hok Hfuel;
    (destruct fuel as [|fuel]; [lia|]);
    inversion Hok as [|? ? Hv Hrest]; subst; cbn [snd fst] in *;
    cbn [Json.put_members fst snd];
    change (Json.skip_ws ("    " ++ Json.put_string key ?r)%string)
      with (Json.put_string key r);
    unfold Json.put_string at 1; cbn [Json.parse_members];
    change (Json.dquote =? Json.dquote)%char with true; cbn [negb];
    rewrite scan_put_escaped;
    match goal with
    | |- context [Json.skip_ws (": " ++ ?r)%string] =>
        change (Json.skip_ws (": " ++ r)%string) with (String ":" (String " " r));
        change (":" =? ":")%char with true; cbn [negb];
        change (Json.skip_ws (String " " r)) with (Json.skip_ws r)
    end.
  - destruct (parse_scalar_put v (Json.NL ++ "  }" ++ k) Hv eq_refl) as [Hp Hs].
    rewrite Hs, Hp. reflexivity.
  - destruct (parse_scalar_put v ("," ++ Json.NL ++ Json.put_members fr m' o k)
                Hv eq_refl) as [Hp Hs].
    rewrite Hs, Hp.
    change (Json.skip_ws ("," ++ ?r)%string) with (String "," r).
    change ("," =? "}")%char with false. change ("," =? ",")%char with true. cbv iota.
    change (Json.skip_ws (Json.NL ++ ?r)%string) with (Json.skip_ws r).
    rewrite (IH m' k fuel Hrest) by (simpl in Hfuel; lia). reflexivity.
Qed.

End ReadBackValues.

Lemma length_put_object (fr : Q -> string) (o : Json.object) (k : string) :
  (String.length k <= String.length (Json.put_object fr o k))%nat.
Proof.
  destruct o as [|m o]; cbn [Json.put_object]; rewrite !length_append.
  - lia.
  - pose proof (length_put_members fr o m k). lia.
Qed.

Lemma length_put_items (fr : Q -> string) (l : list Json.object) :
  forall (o : Json.object) (k : string),
  (String.length k + List.length l < String.length (Json.put_items fr o l k))%nat.
Proof.
  induction l as [|o' l IH]; intros o k; cbn [Json.put_items]; rewrite length_append.
  - pose proof (length_put_object fr o (Json.NL ++ "]" ++ k)) as H.
    rewrite !length_append in H. cbn [String.length List.length] in *. lia.
  - pose proof (length_put_object fr o ("," ++ Json.NL ++ Json.put_items fr o' l k)) as H.
    rewrite !length_append in H. specialize (IH o' k).
    cbn [String.length List.length] in *. lia.
Qed.

Section ReadBackDocument.

Variable fr : Q -> string.
Variable fs : string -> option Q.

Lemma parse_object_put (o : Json.object) (k : string) :
  object_ok fr fs o ->
  Json.parse_object fs (Json.put_object fr o k) = Some (o, k).
Proof.
  intros Hok. destruct o as [|m o]; [reflexivity|].
  cbn [Json.put_object].
  change (Json.parse_object fs ("{" ++ Json.NL ++ Json.put_members fr m o k))
    with (match Json.skip_ws (Json.put_members fr m o k) with
          | EmptyString => None
          | String c2 s2 =>
              if (c2 =? "}")%char then Some ([], s2)
              else Json.parse_members fs
                     (String.length (Json.NL ++ Json.put_members fr m o k))
                     (String c2 s2)
          end).
  pose proof (parse_members_put fr fs o m k
                (String.length (Json.NL ++ Json.put_members fr m o k)) Hok) as H.
  assert (Hs : exists x, Json.skip_ws (Json.put_members fr m o k) = String Json.dquote x)
    by (destruct o; eexists; reflexivity).
  destruct Hs as [x Hs]. rewrite Hs in *.
  change (Json.dquote =? "}")%char with false. cbv iota.
  apply H. rewrite length_append. pose proof (length_put_members fr o m k). lia.
Qed.

Lemma parse_items_put (l : list Json.object) :
  forall (o : Json.object) (k : string) (fuel : nat),
  Forall (object_ok fr fs) (o :: l) ->
  (List.length l < fuel)%nat ->
  Json.parse_items fs fuel (Json.skip_ws (Json.put_items fr o l k)) = Some (o :: l, k).
Proof.
  induction l as [|o' l IH]; intros o k fuel Hok Hfuel;
    (destruct fuel as [|fuel]; [lia|]);
    inversion Hok as [|? ? Ho Hrest]; subst;
    cbn [Json.put_items];
    match goal with
    | |- context [Json.skip_ws ("  " ++ Json.put_object fr o ?r)%string] =>
        replace (Json.skip_ws ("  " ++ Json.put_object fr o r)%string)
          with (Json.put_object fr o r) by (destruct o; reflexivity)
    end;
    cbn [Json.parse_items]; rewrite (parse_object_put _ _ Ho).
  - reflexivity.
  - change (Json.skip_ws ("," ++ ?r)%string) with (String "," r).
    change ("," =? "]")%char with false. change ("," =? ",")%char with true. cbv iota.
    change (Json.skip_ws (Json.NL ++ ?r)%string) with (Json.skip_ws r).
    rewrite (IH o' k fuel Hrest) by (simpl in Hfuel; lia). reflexivity.
Qed.

Lemma loads_dumps (l : list Json.object) :
  Forall (object_ok fr fs) l -> Json.loads fs (Json.dumps fr l) = Some l.
Proof.
  intros Hok. destruct l as [|o l]; [reflexivity|].
  unfold Json.loads, Json.dumps.
  change (Json.skip_ws ("[" ++ Json.NL ++ Json.put_items fr o l EmptyString))
    with (String "[" (Json.NL ++ Json.put_items fr o l EmptyString)).
  change (Json.parse_array fs (String "[" (Json.NL ++ Json.put_items fr o l EmptyString)))
    with (match Json.skip_ws (Json.put_items fr o l EmptyString) with
          | EmptyString => None
          | String c2 s2 =>
              if (c2 =? "]")%char then Some ([], s2)
              else Json.parse_items fs
                     (String.length (Json.NL ++ Json.put_items fr o l EmptyString))
                     (String c2 s2)
          end).
  pose proof (parse_items_put l o EmptyString
                (String.length (Json.NL ++ Json.put_items fr o l EmptyString)) Hok) as H.
  assert (Hs : exists x, Json.skip_ws (Json.put_items fr o l EmptyString) = String "{" x)
    by (destruct o, l; eexists; reflexivity).
  destruct Hs as [x Hs]. rewrite Hs in *.
  change ("{" =? "]")%char with false. cbv iota.
  rewrite H; [reflexivity|].
  rewrite length_append. pose proof (length_put_items fr l o EmptyString). lia.
Qed.

Lemma metric_of_object_of_metric (m : Metric.t) :
  Json.metric_of_object (Json.object_of_metric m) = Some m.
Proof. destruct m as [ts [q|] c sc cat]; reflexivity. Qed.

Lemma object_of_metric_ok (m : Metric.t) :
  metric_ok fr fs m -> object_ok fr fs (Json.object_of_metric m).
Proof.
  intros H. unfold object_ok, Json.object_of_metric, metric_ok in *.
  repeat constructor. simpl. destruct (Metric.latency m); [exact H | exact I].
Qed.

(** What [json.dump] writes of a history, [json.load] reads back. *)
Lemma load_dump (ms : list Metric.t) :
  Forall (metric_ok fr fs) ms -> Json.load fs (Json.dump fr ms) = Some ms.
Proof.
  intros Hok. unfold Json.load, Json.dump. rewrite loads_dumps.
  - induction ms as [|m ms IH]; [reflexivity|].
    inversion Hok; subst. cbn [map Json.metrics_of_objects].
    rewrite metric_of_object_of_metric, IH by assumption. reflexivity.
  - induction Hok as [|m ms Hm _ IH]; [constructor|].
    constructor; [apply object_of_metric_ok; exact Hm | exact IH].
Qed.

End ReadBackDocument.

(** C8: when the history file can be written and the text of every latency
    in the history is that of a float that reads back as the same number, a
    tracker constructed after [_save_history] loads the same sequence of
    records. *)
Theorem C8_save_then_load (float_repr : Q -> string) (float_of_string : string -> option Q)
    (ping_host : string) (w : World) :
  writable w = true ->
  Forall (metric_ok float_repr float_of_string) (metrics (self w)) ->
  metrics (init float_of_string ping_host (disk (snd (_save_history float_repr w))))
  = metrics (self w).
Proof.
  intros Hw Hok. unfold _save_history. rewrite Hw. cbn [snd disk].
  unfold init, _load_history. rewrite (load_dump _ _ _ Hok). reflexivity.
Qed.

(** *** A text for floats that satisfies the hypothesis *)

Lemma float_mark_e (c : ascii) :
  Json.is_float_mark c = false -> (c =? "e")%char = false.
Proof.
  unfold Json.is_float_mark. intros H.
  apply orb_false_iff in H. destruct H as [H _].
  apply orb_false_iff in H. apply H.
Qed.

Lemma split_at_e_app (t r : string) :
  Json.has_float_mark t = false -> split_at_e (t ++ String "e" r) = (t, r).
Proof.
  induction t as [|c t IH]; intros H; cbn [String.append split_at_e Json.has_float_mark] in *.
  - reflexivity.
  - apply orb_false_iff in H. destruct H as [Hc Ht].
    rewrite (float_mark_e c Hc), (IH Ht). reflexivity.
Qed.

Lemma all_num_chars_app (s t : string) :
  all_num_chars (s ++ t) = all_num_chars s && all_num_chars t.
Proof.
  induction s as [|c s IH]; cbn [String.append all_num_chars]; [reflexivity|].
  rewrite IH, andb_assoc. reflexivity.
Qed.

Lemma has_float_mark_app (s t : string) :
  Json.has_float_mark (s ++ t) = Json.has_float_mark s || Json.has_float_mark t.
Proof.
  induction s as [|c s IH]; cbn [String.append Json.has_float_mark]; [reflexivity|].
  rewrite IH, orb_assoc. reflexivity.
Qed.

Lemma fraction_text_ok (q : Q) : float_text_ok fraction_repr fraction_of_string q.
Proof.
  destruct q as [n d]. unfold float_text_ok, fraction_repr, Json.put_int. cbn [Qnum Qden].
  rewrite append_empty_r.
  destruct (int_text n) as (Hn1 & Hn2 & Hn3).
  destruct (int_text (Z.pos d)) as (Hd1 & Hd2 & _).
  split.
  - unfold fraction_of_string. rewrite (split_at_e_app _ _ Hn2).
    rewrite !int_text_reads, !DecimalZ.of_to. reflexivity.
  - unfold float_token.
    destruct (NilZero.string_of_int (Z.to_int n) ++ String "e" _)%string eqn:E.
    + destruct (NilZero.string_of_int (Z.to_int n)); [congruence | discriminate E].
    + rewrite <- E, all_num_chars_app, has_float_mark_app, Hn1.
      cbn [all_num_chars Json.has_float_mark]. rewrite Hd1.
      change (Json.is_num_char "e") with true. change (Json.is_float_mark "e") with true.
      rewrite orb_true_r. reflexivity.
Qed.

Lemma C8_save_then_load_witness :
  metrics (init fraction_of_string "8.8.8.8"
             (disk (snd (_save_history fraction_repr two_records_world))))
  = metrics (self two_records_world).
Proof.
  apply (C8_save_then_load fraction_repr fraction_of_string "8.8.8.8" two_records_world).
  - reflexivity.
  - repeat constructor; apply fraction_text_ok.
Defined.

(** * Further operations *)

(** ** Reading the history *)

Lemma slice_from_nonneg {A : Type} (i : Z) (l : list A) :
  0 <= i -> slice_from i l = skipn (Z.to_nat i) l.
Proof.
  intros Hi. unfold slice_from, Py.len.
  destruct (i <? 0) eqn:Hneg; [apply Z.ltb_lt in Hneg; lia|].
  destruct (Z.le_gt_cases i (Z.of_nat (List.length l))) as [Hle|Hgt].
  - rewrite Z.min_l by lia. reflexivity.
  - rewrite Z.min_r by lia. rewrite Nat2Z.id.
    rewrite !skipn_all2 by lia. reflexivity.
Qed.

Lemma slice_from_neg {A : Type} (i : Z) (l : list A) :
  i < 0 -> slice_from i l = Py.lastn (Z.to_nat (- i)) l.
Proof.
  intros Hi. unfold slice_from, Py.len, Py.lastn.
  destruct (i <? 0) eqn:Hneg; [|apply Z.ltb_ge in Hneg; lia].
  f_equal. lia.
Qed.

(** X1: for a positive [count], [get_recent_metrics] returns the end of
    the history, in order: the last [count] records, or all of them when
    there are fewer. *)
Theorem X1_recent_metrics_suffix (count : Z) (t : HealthTracker) :
  0 < count ->
  exists older : list Metric.t,
    metrics t = (older ++ get_recent_metrics count t)%list
    /\ Py.len (get_recent_metrics count t) = Z.min count (Py.len (metrics t)).
Proof.
  intros Hc. unfold get_recent_metrics.
  destruct (metrics t) as [|m ms] eqn:Hm.
  - exists []. split; [reflexivity|]. unfold Py.len. simpl. lia.
  - rewrite slice_from_neg by lia. rewrite Z.opp_involutive.
    set (l := m :: ms). unfold Py.lastn.
    exists (firstn (List.length l - Z.to_nat count) l). split.
    + symmetry. apply firstn_skipn.
    + unfold Py.len. rewrite length_skipn. lia.
Qed.

Lemma X1_recent_metrics_suffix_witness :
  exists older : list Metric.t,
    metrics (self two_records_world)
    = (older ++ get_recent_metrics 30 (self two_records_world))%list
    /\ Py.len (get_recent_metrics 30 (self two_records_world))
       = Z.min 30 (Py.len (metrics (self two_records_world))).
Proof. apply (X1_recent_metrics_suffix 30 (self two_records_world)). lia. Defined.

(** X2: a [count] of 0 returns the whole history, and a negative [count]
    drops that many records from the start instead. *)
Theorem X2_recent_metrics_nonpositive (t : HealthTracker) :
  get_recent_metrics 0 t = metrics t
  /\ forall k : Z, 0 < k ->
       get_recent_metrics (- k) t = skipn (Z.to_nat k) (metrics t).
Proof.
  unfold get_recent_metrics. split.
  - destruct (metrics t) as [|m ms]; [reflexivity|].
    rewrite slice_from_nonneg by lia. reflexivity.
  - intros k Hk. destruct (metrics t) as [|m ms].
    + rewrite skipn_nil. reflexivity.
    + rewrite slice_from_nonneg by lia. rewrite Z.opp_involutive. reflexivity.
Qed.

(** ** Statistics *)

Lemma round_half_even_mono (x y : Q) :
  (x <= y)%Q -> Py.round_half_even x <= Py.round_half_even y.
Proof.
  intros Hxy. pose proof (Qfloor_resp_le x y Hxy) as Hf.
  assert (Hx : Py.round_half_even x <= Qfloor x + 1).
  { unfold Py.round_half_even. repeat match goal with |- context [if ?b then _ else _] => destruct b end; lia. }
  assert (Hy : Qfloor y <= Py.round_half_even y).
  { unfold Py.round_half_even. repeat match goal with |- context [if ?b then _ else _] => destruct b end; lia. }
  destruct (Z.eq_dec (Qfloor x) (Qfloor y)) as [Heq|Hne]; [|lia].
  unfold Py.round_half_even. rewrite <- Heq.
  set (f := Qfloor x) in *.
  destruct (Py.Qltb (x - inject_Z f) 0.5) eqn:Hx1.
  - repeat match goal with |- context [if ?b then _ else _] => destruct b end; lia.
  - apply Qltb_ge in Hx1.
    destruct (Py.Qltb (y - inject_Z f) 0.5) eqn:Hy1.
    + apply Qltb_lt in Hy1. lra.
    + destruct (Py.Qltb 0.5 (x - inject_Z f)) eqn:Hx2.
      * apply Qltb_lt in Hx2.
        destruct (Py.Qltb 0.5 (y - inject_Z f)) eqn:Hy2; [lia|].
        apply Qltb_ge in Hy2. lra.
      * destruct (Py.Qltb 0.5 (y - inject_Z f)); [destruct (Z.even f); lia|lia].
Qed.

Lemma round2_mono (x y : Q) : (x <= y)%Q -> (Py.round2 x <= Py.round2 y)%Q.
Proof.
  intros H. unfold Py.round2, Qle. cbn [Qnum Qden].
  assert (Py.round_half_even (x * 100) <= Py.round_half_even (y * 100)).
  { apply round_half_even_mono. lra. }
  lia.
Qed.

Lemma min_lower (l : list Q) : forall x : Q,
  (Py.min x l <= x)%Q /\ Forall (fun y => (Py.min x l <= y)%Q) l.
Proof.
  induction l as [|y l IH]; intros x.
  - split; [apply Qle_refl | constructor].
  - unfold Py.min in *. cbn [fold_left].
    destruct (IH (if Py.Qltb y x then y else x)) as [H1 H2].
    destruct (Py.Qltb y x) eqn:Hlt.
    + apply Qltb_lt in Hlt. split; [lra|]. constructor; assumption.
    + apply Qltb_ge in Hlt. split; [exact H1|]. constructor; [lra | exact H2].
Qed.

Lemma max_upper (l : list Q) : forall x : Q,
  (x <= Py.max x l)%Q /\ Forall (fun y => (y <= Py.max x l)%Q) l.
Proof.
  induction l as [|y l IH]; intros x.
  - split; [apply Qle_refl | constructor].
  - unfold Py.max in *. cbn [fold_left].
    destruct (IH (if Py.Qltb x y then y else x)) as [H1 H2].
    destruct (Py.Qltb x y) eqn:Hlt.
    + apply Qltb_lt in Hlt. split; [lra|]. constructor; assumption.
    + apply Qltb_ge in Hlt. split; [exact H1|]. constructor; [lra | exact H2].
Qed.

Lemma len_cons {A : Type} (x : A) (l : list A) : Py.len (x :: l) = Py.len l + 1.
Proof. unfold Py.len. cbn [List.length]. lia. Qed.

Lemma sum_lower (a : Q) (l : list Q) :
  Forall (fun y => (a <= y)%Q) l -> (inject_Z (Py.len l) * a <= Py.sum l)%Q.
Proof.
  unfold Py.sum. induction 1 as [|y l Hy Hl IH].
  - change (inject_Z (Py.len (@nil Q))) with 0%Q. cbn [fold_right]. lra.
  - rewrite len_cons, inject_Z_plus. cbn [fold_right].
    change (inject_Z 1) with 1%Q. lra.
Qed.

Lemma sum_upper (a : Q) (l : list Q) :
  Forall (fun y => (y <= a)%Q) l -> (Py.sum l <= inject_Z (Py.len l) * a)%Q.
Proof.
  unfold Py.sum. induction 1 as [|y l Hy Hl IH].
  - change (inject_Z (Py.len (@nil Q))) with 0%Q. cbn [fold_right]. lra.
  - rewrite len_cons, inject_Z_plus. cbn [fold_right].
    change (inject_Z 1) with 1%Q. lra.
Qed.

(** The mean of a nonempty list lies between its least and its greatest
    element. *)
Lemma mean_between (x : Q) (l : list Q) :
  (Py.min x l <= Py.mean (x :: l) <= Py.max x l)%Q.
Proof.
  destruct (min_lower l x) as [Hm1 Hm2]. destruct (max_upper l x) as [HM1 HM2].
  assert (Hn : (0 < inject_Z (Py.len (x :: l)))%Q).
  { change 0%Q with (inject_Z 0). rewrite <- Zlt_Qlt. rewrite len_cons. unfold Py.len. lia. }
  unfold Py.mean. split.
  - apply Qle_shift_div_l; [exact Hn|]. rewrite Qmult_comm.
    apply sum_lower. constructor; assumption.
  - apply Qle_shift_div_r; [exact Hn|]. rewrite Qmult_comm.
    apply sum_upper. constructor; assumption.
Qed.

Lemma some_latencies_nil (ms : list Metric.t) :
  some_latencies ms = [] <-> forall m, In m ms -> Metric.latency m = None.
Proof.
  unfold some_latencies. induction ms as [|m ms IH]; cbn [flat_map].
  - split; [intros _ m [] | reflexivity].
  - destruct (Metric.latency m) as [l|] eqn:Hl.
    + split; [discriminate|]. intros H. specialize (H m (or_introl eq_refl)). congruence.
    + rewrite app_nil_l, IH. split.
      * intros H m' [<-|Hin]; [exact Hl | apply H; exact Hin].
      * intros H m' Hin. apply H. right. exact Hin.
Qed.

Lemma some_latencies_length (ms : list Metric.t) :
  (List.length (some_latencies ms) <= List.length ms)%nat.
Proof.
  unfold some_latencies. induction ms as [|m ms IH]; cbn [flat_map List.length]; [lia|].
  rewrite length_app. destruct (Metric.latency m); cbn [List.length]; lia.
Qed.

(** X3: [get_statistics] returns the empty dict exactly on an empty
    history and the three-key dict exactly when no record has a latency;
    otherwise the rounded minimum, mean and maximum are in that order, the
    successes are counted among the records that have a latency (0.0
    included) and the success rate lies within 0 and 100. *)
Theorem X3_statistics_bounds (t : HealthTracker) :
  match get_statistics t with
  | Statistics.Empty => metrics t = []
  | Statistics.No_success total successful rate =>
      metrics t <> []
      /\ (forall m, In m (metrics t) -> Metric.latency m = None)
      /\ total = Py.len (metrics t) /\ successful = 0 /\ (rate == 0)%Q
  | Statistics.Full avg least greatest total successful rate =>
      (least <= avg <= greatest)%Q
      /\ total = Py.len (metrics t)
      /\ successful = Py.len (some_latencies (metrics t))
      /\ 1 <= successful <= total
      /\ (0 <= rate <= 100)%Q
  end.
Proof.
  unfold get_statistics. destruct (metrics t) as [|m ms] eqn:Hm; [reflexivity|].
  set (all := m :: ms) in *.
  destruct (some_latencies all) as [|l ls] eqn:Hl.
  - split; [discriminate|]. split; [apply some_latencies_nil; exact Hl|].
    repeat split; reflexivity.
  - pose proof (mean_between l ls) as [H1 H2].
    pose proof (some_latencies_length all) as Hlen. rewrite Hl in Hlen.
    assert (Hs : 1 <= Py.len (l :: ls) <= Py.len all).
    { unfold Py.len. cbn [List.length] in *. lia. }
    split; [split; apply round2_mono; assumption|].
    split; [reflexivity|]. split; [reflexivity|]. split; [exact Hs|].
    set (s := inject_Z (Py.len (l :: ls))). set (n := inject_Z (Py.len all)).
    assert (Hs1 : (1 <= s)%Q) by (change 1%Q with (inject_Z 1); unfold s; rewrite <- Zle_Qle; lia).
    assert (Hsn : (s <= n)%Q) by (unfold s, n; rewrite <- Zle_Qle; lia).
    assert (Hx : (0 <= s / n * 100 <= 100)%Q).
    { split.
      - apply Qmult_le_0_compat; [|lra]. apply Qle_shift_div_l; lra.
      - assert (s / n <= 1)%Q by (apply Qle_shift_div_r; lra). lra. }
    split.
    + apply Qle_trans with (Py.round2 0); [vm_compute; discriminate|].
      apply round2_mono. apply Hx.
    + apply Qle_trans with (Py.round2 100); [|vm_compute; discriminate].
      apply round2_mono. apply Hx.
Qed.

(** ** The best target *)

Lemma truthy_and_lt_true (latency : Q) (best : option Q) :
  truthy_and_lt latency best = true <->
  ~ (latency == 0)%Q /\ lt_inf latency best = true.
Proof.
  unfold truthy_and_lt. rewrite andb_true_iff, negb_true_iff.
  split; intros [H1 H2]; split; try assumption.
  - intros Hz. apply Qeq_bool_iff in Hz. congruence.
  - destruct (Qeq_bool latency 0) eqn:Hz; [|reflexivity].
    apply Qeq_bool_iff in Hz. contradiction.
Qed.

Lemma best_so_far_step (done : list (string * future_result)) (host : string)
    (r : future_result) (bl : option Q) (bh : option string) :
  best_so_far done bl bh ->
  match r with
  | Returned (Some latency) =>
      if truthy_and_lt latency bl
      then best_so_far (done ++ [(host, r)]) (Some latency) (Some host)
      else best_so_far (done ++ [(host, r)]) bl bh
  | _ => best_so_far (done ++ [(host, r)]) bl bh
  end.
Proof.
  intros H.
  assert (Hskip : (forall l, r = Returned (Some l) ->
                     (l == 0)%Q \/ match bl with Some b => (b <= l)%Q | None => False end) ->
                  best_so_far (done ++ [(host, r)]) bl bh).
  { intros Hr. destruct bl as [b|], bh as [h|]; simpl in *; try contradiction.
    - destruct H as (Hb & pre & post & -> & Hpre & Hpost). split; [exact Hb|].
      exists pre, (post ++ [(host, r)])%list. rewrite <- app_assoc. simpl.
      repeat split; [exact Hpre|].
      intros h' l' Hin Hnz. apply in_app_or in Hin. destruct Hin as [Hin|[Hin|[]]].
      + apply (Hpost h' l' Hin Hnz).
      + inversion Hin; subst. destruct (Hr l' eq_refl) as [Hz|Hle]; [contradiction|exact Hle].
    - intros h l Hin. apply in_app_or in Hin. destruct Hin as [Hin|[Hin|[]]].
      + apply (H h l Hin).
      + inversion Hin; subst. destruct (Hr l eq_refl) as [Hz|[]]. exact Hz. }
  destruct r as [[latency|]|]; try (apply Hskip; intros l; discriminate).
  destruct (truthy_and_lt latency bl) eqn:Ht.
  - apply truthy_and_lt_true in Ht. destruct Ht as [Hnz Hlt].
    simpl. split; [exact Hnz|]. exists done, []. repeat split.
    + intros h' l' Hin Hnz'.
      destruct bl as [b|], bh as [h|]; simpl in *; try contradiction.
      * apply Qltb_lt in Hlt. destruct H as (Hb & pre & post & -> & Hpre & Hpost).
        apply in_app_or in Hin. destruct Hin as [Hin|[Hin|Hin]].
        -- specialize (Hpre _ _ Hin Hnz'). lra.
        -- inversion Hin; subst. exact Hlt.
        -- specialize (Hpost _ _ Hin Hnz'). lra.
      * exfalso. apply Hnz'. apply (H h' l' Hin).
    + intros h' l' [].
  - apply Hskip. intros l Hl. inversion Hl; subst l.
    destruct (Qeq_bool latency 0) eqn:Hz.
    + left. apply Qeq_bool_iff. exact Hz.
    + right. unfold truthy_and_lt in Ht. rewrite Hz in Ht. simpl in Ht.
      destruct bl as [b|]; [|discriminate Ht]. apply Qltb_ge in Ht. exact Ht.
Qed.

Lemma collect_best_so_far (rest : list (string * future_result)) :
  forall (done : list (string * future_result)) (bl : option Q) (bh : option string),
  best_so_far done bl bh ->
  best_so_far (done ++ rest) (fst (collect_best rest bl bh)) (snd (collect_best rest bl bh)).
Proof.
  induction rest as [|[host r] rest IH]; intros done bl bh H.
  - rewrite app_nil_r. exact H.
  - replace (done ++ (host, r) :: rest)%list with ((done ++ [(host, r)]) ++ rest)%list
      by (rewrite <- app_assoc; reflexivity).
    pose proof (best_so_far_step done host r bl bh H) as Hstep.
    cbn [collect_best]. destruct r as [[latency|]|]; try (apply IH; exact Hstep).
    destruct (truthy_and_lt latency bl); apply IH; exact Hstep.
Qed.

(** X5: over at least one target, [get_best_ping_host] returns the first
    occurrence, in completion order, of the least latency among the probes
    that returned one other than 0.0; it returns no host exactly when no
    probe returned a latency other than 0.0. *)
Theorem X5_best_ping_host (completed : list (string * future_result)) :
  completed <> [] ->
  exists best : option string,
    get_best_ping_host completed = Some best
    /\ match best with
       | Some h =>
           exists pre l post,
             completed = (pre ++ (h, Returned (Some l)) :: post)%list
             /\ ~ (l == 0)%Q
             /\ (forall h' l', In (h', Returned (Some l')) pre -> ~ (l' == 0)%Q -> (l < l')%Q)
             /\ (forall h' l', In (h', Returned (Some l')) post -> ~ (l' == 0)%Q -> (l <= l')%Q)
       | None => forall h l, In (h, Returned (Some l)) completed -> (l == 0)%Q
       end.
Proof.
  intros Hne. unfold get_best_ping_host.
  destruct completed as [|c rest] eqn:Hc; [congruence|]. rewrite <- Hc.
  eexists. split; [reflexivity|].
  pose proof (collect_best_so_far completed [] None None) as H.
  simpl in H. specialize (H (fun h l (F : False) => match F with end)).
  destruct (collect_best completed None None) as [bl bh]. simpl in *.
  destruct bl as [l|], bh as [h|]; try contradiction.
  - destruct H as (Hnz & pre & post & Heq & Hpre & Hpost). exists pre, l, post. auto.
  - exact H.
Qed.

Lemma X5_best_ping_host_witness :
  exists best : option string,
    get_best_ping_host abc = Some best
    /\ match best with
       | Some h =>
           exists pre l post,
             abc = (pre ++ (h, Returned (Some l)) :: post)%list
             /\ ~ (l == 0)%Q
             /\ (forall h' l', In (h', Returned (Some l')) pre -> ~ (l' == 0)%Q -> (l < l')%Q)
             /\ (forall h' l', In (h', Returned (Some l')) post -> ~ (l' == 0)%Q -> (l <= l')%Q)
       | None => forall h l, In (h, Returned (Some l)) abc -> (l == 0)%Q
       end.
Proof. apply (X5_best_ping_host abc). discriminate. Defined.

Lemma collect_best_nonzero (completed : list (string * future_result)) :
  (forall h l, In (h, Returned (Some l)) completed -> ~ (l == 0)%Q) ->
  forall (bl : option Q) (bh : option string),
  collect_best completed bl bh = collect completed bl bh.
Proof.
  induction completed as [|[host r] rest IH]; intros Hnz bl bh; [reflexivity|].
  assert (Hrest : forall h l, In (h, Returned (Some l)) rest -> ~ (l == 0)%Q).
  { intros h l Hin. apply (Hnz h l). right. exact Hin. }
  cbn [collect_best collect]. destruct r as [[latency|]|]; try (apply IH; exact Hrest).
  unfold truthy_and_lt.
  assert (Hz : Qeq_bool latency 0 = false).
  { destruct (Qeq_bool latency 0) eqn:Hq; [|reflexivity].
    apply Qeq_bool_iff in Hq. exfalso. apply (Hnz host latency); [left; reflexivity | exact Hq]. }
  rewrite Hz. cbn [negb andb].
  destruct (lt_inf latency bl); apply IH; exact Hrest.
Qed.

(** X6: when no probe returned a latency of exactly 0.0,
    [get_best_ping_host] names the target that [check_connectivity]
    reports as fastest for the same results. *)
Theorem X6_best_host_is_fastest (completed : list (string * future_result)) (now : Q)
    (cs : ConnectionState) :
  (forall h l, In (h, Returned (Some l)) completed -> ~ (l == 0)%Q) ->
  get_best_ping_host completed
  = option_map (fun r => snd (fst r)) (check_connectivity completed now cs).
Proof.
  intros Hnz. unfold get_best_ping_host, check_connectivity.
  destruct completed as [|c rest] eqn:Hc; [reflexivity|]. rewrite <- Hc in *.
  rewrite (collect_best_nonzero completed Hnz).
  destruct (collect completed None None) as [fl fh]. reflexivity.
Qed.

Lemma X6_best_host_is_fastest_witness :
  get_best_ping_host abc
  = option_map (fun r => snd (fst r)) (check_connectivity abc 1 disconnected).
Proof.
  apply (X6_best_host_is_fastest abc 1 disconnected).
  intros h l [H|[H|[H|[]]]]; inversion H; subst; intros Hq; discriminate Hq.
Defined.

(** ** The diagnosis *)

Lemma check_connectivity_on_eq (f : fanout) (now : Q) (w : World) :
  fan_completed f <> [] ->
  check_connectivity_on f now w =
  (Some (any_success (fan_completed f), snd (collect (fan_completed f) None None)),
   mkWorld
     (set_connection_state
        (update_state (any_success (fan_completed f)) now (connection_state (self w)))
        (self (snd (run_fanout f w))))
     (calls w) (disk w) (writable w) (events w ++ map Ev_probe (fan_probed f))).
Proof.
  intros Hne. unfold check_connectivity_on.
  destruct (fan_completed f) as [|c rest] eqn:Hc; [congruence|]. rewrite <- Hc in *.
  unfold bind, run_fanout, get_self, modify_self, ret. cbn [fst snd self].
  assert (Hcs : connection_state
                  match fan_slot f with
                  | Some (time, result) =>
                      set_cache (mkCache (Some time) result (cache_duration (cache (self w))))
                        (self w)
                  | None => self w
                  end = connection_state (self w)).
  { destruct (fan_slot f) as [[time result]|]; reflexivity. }
  rewrite Hcs, (check_connectivity_eq _ now _ Hne). reflexivity.
Qed.

Lemma after_connectivity_metrics (f : fanout) (now : Q) (w : World) :
  metrics (self (after_connectivity f now w)) = metrics (self w).
Proof.
  unfold after_connectivity.
  destruct (fan_completed f) as [|c rest] eqn:Hc.
  - unfold check_connectivity_on. rewrite Hc. reflexivity.
  - rewrite check_connectivity_on_eq by (rewrite Hc; discriminate).
    unfold run_fanout. cbn [snd self set_connection_state metrics].
    destruct (fan_slot f) as [[time result]|]; reflexivity.
Qed.

Lemma score_pings_detailed (ms : list Metric.t) (pings : list Q) :
  exists r : Report.t,
    score_pings ms pings true = Detailed r
    /\ (pings = [] -> r = no_connection)
    /\ (pings <> [] -> Report.jitter r <> None).
Proof.
  destruct pings as [|p ps].
  - exists no_connection. repeat split. intros H. congruence.
  - unfold score_pings.
    destruct (latency_score _) as [l_score l_alerts].
    destruct (packet_loss_score _) as [p_score p_alerts].
    destruct (jitter_score _) as [j_score j_alerts].
    destruct (uptime_score ms) as [uptime [u_score u_alerts]].
    eexists. split; [reflexivity|]. split; [discriminate|]. intros _. discriminate.
Qed.

Lemma recommend_not_connected (health : Report.t) (dns_time : option Q)
    (stability : Stability.t) :
  recommend false health dns_time stability = Some no_connection_advice.
Proof. reflexivity. Qed.

Lemma recommend_raises (health : Report.t) (dns_time : option Q) (stability : Stability.t) :
  recommend true health dns_time stability = None <-> Report.jitter health = None.
Proof.
  unfold recommend. cbn [negb]. destruct (Report.jitter health) as [j|].
  - split; discriminate.
  - split; reflexivity.
Qed.

Lemma get_best_ping_host_on_returns (f : fanout) (w : World) :
  fan_completed f <> [] -> exists h, fst (get_best_ping_host_on f w) = Some h.
Proof.
  intros Hne. unfold get_best_ping_host_on, get_best_ping_host.
  destruct (fan_completed f) as [|c rest]; [congruence|].
  unfold bind, run_fanout, ret. cbn [fst]. eexists. reflexivity.
Qed.

(** The diagnosis in terms of its steps. *)
Lemma diagnose_connection_eq (E : env) (f1 : fanout) (now : Q) (dns : dns_outcome)
    (f2 : fanout) (timestamp : string) (w : World) :
  fan_completed f1 <> [] ->
  let is_connected := any_success (fan_completed f1) in
  let best_host := snd (collect (fan_completed f1) None None) in
  let w1 := after_connectivity f1 now w in
  let w2 := snd (get_health_score E true w1) in
  let dns_time := if is_connected then test_dns_resolution dns else None in
  let stability := get_connection_stability (self w2) in
  let optimal := if is_connected then get_best_ping_host_on f2 w2 else (Some None, w2) in
  diagnose_connection E f1 now dns f2 timestamp w =
  (match fst optimal, fst (get_health_score E true w1) with
   | Some optimal_host, Detailed health =>
       match recommend is_connected health dns_time stability with
       | Some recommendations =>
           Some (Diagnosis.Build timestamp is_connected best_host optimal_host
                   health dns_time stability recommendations)
       | None => None
       end
   | _, _ => None
   end, snd optimal).
Proof.
  intros Hne. cbv zeta. unfold diagnose_connection, after_connectivity.
  unfold bind at 1. rewrite (check_connectivity_on_eq f1 now w Hne). cbn [snd].
  set (w1 := mkWorld _ _ _ _ _).
  unfold bind at 1. destruct (get_health_score E true w1) as [health w2]. cbn [fst snd].
  unfold bind at 1. unfold get_self at 1.
  unfold bind at 1.
  destruct (any_success (fan_completed f1)).
  - destruct (get_best_ping_host_on f2 w2) as [[optimal_host|] w3]; cbn [fst snd].
    + destruct health as [health|score]; [|reflexivity].
      destruct (recommend true health _ _); reflexivity.
    + reflexivity.
  - unfold ret at 1. cbn [fst snd].
    destruct health as [health|score]; [|reflexivity].
    destruct (recommend false health _ _); reflexivity.
Qed.

(** X7: when no target of the connectivity check answers,
    [diagnose_connection] returns a report that says so: not connected, no
    host, no DNS time, and exactly the four lines of the no-connection
    advice; the DNS lookup and the search for the best host play no part
    in it. *)
Theorem X7_diagnose_disconnected (E : env) (f1 : fanout) (now : Q) (dns : dns_outcome)
    (f2 : fanout) (timestamp : string) (w : World) :
  fan_completed f1 <> [] ->
  any_success (fan_completed f1) = false ->
  exists (d : Diagnosis.t) (w' : World),
    diagnose_connection E f1 now dns f2 timestamp w = (Some d, w')
    /\ Diagnosis.connected d = false
    /\ Diagnosis.best_host d = None
    /\ Diagnosis.optimal_host d = None
    /\ Diagnosis.dns_resolution_time d = None
    /\ Diagnosis.recommendations d = no_connection_advice
    /\ forall (dns' : dns_outcome) (f2' : fanout),
         diagnose_connection E f1 now dns' f2' timestamp w = (Some d, w').
Proof.
  intros Hne Hdown.
  assert (Hnone : snd (collect (fan_completed f1) None None) = None).
  { pose proof (collect_connected (fan_completed f1)) as H. rewrite Hdown in H.
    destruct (snd (collect (fan_completed f1) None None)); [discriminate H | reflexivity]. }
  assert (Heq : forall dns' f2',
            diagnose_connection E f1 now dns' f2' timestamp w
            = diagnose_connection E f1 now dns f2 timestamp w).
  { intros dns' f2'. rewrite !diagnose_connection_eq by exact Hne. cbv zeta.
    rewrite Hdown. reflexivity. }
  rewrite (diagnose_connection_eq E f1 now dns f2 timestamp w Hne) in *. cbv zeta in *.
  rewrite Hdown, Hnone in *. cbn [fst snd] in *.
  destruct (score_pings_detailed
              (metrics (self (after_connectivity f1 now w)))
              (burst_samples E (after_connectivity f1 now w))) as (r & Hr & _).
  rewrite get_health_score_eq in *. cbn [fst snd] in *. rewrite Hr in *.
  rewrite recommend_not_connected in *.
  eexists _, _. split; [reflexivity|]. cbn.
  repeat (split; [reflexivity|]). exact Heq.
Qed.

Lemma X7_diagnose_disconnected_witness :
  exists (d : Diagnosis.t) (w' : World),
    diagnose_connection answering_env all_targets_down 5 Resolution_failed all_targets_down
      "2026-01-01T00:00:05" new_world = (Some d, w')
    /\ Diagnosis.connected d = false
    /\ Diagnosis.best_host d = None
    /\ Diagnosis.optimal_host d = None
    /\ Diagnosis.dns_resolution_time d = None
    /\ Diagnosis.recommendations d = no_connection_advice
    /\ forall (dns' : dns_outcome) (f2' : fanout),
         diagnose_connection answering_env all_targets_down 5 dns' f2'
           "2026-01-01T00:00:05" new_world = (Some d, w').
Proof.
  apply (X7_diagnose_disconnected answering_env all_targets_down 5 Resolution_failed
           all_targets_down "2026-01-01T00:00:05" new_world).
  - discriminate.
  - reflexivity.
Defined.

(** X8: over non-empty pools, [diagnose_connection] raises exactly when
    the connectivity check found a target that answers and the scoring
    burst that follows has no successful sample: the no-connection dict has
    no jitter to compare with 50. *)
Theorem X8_diagnose_raises (E : env) (f1 : fanout) (now : Q) (dns : dns_outcome)
    (f2 : fanout) (timestamp : string) (w : World) :
  fan_completed f1 <> [] ->
  fan_completed f2 <> [] ->
  fst (diagnose_connection E f1 now dns f2 timestamp w) = None
  <-> any_success (fan_completed f1) = true
      /\ burst_samples E (after_connectivity f1 now w) = [].
Proof.
  intros Hne1 Hne2.
  rewrite (diagnose_connection_eq E f1 now dns f2 timestamp w Hne1). cbv zeta.
  destruct (score_pings_detailed
              (metrics (self (after_connectivity f1 now w)))
              (burst_samples E (after_connectivity f1 now w))) as (r & Hr & Hnil & Hsome).
  rewrite get_health_score_eq. cbn [fst snd]. rewrite Hr.
  destruct (any_success (fan_completed f1)).
  - destruct (get_best_ping_host_on_returns f2
                (snd (burst E (Z.to_nat ping_count) [] (after_connectivity f1 now w))) Hne2)
      as [h Hh].
    rewrite Hh.
    destruct (recommend true r _ _) as [recs|] eqn:Hrec.
    + split; [discriminate|]. intros [_ Hs].
      apply Hnil in Hs. subst r. discriminate Hrec.
    + split; [|reflexivity]. intros _. split; [reflexivity|].
      apply recommend_raises in Hrec.
      destruct (burst_samples E (after_connectivity f1 now w)) as [|p ps]; [reflexivity|].
      exfalso. apply Hsome; [discriminate | exact Hrec].
  - cbn [fst]. rewrite recommend_not_connected. split; [discriminate|].
    intros [H _]. discriminate H.
Qed.

Lemma X8_diagnose_raises_witness :
  fst (diagnose_connection answering_env one_target_down 5 (Resolved 5 5.01) all_targets_up
         "2026-01-01T00:00:06" new_world) = None.
Proof.
  apply (X8_diagnose_raises answering_env one_target_down 5 (Resolved 5 5.01) all_targets_up
           "2026-01-01T00:00:06" new_world).
  - discriminate.
  - discriminate.
  - split; vm_compute; reflexivity.
Defined.

Lemma recommend_advice (is_connected : bool) (health : Report.t) (dns_time : option Q)
    (stability : Stability.t) (recommendations : list string) :
  recommend is_connected health dns_time stability = Some recommendations ->
  recommendations <> []
  /\ (recommendations = healthy_advice <->
      is_connected = true
      /\ match Report.latency health with
         | Some s => (Report.avg s <= 100)%Q
         | None => True
         end
      /\ (Report.packet_loss health <= 5)%Q
      /\ match Report.jitter health with
         | Some j => (j <= 50)%Q
         | None => True
         end
      /\ match dns_time with
         | Some t => (t <= 100)%Q
         | None => True
         end
      /\ Stability.disconnect_events stability <= 5).
Proof.
  unfold recommend. destruct is_connected; cbn [negb].
  2:{ intros H. inversion H; subst. split; [discriminate|].
      split; [discriminate|]. intros [H' _]. discriminate H'. }
  destruct (Report.jitter health) as [j|]; [|discriminate].
  set (c1 := match Report.latency health with
             | Some s => if Py.Qltb 100 (Report.avg s) then latency_advice else []
             | None => []
             end).
  assert (H1 : (c1 = [] /\ match Report.latency health with
                          | Some s => (Report.avg s <= 100)%Q
                          | None => True
                          end)
               \/ (c1 = latency_advice /\ ~ match Report.latency health with
                                          | Some s => (Report.avg s <= 100)%Q
                                          | None => True
                                          end)).
  { unfold c1. destruct (Report.latency health) as [s|]; [|left; split; [reflexivity|exact I]].
    destruct (Py.Qltb 100 (Report.avg s)) eqn:Hb.
    - right. apply Qltb_lt in Hb. split; [reflexivity|]. lra.
    - left. apply Qltb_ge in Hb. split; [reflexivity|exact Hb]. }
  clearbody c1.
  destruct (Py.Qltb 5 (Report.packet_loss health)) eqn:H2;
    [apply Qltb_lt in H2 | apply Qltb_ge in H2].
  all: destruct (Py.Qltb 50 j) eqn:H3; [apply Qltb_lt in H3 | apply Qltb_ge in H3].
  all: set (c4 := match dns_time with
                  | Some d => if negb (Qeq_bool d 0) && Py.Qltb 100 d then dns_advice else []
                  | None => []
                  end).
  all: assert (H4 : (c4 = [] /\ match dns_time with Some t => (t <= 100)%Q | None => True end)
                    \/ (c4 = dns_advice
                        /\ ~ match dns_time with Some t => (t <= 100)%Q | None => True end)).
  all: try (unfold c4; destruct dns_time as [d|]; [|left; split; [reflexivity|exact I]];
            destruct (Py.Qltb 100 d) eqn:Hb;
            [ apply Qltb_lt in Hb; destruct (Qeq_bool d 0) eqn:Hz;
              [ apply Qeq_bool_iff in Hz; lra
              | right; split; [reflexivity|lra] ]
            | apply Qltb_ge in Hb; rewrite andb_false_r; left; split; [reflexivity|exact Hb] ]).
  all: clearbody c4.
  all: destruct (5 <? Stability.disconnect_events stability) eqn:H5;
         [apply Z.ltb_lt in H5 | apply Z.ltb_ge in H5].
  all: destruct H1 as [[-> H1]|[-> H1]]; destruct H4 as [[-> H4]|[-> H4]].
  all: intros H; inversion H; subst; clear H.
  all: split; [discriminate|].
  all: split; [try discriminate | intros (_ & G1 & G2 & G3 & G4 & G5)];
         try contradiction; try lra; try lia.
  all: try reflexivity.
  all: intros _; repeat split; try reflexivity; assumption.
Qed.

(** X9: a diagnosis that is returned always carries advice, and the
    advice is the single line that reports a healthy connection exactly when
    the link is connected and none of the five checks fires: mean latency
    at most 100 ms, loss at most 5 percent, jitter at most 50 ms, DNS time
    at most 100 ms or none, at most 5 disconnections. *)
Theorem X9_diagnose_advice (E : env) (f1 : fanout) (now : Q) (dns : dns_outcome)
    (f2 : fanout) (timestamp : string) (w w' : World) (d : Diagnosis.t) :
  diagnose_connection E f1 now dns f2 timestamp w = (Some d, w') ->
  Diagnosis.recommendations d <> []
  /\ (Diagnosis.recommendations d = healthy_advice <-> nothing_to_advise d).
Proof.
  intros H.
  assert (Hrec : recommend (Diagnosis.connected d) (Diagnosis.health_score d)
                   (Diagnosis.dns_resolution_time d) (Diagnosis.stability d)
                 = Some (Diagnosis.recommendations d)).
  { destruct (fan_completed f1) as [|c rest] eqn:Hc.
    - unfold diagnose_connection, check_connectivity_on in H. rewrite Hc in H.
      discriminate H.
    - rewrite diagnose_connection_eq in H by (rewrite Hc; discriminate).
      cbv zeta in H. apply (f_equal fst) in H. cbn [fst] in H.
      match type of H with
      | match ?o with Some _ => _ | None => _ end = _ =>
          destruct o as [optimal_host|]; [|discriminate H]
      end.
      destruct (fst (get_health_score E true _)) as [health|score]; [|discriminate H].
      match type of H with
      | match ?r with Some _ => _ | None => _ end = _ =>
          destruct r as [recs|] eqn:Hr; [|discriminate H]
      end.
      inversion H; subst d. cbn. exact Hr. }
  apply recommend_advice in Hrec. exact Hrec.
Qed.

Lemma X9_diagnose_advice_witness :
  exists (d : Diagnosis.t) (w' : World),
    diagnose_connection answering_env all_targets_up 5 (Resolved 5 5.01) all_targets_up
      "2026-01-01T00:00:06" new_world = (Some d, w')
    /\ Diagnosis.recommendations d <> []
    /\ (Diagnosis.recommendations d = healthy_advice <-> nothing_to_advise d).
Proof.
  destruct (diagnose_connection answering_env all_targets_up 5 (Resolved 5 5.01)
              all_targets_up "2026-01-01T00:00:06" new_world) as [[d|] w'] eqn:H.
  - exists d, w'. split; [reflexivity|].
    apply (X9_diagnose_advice answering_env all_targets_up 5 (Resolved 5 5.01)
             all_targets_up "2026-01-01T00:00:06" new_world w' d H).
  - exfalso. vm_compute in H. discriminate H.
Defined.

(** ** The score and its parts *)

Lemma score_pings_score (ms : list Metric.t) (p : Q) (ps : list Q) (detailed : bool) :
  (List.length (p :: ps) <= 10)%nat ->
  score_of (score_pings ms (p :: ps) detailed)
  = final_score (latency_subscore (Py.mean (p :: ps)))
      (packet_loss_subscore (packet_loss_pct (p :: ps)))
      (jitter_subscore (jitter_of (p :: ps)))
      (uptime_subscore (uptime_share ms)).
Proof.
  intros Hlen. unfold score_pings.
  pose proof (latency_score_ladder (Py.mean (p :: ps))) as HL.
  pose proof (packet_loss_score_ladder _ (packet_loss_pct_nonneg (p :: ps) Hlen)) as HP.
  pose proof (jitter_score_ladder (jitter_of (p :: ps))) as HJ.
  pose proof (uptime_score_ladder ms) as HU.
  destruct (latency_score _) as [l la].
  destruct (packet_loss_score _) as [q qa].
  destruct (jitter_score _) as [j ja].
  destruct (uptime_score _) as [up [u ua]].
  cbn [fst snd] in HL, HP, HJ, HU. subst l q j u.
  destruct detailed; reflexivity.
Qed.

Lemma final_score_at_least_15 (l p j u : Z) :
  10 <= l <= 100 -> 20 <= p <= 100 -> 10 <= j <= 100 -> 30 <= u <= 100 ->
  15 <= final_score l p j u <= 100.
Proof.
  intros Hl Hp Hj Hu.
  destruct (final_score_floor l p j u) as [Heq Hrange]; try lia.
  split; [|lia]. rewrite Heq. change 15 with (Qfloor 15). apply Qfloor_resp_le.
  unfold weighted.
  assert (10 <= inject_Z l)%Q by (change 10%Q with (inject_Z 10); rewrite <- Zle_Qle; lia).
  assert (20 <= inject_Z p)%Q by (change 20%Q with (inject_Z 20); rewrite <- Zle_Qle; lia).
  assert (10 <= inject_Z j)%Q by (change 10%Q with (inject_Z 10); rewrite <- Zle_Qle; lia).
  assert (30 <= inject_Z u)%Q by (change 30%Q with (inject_Z 30); rewrite <- Zle_Qle; lia).
  lra.
Qed.

Lemma score_pings_range (ms : list Metric.t) (pings : list Q) (detailed : bool) :
  (List.length pings <= 10)%nat ->
  match pings with
  | [] => score_of (score_pings ms pings detailed) = 0
  | _ :: _ => 15 <= score_of (score_pings ms pings detailed) <= 100
  end.
Proof.
  intros Hlen. destruct pings as [|p ps].
  - destruct detailed; reflexivity.
  - rewrite score_pings_score by exact Hlen.
    apply final_score_at_least_15.
    + apply latency_subscore_range.
    + apply packet_loss_subscore_range.
    + apply jitter_subscore_range.
    + apply uptime_subscore_range.
Qed.

(** X12: the health score is 0 exactly when no probe of the burst
    succeeded; with at least one successful probe it is at least 15. *)
Theorem X12_score_zero_iff_no_sample (E : env) (detailed : bool) (w : World) :
  (score_of (fst (get_health_score E detailed w)) = 0 <-> burst_samples E w = [])
  /\ (score_of (fst (get_health_score E detailed w)) = 0
      \/ 15 <= score_of (fst (get_health_score E detailed w)) <= 100).
Proof.
  rewrite get_health_score_eq. cbn [fst].
  pose proof (score_pings_range (metrics (self w)) (burst_samples E w) detailed
                (burst_samples_length E w)) as H.
  destruct (burst_samples E w) as [|p ps].
  - split; [split; intros _; [reflexivity | exact H] | left; exact H].
  - split; [split; [lia | discriminate] | right; exact H].
Qed.

Lemma Qltb_comp (x y b : Q) : (x == y)%Q -> Py.Qltb x b = Py.Qltb y b.
Proof.
  intros H. destruct (Py.Qltb y b) eqn:Hy.
  - apply Qltb_lt. apply Qltb_lt in Hy. rewrite H. exact Hy.
  - apply Qltb_ge. apply Qltb_ge in Hy. rewrite H. exact Hy.
Qed.

Lemma round_half_even_Z (x : Q) (k : Z) :
  (x == inject_Z k)%Q -> Py.round_half_even x = k.
Proof.
  intros H. unfold Py.round_half_even.
  assert (Hf : Qfloor x = k) by (rewrite (Qfloor_comp _ _ H); apply Qfloor_Z).
  rewrite Hf.
  assert (Hr : Py.Qltb (x - inject_Z k) 0.5 = true) by (apply Qltb_lt; lra).
  rewrite Hr. reflexivity.
Qed.

Lemma round2_Z (x : Q) (k : Z) : (x == inject_Z k)%Q -> (Py.round2 x == inject_Z k)%Q.
Proof.
  intros H. unfold Py.round2.
  rewrite (round_half_even_Z (x * 100) (k * 100)).
  - unfold Qeq, inject_Z. cbn [Qnum Qden]. lia.
  - rewrite H, inject_Z_mult. reflexivity.
Qed.

Lemma packet_loss_pct_tens (pings : list Q) :
  (packet_loss_pct pings == inject_Z (10 * (10 - Py.len pings)))%Q.
Proof.
  unfold packet_loss_pct, ping_count. rewrite inject_Z_mult.
  change (inject_Z 10) with 10%Q. field.
Qed.

(** With ten probes the loss is a multiple of ten: the sub-score is 100
    with no loss, 40 with one probe lost and 20 with more, and only the
    alerts of these rungs are raised. *)
Lemma packet_loss_score_tens (pings : list Q) :
  (List.length pings <= 10)%nat ->
  packet_loss_score (packet_loss_pct pings)
  = if Py.len pings =? 10 then (100, [])
    else if Py.len pings =? 9 then (40, [Perda_alta (packet_loss_pct pings)])
    else (20, [Perda_critica (packet_loss_pct pings)]).
Proof.
  intros Hlen.
  assert (Hn : 0 <= Py.len pings <= 10) by (unfold Py.len; lia).
  pose proof (packet_loss_pct_tens pings) as Hp.
  set (x := packet_loss_pct pings) in *. set (n := Py.len pings) in *.
  assert (Hx : forall b : Z, Py.Qltb x (inject_Z b) = (10 * (10 - n) <? b)).
  { intros b. rewrite (Qltb_comp _ _ _ Hp).
    destruct (10 * (10 - n) <? b) eqn:Hb.
    - apply Qltb_lt. rewrite <- Zlt_Qlt. apply Z.ltb_lt. exact Hb.
    - apply Qltb_ge. rewrite <- Zle_Qle. apply Z.ltb_ge. exact Hb. }
  unfold packet_loss_score.
  assert (Hz : Qeq_bool x 0 = (n =? 10)).
  { destruct (Z.eqb_spec n 10) as [Hb|Hb].
    - apply Qeq_bool_iff. rewrite Hp, Hb. reflexivity.
    - apply not_true_iff_false. intros Hq. apply Qeq_bool_iff in Hq. rewrite Hp in Hq.
      unfold Qeq in Hq. cbn [Qnum Qden inject_Z] in Hq. clear - Hq Hb. lia. }
  rewrite Hz. destruct (n =? 10) eqn:H10; [reflexivity|]. apply Z.eqb_neq in H10.
  change 1%Q with (inject_Z 1). change 5%Q with (inject_Z 5).
  change 10%Q with (inject_Z 10). change 20%Q with (inject_Z 20).
  rewrite !Hx.
  destruct (n =? 9) eqn:H9; [apply Z.eqb_eq in H9 | apply Z.eqb_neq in H9].
  - subst n. rewrite H9. reflexivity.
  - assert (H1 : (10 * (10 - n) <? 1) = false) by (apply Z.ltb_ge; lia).
    assert (H5 : (10 * (10 - n) <? 5) = false) by (apply Z.ltb_ge; lia).
    assert (H10' : (10 * (10 - n) <? 10) = false) by (apply Z.ltb_ge; lia).
    assert (H20 : (10 * (10 - n) <? 20) = false) by (apply Z.ltb_ge; lia).
    rewrite H1, H5, H10', H20. reflexivity.
Qed.

Lemma score_pings_alerts (ms : list Metric.t) (pings : list Q) (r : Report.t) :
  (List.length pings <= 10)%nat ->
  score_pings ms pings true = Detailed r ->
  existsb unreachable_loss_alert (Report.alerts r) = false
  /\ (Report.packet_loss r == inject_Z (10 * (10 - Py.len pings)))%Q.
Proof.
  intros Hlen Hr. destruct pings as [|p ps].
  - inversion Hr; subst r. split; reflexivity.
  - unfold score_pings in Hr.
    rewrite (packet_loss_score_tens (p :: ps) Hlen) in Hr.
    assert (HL : existsb unreachable_loss_alert (snd (latency_score (Py.mean (p :: ps)))) = false).
    { unfold latency_score. repeat (destruct (Py.Qltb _ _); [reflexivity|]). reflexivity. }
    assert (HJ : existsb unreachable_loss_alert (snd (jitter_score (jitter_of (p :: ps)))) = false).
    { unfold jitter_score. repeat (destruct (Py.root_ltb _ _); [reflexivity|]). reflexivity. }
    assert (HU : existsb unreachable_loss_alert (snd (snd (uptime_score ms))) = false).
    { unfold uptime_score. destruct ms as [|m ms']; [reflexivity|]. cbn [snd].
      repeat (destruct (Qle_bool _ _); [reflexivity|]). reflexivity. }
    destruct (latency_score _) as [l la].
    destruct (jitter_score _) as [j ja].
    destruct (uptime_score _) as [up [u ua]].
    cbn [snd] in HL, HJ, HU.
    assert (HP : existsb unreachable_loss_alert
                   (snd (if Py.len (p :: ps) =? 10 then (100, [])
                         else if Py.len (p :: ps) =? 9
                              then (40, [Perda_alta (packet_loss_pct (p :: ps))])
                              else (20, [Perda_critica (packet_loss_pct (p :: ps))])))
                 = false).
    { destruct (_ =? 10); [|destruct (_ =? 9)]; reflexivity. }
    destruct (if Py.len (p :: ps) =? 10 then _ else _) as [s pa].
    cbn [snd] in HP.
    inversion Hr; subst r. cbn [Report.alerts Report.packet_loss]. split.
    + rewrite !existsb_app, HL, HP, HJ, HU. reflexivity.
    + apply round2_Z. apply packet_loss_pct_tens.
Qed.

(** X13: with ten probes the packet loss of a report is a multiple of
    ten, 10 for each probe that failed, so the rungs of the loss ladder below
    10 percent are never taken: the report never carries their alerts, and
    the loss sub-score is 100, 40 or 20. *)
Theorem X13_loss_in_tens (E : env) (w : World) :
  match fst (get_health_score E true w) with
  | Detailed r =>
      (Report.packet_loss r == inject_Z (10 * (10 - Py.len (burst_samples E w))))%Q
      /\ (forall v, ~ In (Perda_pacotes v) (Report.alerts r))
      /\ (forall v, ~ In (Perda_significativa v) (Report.alerts r))
  | Bare _ => False
  end
  /\ In (fst (packet_loss_score (packet_loss_pct (burst_samples E w)))) [100; 40; 20].
Proof.
  rewrite get_health_score_eq. cbn [fst].
  pose proof (burst_samples_length E w) as Hlen. split.
  - destruct (score_pings_detailed (metrics (self w)) (burst_samples E w)) as (r & Hr & _).
    rewrite Hr. destruct (score_pings_alerts _ _ _ Hlen Hr) as [Ha Hp].
    split; [exact Hp|].
    assert (Hno : forall a, unreachable_loss_alert a = true -> ~ In a (Report.alerts r)).
    { intros a Ht Hin.
      assert (existsb unreachable_loss_alert (Report.alerts r) = true).
      { apply existsb_exists. exists a. split; assumption. }
      congruence. }
    split; intros v; apply Hno; reflexivity.
  - rewrite (packet_loss_score_tens _ Hlen).
    destruct (_ =? 10); [|destruct (_ =? 9)]; cbn; auto.
Qed.

(** ** What scoring leaves untouched *)

Lemma ping_test_events (E : env) (host : option string) (w : World) :
  exists probed : list string,
    events (snd (ping_test E host w)) = (events w ++ map Ev_probe probed)%list
    /\ (List.length probed <= 1)%nat.
Proof.
  unfold ping_test. unfold_monad.
  destruct (_check_cache _ _ _); cbn [snd events].
  - exists []. rewrite app_nil_r. split; [reflexivity | cbn; lia].
  - eexists [_]. destruct (outcome (E (calls w))); cbn [snd events map]; split;
      try reflexivity; cbn; lia.
Qed.

Lemma burst_events (E : env) (n : nat) : forall (pings : list Q) (w : World),
  exists probed : list string,
    events (snd (burst E n pings w)) = (events w ++ map Ev_probe probed)%list
    /\ (List.length probed <= n)%nat.
Proof.
  induction n as [|n IH]; intros pings w.
  - exists []. rewrite app_nil_r. split; [reflexivity | cbn; lia].
  - rewrite burst_step.
    destruct (ping_test_events E None w) as (p1 & H1 & L1).
    destruct (IH (match fst (ping_test E None w) with
                  | Some l => (pings ++ [l])%list
                  | None => pings
                  end) (snd (ping_test E None w))) as (p2 & H2 & L2).
    exists (p1 ++ p2)%list. rewrite H2, H1, map_app, app_assoc, length_app.
    split; [reflexivity | lia].
Qed.

Lemma burst_calls (E : env) (n : nat) : forall (pings : list Q) (w : World),
  calls (snd (burst E n pings w)) = (calls w + n)%nat.
Proof.
  induction n as [|n IH]; intros pings w.
  - cbn. lia.
  - rewrite burst_step, IH, ping_test_calls. lia.
Qed.

(** X14: [get_health_score] only reads the history: it leaves the
    history, the connection state, the history file and the configuration
    as they were, attempts no flush, makes ten [ping_test] calls and runs
    the external probe at most ten times. *)
Theorem X14_scoring_is_read_only (E : env) (detailed : bool) (w : World) :
  same_but_cache w (snd (get_health_score E detailed w))
  /\ calls (snd (get_health_score E detailed w)) = (calls w + 10)%nat
  /\ flushes (events (snd (get_health_score E detailed w))) = flushes (events w)
  /\ exists probed : list string,
       events (snd (get_health_score E detailed w)) = (events w ++ map Ev_probe probed)%list
       /\ (List.length probed <= 10)%nat.
Proof.
  rewrite get_health_score_eq. cbn [snd]. change (Z.to_nat ping_count) with 10%nat.
  split; [apply burst_frame|]. split; [apply burst_calls|].
  split; [apply burst_flushes | apply burst_events].
Qed.

(** ** The records of the history *)

Lemma lastn_snoc {A : Type} (n : nat) (l : list A) (x : A) :
  Py.lastn (S n) (l ++ [x]) = (Py.lastn n l ++ [x])%list.
Proof.
  unfold Py.lastn. rewrite length_app, skipn_app. cbn [List.length].
  replace (List.length l + 1 - S n)%nat with (List.length l - n)%nat by lia.
  replace (List.length l - n - List.length l)%nat with 0%nat by lia.
  reflexivity.
Qed.

Lemma get_health_category_cases (score : Z) :
  In (get_health_category score) ["Excelente"; "Bom"; "Regular"; "Ruim"].
Proof.
  unfold get_health_category.
  destruct (80 <=? score); [cbn; auto|].
  destruct (60 <=? score); [cbn; auto|].
  destruct (40 <=? score); cbn; auto.
Qed.

Lemma logged_metric_well_formed (E : env) (ts : string) (w : World) :
  well_formed (logged_metric E ts w).
Proof.
  unfold well_formed, logged_metric. cbn [Metric.connected Metric.latency Metric.score
                                            Metric.category].
  split; [|split; [|reflexivity]].
  - destruct (fst (ping_test E None w)); split; congruence.
  - rewrite get_health_score_eq. cbn [fst].
    set (w1 := snd (ping_test E None w)).
    pose proof (score_pings_range (metrics (self w1)) (burst_samples E w1) false
                  (burst_samples_length E w1)) as H.
    destruct (burst_samples E w1); lia.
Qed.

(** X10: the record that [log_metrics] leaves at the end of the history
    carries the timestamp of the call, is marked connected exactly when it
    has a latency, has a score within 0 and 100 and the category of that
    score: one of 'Excelente', 'Bom', 'Regular' and 'Ruim', so never the
    'Desconectado' of a failed burst. *)
Theorem X10_logged_record (E : env) (float_repr : Q -> string) (ts : string) (w : World) :
  exists (older : list Metric.t) (m : Metric.t),
    metrics (self (snd (log_metrics E float_repr ts w))) = (older ++ [m])%list
    /\ Metric.timestamp m = ts
    /\ well_formed m
    /\ In (Metric.category m) ["Excelente"; "Bom"; "Regular"; "Ruim"].
Proof.
  rewrite log_metrics_metrics. change 1000%nat with (S 999). rewrite lastn_snoc.
  eexists _, _. split; [reflexivity|]. split; [reflexivity|].
  pose proof (logged_metric_well_formed E ts w) as Hwf. split; [exact Hwf|].
  destruct Hwf as (_ & _ & ->). apply get_health_category_cases.
Qed.

Lemma ladder_below_comp (steps : list (Q * Z)) (last : Z) (x y : Q) :
  (x == y)%Q -> ladder_below Py.Qltb steps last x = ladder_below Py.Qltb steps last y.
Proof.
  intros H. induction steps as [|[b s] steps IH]; [reflexivity|].
  cbn [ladder_below]. rewrite (Qltb_comp x y b H), IH. reflexivity.
Qed.

Lemma jitter_subscore_zero (j : Py.root) :
  (Py.radicand j == 0)%Q -> jitter_subscore j = 100.
Proof.
  intros H. unfold jitter_subscore. cbn [ladder_below]. unfold Py.root_ltb.
  rewrite (Qltb_comp _ _ _ H). reflexivity.
Qed.

(** The score of ten equal samples. *)
Lemma score_pings_repeat (ms : list Metric.t) (l : Q) (detailed : bool) :
  score_of (score_pings ms (repeat l 10) detailed)
  = final_score (latency_subscore l) 100 100 (uptime_subscore (uptime_share ms)).
Proof.
  change (repeat l 10) with (l :: repeat l 9).
  rewrite score_pings_score by (cbn [List.length]; rewrite repeat_length; lia).
  change (l :: repeat l 9) with (repeat l 10).
  f_equal.
  - apply ladder_below_comp. apply (mean_repeat l 9).
  - apply jitter_subscore_zero. apply jitter_repeat.
Qed.

(** X11: when the probe that opens [log_metrics] finds no usable cache
    entry and records its result, and the ten calls of the burst check the
    cache within [cache_duration] of that recording, the burst measures
    nothing: the record has the latency of that one probe, and its score is
    0 after a failure and otherwise the score of ten samples equal to that
    latency, with no loss and no jitter. *)
Theorem X11_log_metrics_single_probe (E : env) (float_repr : Q -> string) (ts : string)
    (w : World) :
  _check_cache (target w None) (t_check (E (calls w))) (cache (self w)) = false ->
  recorded (outcome (E (calls w))) = true ->
  (forall i, (1 <= i <= 10)%nat ->
     (t_check (E (calls w + i)%nat) - t_update (E (calls w))
      < cache_duration (cache (self w)))%Q) ->
  exists (older : list Metric.t) (m : Metric.t),
    metrics (self (snd (log_metrics E float_repr ts w))) = (older ++ [m])%list
    /\ Metric.latency m = result_of (outcome (E (calls w)))
    /\ Metric.score m
       = match result_of (outcome (E (calls w))) with
         | None => 0
         | Some l =>
             final_score (latency_subscore l) 100 100
               (uptime_subscore (uptime_share (metrics (self w))))
         end.
Proof.
  intros Hmiss Hrec Hwin.
  rewrite log_metrics_metrics. change 1000%nat with (S 999). rewrite lastn_snoc.
  eexists _, _. split; [reflexivity|].
  unfold logged_metric. cbn [Metric.latency Metric.score].
  rewrite (ping_test_miss E None w Hmiss Hrec). cbn [fst snd].
  split; [reflexivity|].
  set (r := result_of (outcome (E (calls w)))).
  set (w1 := mkWorld _ _ _ _ _).
  rewrite get_health_score_eq. cbn [fst].
  assert (Hs : burst_samples E w1 = successes (repeat r 10)).
  { unfold burst_samples. rewrite burst_results_samples, app_nil_l.
    change (Z.to_nat ping_count) with 10%nat. f_equal.
    apply (burst_results_cached E 10 w1 (t_update (E (calls w))) r); try reflexivity.
    intros i Hi. unfold w1. cbn [calls self cache set_cache cache_duration].
    replace (S (calls w) + i)%nat with (calls w + S i)%nat by lia.
    apply Hwin. lia. }
  rewrite Hs, successes_repeat.
  destruct r as [l|]; [|reflexivity].
  rewrite score_pings_repeat. reflexivity.
Qed.

Lemma X11_log_metrics_single_probe_witness :
  exists (older : list Metric.t) (m : Metric.t),
    metrics (self (snd (log_metrics (every_50ms (fun _ => Parsed 20)) fraction_repr
                          "2026-01-01T00:00:00" new_world))) = (older ++ [m])%list
    /\ Metric.latency m = Some 20%Q
    /\ Metric.score m = final_score 90 100 100 100.
Proof.
  apply (X11_log_metrics_single_probe (every_50ms (fun _ => Parsed 20)) fraction_repr
           "2026-01-01T00:00:00" new_world).
  - reflexivity.
  - reflexivity.
  - intros i Hi.
    do 11 (destruct i as [|i]; [try lia; vm_compute; reflexivity|]). lia.
Defined.

(** ** The connection state over time *)

Lemma update_state_monotone (conn : bool) (now t : Q) (cs : ConnectionState) :
  disconnected_by cs t -> (t <= now)%Q ->
  (total_downtime cs <= total_downtime (update_state conn now cs))%Q
  /\ disconnect_count cs <= disconnect_count (update_state conn now cs)
  /\ disconnected_by (update_state conn now cs) now.
Proof.
  unfold disconnected_by, update_state. intros Hd Ht.
  destruct conn, (is_connected cs), (last_disconnected cs) as [d|];
    cbn [negb total_downtime disconnect_count last_disconnected];
    repeat split; try lra; try lia; exact I.
Qed.

Lemma run_checks_count_monotone (calls : list (list (string * future_result) * Q)) :
  forall cs : ConnectionState,
  disconnect_count cs <= disconnect_count (run_checks cs calls).
Proof.
  induction calls as [|[completed now] rest IH]; intros cs; [cbn; lia|].
  rewrite run_checks_cons. destruct completed as [|c l]; [apply IH|].
  etransitivity; [|apply IH].
  destruct (update_state_step (any_success (c :: l)) now cs) as (_ & -> & _).
  destruct (is_connected cs && negb (any_success (c :: l))); lia.
Qed.

(** X15: as long as the clock read by [check_connectivity] never steps
    back, [total_downtime] and [disconnect_count] never decrease over a
    sequence of checks. *)
Theorem X15_downtime_never_decreases (calls : list (list (string * future_result) * Q)) :
  forall (cs : ConnectionState) (t : Q),
  disconnected_by cs t ->
  clock_from t calls ->
  (total_downtime cs <= total_downtime (run_checks cs calls))%Q
  /\ disconnect_count cs <= disconnect_count (run_checks cs calls).
Proof.
  induction calls as [|[completed now] rest IH]; intros cs t Hd Hclock.
  - cbn. split; [lra | lia].
  - destruct Hclock as [Ht Hrest]. rewrite run_checks_cons.
    destruct completed as [|c l].
    + apply (IH cs now); [|exact Hrest].
      unfold disconnected_by in *. destruct (last_disconnected cs); [lra | exact I].
    + destruct (update_state_monotone (any_success (c :: l)) now t cs Hd Ht)
        as (H1 & H2 & H3).
      destruct (IH _ now H3 Hrest) as [H4 H5]. split; [lra | lia].
Qed.

Lemma X15_downtime_never_decreases_witness :
  (total_downtime disconnected
   <= total_downtime (run_checks disconnected [(abc, 10%Q); ([("A", Returned None)], 20%Q);
                                              (abc, 25%Q)]))%Q
  /\ disconnect_count disconnected
     <= disconnect_count (run_checks disconnected [(abc, 10%Q); ([("A", Returned None)], 20%Q);
                                                   (abc, 25%Q)]).
Proof.
  apply (X15_downtime_never_decreases
           [(abc, 10%Q); ([("A", Returned None)], 20%Q); (abc, 25%Q)] disconnected 0).
  - exact I.
  - cbn. repeat split; lra.
Defined.

(** With a clock that steps back between a disconnection and the
    reconnection, the downtime on record becomes negative. *)
Lemma downtime_clock_set_back :
  (total_downtime (run_checks disconnected clock_set_back) == -5)%Q.
Proof. vm_compute. reflexivity. Qed.

(** X16: the count of disconnections is never reset or lowered, so once
    it has reached 5 every stability report on a non-empty history has the
    lowest score, 40, whatever checks follow and whatever the latencies. *)
Theorem X16_stability_floor (t : HealthTracker)
    (calls : list (list (string * future_result) * Q)) :
  5 <= disconnect_count (connection_state t) ->
  metrics t <> [] ->
  Stability.stability_score
    (get_connection_stability
       (set_connection_state (run_checks (connection_state t) calls) t)) = 40.
Proof.
  intros H5 Hm.
  pose proof (run_checks_count_monotone calls (connection_state t)) as Hmono.
  unfold get_connection_stability. cbn [set_connection_state metrics connection_state].
  destruct (metrics t) as [|m ms] eqn:Hms; [congruence|].
  unfold stability_ladder.
  set (d := disconnect_count (run_checks (connection_state t) calls)) in *.
  assert (H0 : (d =? 0) = false) by (apply Z.eqb_neq; lia).
  assert (H3 : (d <? 3) = false) by (apply Z.ltb_ge; lia).
  assert (H5' : (d <? 5) = false) by (apply Z.ltb_ge; lia).
  rewrite H0, H3, H5'. reflexivity.
Qed.

Lemma X16_stability_floor_witness :
  Stability.stability_score
    (get_connection_stability
       (set_connection_state
          (run_checks (connection_state five_disconnections) [(abc, 10%Q)])
          five_disconnections)) = 40.
Proof.
  apply (X16_stability_floor five_disconnections [(abc, 10%Q)]).
  - cbn. lia.
  - discriminate.
Defined.

(** ** What a restart finds on disk *)

Lemma init_metrics (fs : string -> option Q) (host : string) (d : option string) :
  metrics (init fs host d)
  = match d with
    | None => []
    | Some text =>
        match Json.load fs text with
        | Some ms => ms
        | None => []
        end
    end.
Proof.
  unfold init, _load_history. destruct d as [text|]; [|reflexivity].
  destruct (Json.load fs text); reflexivity.
Qed.

Lemma all_metric_ok (fr : Q -> string) (fs : string -> option Q) (ms : list Metric.t) :
  (forall q, float_text_ok fr fs q) -> Forall (metric_ok fr fs) ms.
Proof.
  intros H. apply Forall_forall. intros m _. unfold metric_ok.
  destruct (Metric.latency m); [apply H | exact I].
Qed.

Lemma log_metrics_flushed (E : env) (fr : Q -> string) (fs : string -> option Q)
    (ts : string) (w : World) :
  (forall q, float_text_ok fr fs q) ->
  writable w = true ->
  flushed_up_to_ten fs w ->
  writable (snd (log_metrics E fr ts w)) = true
  /\ flushed_up_to_ten fs (snd (log_metrics E fr ts w)).
Proof.
  intros Hok Hw (unsaved & Hm & Hu).
  destruct (after_scoring_frame E w) as (_ & _ & _ & _ & Hdisk & Hwr).
  rewrite log_metrics_eq. cbv zeta. cbn [snd].
  set (m := logged_metric E ts w).
  set (ms := Py.lastn 1000 (metrics (self w) ++ [m])).
  destruct (Py.len ms mod 10 =? 0) eqn:Hflush.
  - unfold _save_history. cbn [writable]. rewrite Hwr, Hw. cbn [snd writable].
    split; [reflexivity|]. exists []. unfold restart. cbn [disk self set_metrics metrics].
    rewrite init_metrics, (load_dump fr fs ms (all_metric_ok fr fs ms Hok)), app_nil_r.
    split; [reflexivity|]. apply Z.eqb_eq in Hflush. rewrite Hflush.
    change (Py.len (@nil Metric.t)) with 0. lia.
  - cbn [writable]. split; [congruence|].
    apply Z.eqb_neq in Hflush.
    assert (Hlen : List.length ms = Nat.min 1000 (List.length (metrics (self w)) + 1)).
    { unfold ms. rewrite lastn_length, length_app. reflexivity. }
    assert (Hshort : (List.length (metrics (self w)) + 1 < 1000)%nat).
    { destruct (Nat.lt_ge_cases (List.length (metrics (self w)) + 1) 1000) as [H|H];
        [exact H|].
      exfalso. apply Hflush. unfold Py.len. rewrite Hlen, Nat.min_l by lia. reflexivity. }
    assert (Hms : ms = (metrics (self w) ++ [m])%list).
    { unfold ms. apply lastn_all. rewrite length_app. cbn [List.length]. lia. }
    exists (unsaved ++ [m])%list. unfold restart in *.
    cbn [disk self set_metrics metrics ping_host]. rewrite Hdisk.
    rewrite init_metrics in *. rewrite Hms. split.
    + rewrite app_assoc, <- Hm. reflexivity.
    + rewrite Hms in Hflush. unfold Py.len in *. rewrite !length_app in *.
      cbn [List.length] in *. rewrite !Nat2Z.inj_add in *.
      change (Z.of_nat 1) with 1 in *.
      set (a := Z.of_nat (List.length (metrics (self w)))) in *.
      set (u := Z.of_nat (List.length unsaved)) in *.
      clearbody a u. clear - Hu Hflush. Z.div_mod_to_equations. lia.
Qed.

Lemma log_many_flushed (E : env) (fr : Q -> string) (fs : string -> option Q)
    (tss : list string) :
  (forall q, float_text_ok fr fs q) ->
  forall w : World,
  writable w = true ->
  flushed_up_to_ten fs w ->
  flushed_up_to_ten fs (log_many E fr tss w).
Proof.
  intros Hok. induction tss as [|ts tss IH]; intros w Hw Hf; [exact Hf|].
  cbn [log_many].
  destruct (log_metrics_flushed E fr fs ts w Hok Hw Hf) as [Hw' Hf'].
  apply IH; assumption.
Qed.

(** X17: when the history file can be written and the text of every
    latency reads back as the same number, a tracker that starts with its
    history as the file has it loses fewer than ten records to a restart,
    after any number of [log_metrics] calls: the file holds the history
    without the records appended since its length was last a multiple of
    ten. *)
Theorem X17_restart_loses_less_than_ten (E : env) (float_repr : Q -> string)
    (float_of_string : string -> option Q) (tss : list string) (w : World) :
  (forall q, float_text_ok float_repr float_of_string q) ->
  writable w = true ->
  restart float_of_string w = metrics (self w) ->
  exists unsaved : list Metric.t,
    metrics (self (log_many E float_repr tss w))
    = (restart float_of_string (log_many E float_repr tss w) ++ unsaved)%list
    /\ Py.len unsaved <= Py.len (metrics (self (log_many E float_repr tss w))) mod 10
    /\ Py.len unsaved < 10.
Proof.
  intros Hok Hw Hstart.
  assert (H0 : flushed_up_to_ten float_of_string w).
  { exists []. rewrite Hstart, app_nil_r. split; [reflexivity|].
    change (Py.len (@nil Metric.t)) with 0.
    apply Z.mod_pos_bound. lia. }
  destruct (log_many_flushed E float_repr float_of_string tss Hok w Hw H0)
    as (unsaved & Hm & Hu).
  exists unsaved. split; [exact Hm|]. split; [exact Hu|].
  pose proof (Z.mod_pos_bound (Py.len (metrics (self (log_many E float_repr tss w)))) 10).
  lia.
Qed.

Lemma X17_restart_loses_less_than_ten_witness :
  exists unsaved : list Metric.t,
    metrics (self (log_many (every_50ms (fun _ => Parsed 20)) fraction_repr
                     ["2026-01-01T00:00:00"; "2026-01-01T00:00:10"] new_world))
    = (restart fraction_of_string
         (log_many (every_50ms (fun _ => Parsed 20)) fraction_repr
            ["2026-01-01T00:00:00"; "2026-01-01T00:00:10"] new_world) ++ unsaved)%list
    /\ Py.len unsaved
       <= Py.len (metrics (self (log_many (every_50ms (fun _ => Parsed 20)) fraction_repr
                                   ["2026-01-01T00:00:00"; "2026-01-01T00:00:10"]
                                   new_world))) mod 10
    /\ Py.len unsaved < 10.
Proof.
  apply (X17_restart_loses_less_than_ten (every_50ms (fun _ => Parsed 20)) fraction_repr
           fraction_of_string ["2026-01-01T00:00:00"; "2026-01-01T00:00:10"] new_world).
  - exact fraction_text_ok.
  - reflexivity.
  - reflexivity.
Defined.

(** ** The report of a burst with samples *)

Lemma score_pings_report (ms : list Metric.t) (p : Q) (ps : list Q) :
  exists r : Report.t,
    score_pings ms (p :: ps) true = Detailed r
    /\ score_pings ms (p :: ps) false = Bare (Report.score r)
    /\ Report.category r = get_health_category (Report.score r)
    /\ Report.latency r
       = Some (Report.Stats (Py.round2 (Py.mean (p :: ps))) (Py.round2 (Py.min p ps))
                 (Py.round2 (Py.max p ps)))
    /\ Report.pings_successful r = Some (Py.len (p :: ps))
    /\ Report.pings_total r = Some 10
    /\ Report.alerts r
       = (snd (latency_score (Py.mean (p :: ps)))
          ++ snd (packet_loss_score (packet_loss_pct (p :: ps)))
          ++ snd (jitter_score (jitter_of (p :: ps)))
          ++ snd (snd (uptime_score ms)))%list
    /\ Report.score r
       = final_score (fst (latency_score (Py.mean (p :: ps))))
           (fst (packet_loss_score (packet_loss_pct (p :: ps))))
           (fst (jitter_score (jitter_of (p :: ps))))
           (fst (snd (uptime_score ms))).
Proof.
  unfold score_pings.
  destruct (latency_score _) as [l la].
  destruct (packet_loss_score _) as [q qa].
  destruct (jitter_score _) as [j ja].
  destruct (uptime_score _) as [up [u ua]].
  eexists. split; [reflexivity|]. cbn [Report.score Report.category Report.latency
    Report.pings_successful Report.pings_total Report.alerts fst snd].
  repeat split; reflexivity.
Qed.

(** X18: the report of a burst with at least one successful probe is
    consistent: its category is that of its score, its rounded minimum, mean
    and maximum latency are in that order, it counts the successful probes
    out of 10, and its score is the one [get_health_score] returns without
    the details. *)
Theorem X18_report_consistent (E : env) (w : World) :
  burst_samples E w <> [] ->
  exists (r : Report.t) (s : Report.stats),
    fst (get_health_score E true w) = Detailed r
    /\ fst (get_health_score E false w) = Bare (Report.score r)
    /\ Report.category r = get_health_category (Report.score r)
    /\ Report.latency r = Some s
    /\ (Report.min s <= Report.avg s <= Report.max s)%Q
    /\ Report.pings_successful r = Some (Py.len (burst_samples E w))
    /\ Report.pings_total r = Some 10.
Proof.
  intros Hne. rewrite !get_health_score_eq. cbn [fst].
  destruct (burst_samples E w) as [|p ps]; [congruence|].
  destruct (score_pings_report (metrics (self w)) p ps)
    as (r & Hd & Hb & Hc & Hl & Hs & Ht & _).
  exists r. eexists. split; [exact Hd|]. split; [exact Hb|]. split; [exact Hc|].
  split; [exact Hl|]. cbn [Report.min Report.avg Report.max].
  destruct (mean_between p ps) as [H1 H2].
  split; [split; apply round2_mono; assumption|]. split; assumption.
Qed.

Lemma X18_report_consistent_witness :
  exists (r : Report.t) (s : Report.stats),
    fst (get_health_score (every_50ms (fun _ => Parsed 20)) true new_world) = Detailed r
    /\ fst (get_health_score (every_50ms (fun _ => Parsed 20)) false new_world)
       = Bare (Report.score r)
    /\ Report.category r = get_health_category (Report.score r)
    /\ Report.latency r = Some s
    /\ (Report.min s <= Report.avg s <= Report.max s)%Q
    /\ Report.pings_successful r
       = Some (Py.len (burst_samples (every_50ms (fun _ => Parsed 20)) new_world))
    /\ Report.pings_total r = Some 10.
Proof.
  apply (X18_report_consistent (every_50ms (fun _ => Parsed 20)) new_world).
  vm_compute. discriminate.
Defined.

Lemma latency_score_quiet (x : Q) :
  snd (latency_score x) = [] -> 90 <= fst (latency_score x) <= 100.
Proof.
  unfold latency_score.
  repeat (destruct (Py.Qltb x _); [cbn; first [lia | discriminate]|]).
  cbn. discriminate.
Qed.

Lemma jitter_score_quiet (j : Py.root) :
  snd (jitter_score j) = [] -> 70 <= fst (jitter_score j) <= 100.
Proof.
  unfold jitter_score.
  repeat (destruct (Py.root_ltb j _); [cbn; first [lia | discriminate]|]).
  cbn. discriminate.
Qed.

Lemma uptime_score_quiet (ms : list Metric.t) :
  snd (snd (uptime_score ms)) = [] -> 70 <= fst (snd (uptime_score ms)) <= 100.
Proof.
  unfold uptime_score. destruct ms as [|m ms']; [cbn; lia|]. cbn [snd fst].
  repeat (destruct (Qle_bool _ _); [cbn; first [lia | discriminate]|]).
  cbn. discriminate.
Qed.

Lemma packet_loss_score_quiet (pings : list Q) :
  (List.length pings <= 10)%nat ->
  snd (packet_loss_score (packet_loss_pct pings)) = [] ->
  fst (packet_loss_score (packet_loss_pct pings)) = 100.
Proof.
  intros Hlen. rewrite (packet_loss_score_tens pings Hlen).
  destruct (_ =? 10); [reflexivity|]. destruct (_ =? 9); cbn; discriminate.
Qed.

Lemma final_score_at_least_87 (l j u : Z) :
  90 <= l <= 100 -> 70 <= j <= 100 -> 70 <= u <= 100 ->
  87 <= final_score l 100 j u <= 100.
Proof.
  intros Hl Hj Hu.
  destruct (final_score_floor l 100 j u) as [Heq Hrange]; try lia.
  split; [|lia]. rewrite Heq. change 87 with (Qfloor 87). apply Qfloor_resp_le.
  unfold weighted.
  assert (90 <= inject_Z l)%Q by (change 90%Q with (inject_Z 90); rewrite <- Zle_Qle; lia).
  assert (70 <= inject_Z j)%Q by (change 70%Q with (inject_Z 70); rewrite <- Zle_Qle; lia).
  assert (70 <= inject_Z u)%Q by (change 70%Q with (inject_Z 70); rewrite <- Zle_Qle; lia).
  change (inject_Z 100) with 100%Q. lra.
Qed.

(** X19: a report that carries no alert has a score of at least 87 and
    the category 'Excelente'. *)
Theorem X19_no_alert_is_excellent (E : env) (w : World) (r : Report.t) :
  fst (get_health_score E true w) = Detailed r ->
  Report.alerts r = [] ->
  87 <= Report.score r <= 100 /\ Report.category r = "Excelente".
Proof.
  rewrite get_health_score_eq. cbn [fst]. intros Hr Ha.
  pose proof (burst_samples_length E w) as Hlen.
  destruct (burst_samples E w) as [|p ps].
  - inversion Hr; subst r. discriminate Ha.
  - destruct (score_pings_report (metrics (self w)) p ps)
      as (r' & Hd & _ & Hc & _ & _ & _ & Hal & Hs).
    rewrite Hd in Hr. inversion Hr; subst r'. clear Hr.
    rewrite Hal in Ha.
    apply app_eq_nil in Ha. destruct Ha as [Ha1 Ha].
    apply app_eq_nil in Ha. destruct Ha as [Ha2 Ha].
    apply app_eq_nil in Ha. destruct Ha as [Ha3 Ha4].
    assert (Hscore : 87 <= Report.score r <= 100).
    { rewrite Hs, (packet_loss_score_quiet _ Hlen Ha2).
      apply final_score_at_least_87.
      - apply latency_score_quiet. exact Ha1.
      - apply jitter_score_quiet. exact Ha3.
      - apply uptime_score_quiet. exact Ha4. }
    split; [exact Hscore|]. rewrite Hc. unfold get_health_category.
    destruct (80 <=? Report.score r) eqn:H80; [reflexivity|].
    apply Z.leb_gt in H80. lia.
Qed.

Lemma X19_no_alert_is_excellent_witness :
  exists r : Report.t,
    fst (get_health_score (every_50ms (fun _ => Parsed 20)) true new_world) = Detailed r
    /\ 87 <= Report.score r <= 100 /\ Report.category r = "Excelente".
Proof.
  destruct (fst (get_health_score (every_50ms (fun _ => Parsed 20)) true new_world))
    as [r|n] eqn:H.
  - exists r. split; [reflexivity|].
    apply (X19_no_alert_is_excellent (every_50ms (fun _ => Parsed 20)) new_world r H).
    vm_compute in H. injection H as <-. reflexivity.
  - vm_compute in H. discriminate H.
Defined.

(** ** Statistics of a logged history *)

Lemma Forall_skipn {A : Type} (P : A -> Prop) (n : nat) : forall l : list A,
  Forall P l -> Forall P (skipn n l).
Proof.
  induction n as [|n IH]; intros l H; [exact H|].
  destruct H as [|x l Hx Hl]; [constructor|]. cbn [skipn]. apply IH. exact Hl.
Qed.

Lemma log_many_well_formed (E : env) (fr : Q -> string) (tss : list string) :
  forall w : World,
  Forall well_formed (metrics (self w)) ->
  Forall well_formed (metrics (self (log_many E fr tss w))).
Proof.
  induction tss as [|ts tss IH]; intros w H; [exact H|].
  cbn [log_many]. apply IH. rewrite log_metrics_metrics. unfold Py.lastn.
  apply Forall_skipn. apply Forall_app. split; [exact H|].
  constructor; [apply logged_metric_well_formed | constructor].
Qed.

Lemma some_latencies_connected (ms : list Metric.t) :
  Forall well_formed ms ->
  Py.len (some_latencies ms) = Py.len (filter Metric.connected ms).
Proof.
  unfold Py.len. intros H. f_equal. unfold some_latencies.
  induction H as [|m ms Hm _ IH]; [reflexivity|].
  cbn [flat_map filter]. rewrite length_app, IH.
  destruct Hm as ([H1 H2] & _).
  destruct (Metric.latency m) as [l|], (Metric.connected m); cbn [List.length];
    try reflexivity.
  - exfalso. assert (false = true) by (apply H2; discriminate). discriminate.
  - exfalso. apply H1; reflexivity.
Qed.

(** X4: in a history whose records are all those [log_metrics] makes,
    'successful_tests' counts the records marked connected: after any number
    of [log_metrics] calls on such a history, [get_statistics] reports as
    successes the records whose first probe answered. *)
Theorem X4_statistics_count_connected (E : env) (float_repr : Q -> string)
    (tss : list string) (w : World) :
  Forall well_formed (metrics (self w)) ->
  Forall well_formed (metrics (self (log_many E float_repr tss w)))
  /\ match get_statistics (self (log_many E float_repr tss w)) with
     | Statistics.Empty => True
     | Statistics.No_success _ successful _
     | Statistics.Full _ _ _ _ successful _ =>
         successful
         = Py.len (filter Metric.connected (metrics (self (log_many E float_repr tss w))))
     end.
Proof.
  intros H. pose proof (log_many_well_formed E float_repr tss w H) as Hwf.
  split; [exact Hwf|].
  pose proof (some_latencies_connected _ Hwf) as Hc.
  unfold get_statistics.
  destruct (metrics (self (log_many E float_repr tss w))) as [|m ms]; [exact I|].
  destruct (some_latencies (m :: ms)) as [|l ls]; exact Hc.
Qed.

Lemma X4_statistics_count_connected_witness :
  Forall well_formed
    (metrics (self (log_many (every_50ms (fun _ => Parsed 20)) fraction_repr
                      ["2026-01-01T00:00:00"] new_world)))
  /\ match get_statistics
             (self (log_many (every_50ms (fun _ => Parsed 20)) fraction_repr
                      ["2026-01-01T00:00:00"] new_world)) with
     | Statistics.Empty => True
     | Statistics.No_success _ successful _
     | Statistics.Full _ _ _ _ successful _ =>
         successful
         = Py.len (filter Metric.connected
                     (metrics (self (log_many (every_50ms (fun _ => Parsed 20))
                                       fraction_repr ["2026-01-01T00:00:00"] new_world))))
     end.
Proof.
  apply (X4_statistics_count_connected (every_50ms (fun _ => Parsed 20)) fraction_repr
           ["2026-01-01T00:00:00"] new_world).
  constructor.
Defined.

(** ** The health panel *)

Lemma get_health_score_detailed (E : env) (w : World) :
  exists r : Report.t,
    fst (get_health_score E true w) = Detailed r
    /\ (burst_samples E w = [] -> r = no_connection)
    /\ score_pings (metrics (self w)) (burst_samples E w) true = Detailed r.
Proof.
  rewrite get_health_score_eq. cbn [fst].
  destruct (score_pings_detailed (metrics (self w)) (burst_samples E w)) as (r & Hr & Hn & _).
  exists r. auto.
Qed.

(** The panel after one check, in terms of the two bursts. *)
Lemma check_health_eq (E : env) (health_history : list Z) (w : World) :
  exists r1 r2 : Report.t,
    fst (get_health_score E true w) = Detailed r1
    /\ fst (get_health_score E true (snd (get_health_score E true w))) = Detailed r2
    /\ _check_health_thread E health_history w
       = (Some (mkPanel (Report.score r1) (Report.category r1) (score_color (Report.score r1))
                  (metric_labels r2)
                  (2 <=? Py.len (deque_append 60 health_history (Report.score r1))),
                deque_append 60 health_history (Report.score r1)),
          snd (get_health_score E true (snd (get_health_score E true w)))).
Proof.
  destruct (get_health_score_detailed E w) as (r1 & H1 & _).
  destruct (get_health_score_detailed E (snd (get_health_score E true w))) as (r2 & H2 & _).
  exists r1, r2. split; [exact H1|]. split; [exact H2|].
  unfold _check_health_thread, bind.
  destruct (get_health_score E true w) as [h1 w1]. cbn [fst snd] in *. subst h1.
  unfold _update_health_display, bind.
  destruct (get_health_score E true w1) as [h2 w2]. cbn [fst snd] in *. subst h2.
  reflexivity.
Qed.

Lemma report_category (E : env) (w : World) (r : Report.t) :
  fst (get_health_score E true w) = Detailed r ->
  0 <= Report.score r <= 100
  /\ (Report.category r = get_health_category (Report.score r)
      \/ (Report.category r = "Desconectado" /\ Report.score r = 0)).
Proof.
  rewrite get_health_score_eq. cbn [fst]. intros Hr.
  pose proof (score_pings_range (metrics (self w)) (burst_samples E w) true
                (burst_samples_length E w)) as Hrange.
  rewrite Hr in Hrange. cbn [score_of] in Hrange.
  destruct (burst_samples E w) as [|p ps].
  - inversion Hr; subst r. split; [cbn; lia|]. right. split; reflexivity.
  - destruct (score_pings_report (metrics (self w)) p ps) as (r' & Hd & _ & Hc & _).
    rewrite Hd in Hr. inversion Hr; subst r'. split; [lia|]. left. exact Hc.
Qed.

(** X20: in the panel a check displays, the score lies within 0 and 100
    and its colour goes with the category shown beside it: the success
    colour exactly for 'Excelente', the warning colour exactly for 'Bom',
    and the danger colour for 'Regular', 'Ruim' and 'Desconectado'. *)
Theorem X20_panel_colour (E : env) (health_history : list Z) (w : World) :
  exists (p : Panel) (history : list Z),
    fst (_check_health_thread E health_history w) = Some (p, history)
    /\ 0 <= panel_score p <= 100
    /\ In (panel_category p) ["Excelente"; "Bom"; "Regular"; "Ruim"; "Desconectado"]
    /\ (panel_color p = Success <-> panel_category p = "Excelente")
    /\ (panel_color p = Warning <-> panel_category p = "Bom").
Proof.
  destruct (check_health_eq E health_history w) as (r1 & r2 & H1 & _ & ->).
  eexists _, _. split; [reflexivity|]. cbn [fst panel_score panel_category panel_color].
  destruct (report_category E w r1 H1) as [Hrange [Hc|[Hc Hz]]].
  - split; [exact Hrange|]. rewrite Hc. unfold get_health_category, score_color.
    destruct (80 <=? Report.score r1); [cbn; intuition (auto; discriminate)|].
    destruct (60 <=? Report.score r1); [cbn; intuition (auto; discriminate)|].
    destruct (40 <=? Report.score r1); cbn; intuition (auto; discriminate).
  - split; [exact Hrange|]. rewrite Hc, Hz. cbn. intuition (auto; discriminate).
Qed.

Lemma Qltb_comp_r (b x y : Q) : (x == y)%Q -> Py.Qltb b x = Py.Qltb b y.
Proof.
  intros H. destruct (Py.Qltb b y) eqn:Hy.
  - apply Qltb_lt. apply Qltb_lt in Hy. rewrite H. exact Hy.
  - apply Qltb_ge. apply Qltb_ge in Hy. rewrite H. exact Hy.
Qed.

Lemma metric_labels_of_report (ms : list Metric.t) (pings : list Q) (r : Report.t) :
  (List.length pings <= 10)%nat ->
  score_pings ms pings true = Detailed r ->
  metric_labels r
  = ((if Py.len pings =? 10 then []
      else [Loss_label (Report.packet_loss r) Danger])
     ++ match number_above (get_jitter r) 5 with
        | Some jitter =>
            [Jitter_label jitter (if Py.Qltb jitter 30 then Warning else Danger)]
        | None => []
        end)%list.
Proof.
  intros Hlen Hr. destruct (score_pings_alerts ms pings r Hlen Hr) as [_ Hp].
  assert (Hn : 0 <= Py.len pings <= 10) by (unfold Py.len; lia).
  unfold metric_labels.
  assert (Hlat : number_above (get_latency r) 0 = None).
  { unfold get_latency. destruct (Report.latency r); reflexivity. }
  rewrite Hlat. cbn [app]. f_equal.
  unfold get_packet_loss, number_above.
  set (x := Report.packet_loss r) in *. set (n := Py.len pings) in *.
  assert (H0 : Py.Qltb 0 x = negb (n =? 10)).
  { rewrite (Qltb_comp_r 0 _ _ Hp). change 0%Q with (inject_Z 0).
    destruct (Z.eqb_spec n 10) as [He|He]; cbn [negb].
    - apply Qltb_ge. rewrite <- Zle_Qle. lia.
    - apply Qltb_lt. rewrite <- Zlt_Qlt. lia. }
  rewrite H0. destruct (Z.eqb_spec n 10) as [He|He]; cbn [negb]; [reflexivity|].
  assert (H10 : Py.Qltb x 10 = false).
  { rewrite (Qltb_comp _ _ _ Hp). change 10%Q with (inject_Z 10).
    apply Qltb_ge. rewrite <- Zle_Qle. lia. }
  rewrite H10. reflexivity.
Qed.

(** X21: the panel never shows a latency label, because the report holds
    the latency as a dict and the panel asks for a number; it shows a loss
    label exactly when the burst behind the labels lost a probe, and then
    always in the danger colour, the loss being at least 10 percent. *)
Theorem X21_panel_labels (E : env) (health_history : list Z) (w : World) :
  exists (p : Panel) (history : list Z),
    fst (_check_health_thread E health_history w) = Some (p, history)
    /\ (forall v c, ~ In (Latency_label v c) (panel_labels p))
    /\ (forall v c, In (Loss_label v c) (panel_labels p) -> c = Danger /\ (10 <= v <= 100)%Q)
    /\ ((exists v c, In (Loss_label v c) (panel_labels p))
        <-> Py.len (burst_samples E (snd (get_health_score E true w))) < 10).
Proof.
  destruct (check_health_eq E health_history w) as (r1 & r2 & _ & H2 & ->).
  eexists _, _. split; [reflexivity|]. cbn [fst panel_labels].
  set (w1 := snd (get_health_score E true w)) in *.
  pose proof (burst_samples_length E w1) as Hlen.
  rewrite get_health_score_eq in H2. cbn [fst] in H2.
  rewrite (metric_labels_of_report _ _ _ Hlen H2).
  destruct (score_pings_alerts _ _ _ Hlen H2) as [_ Hp].
  assert (Hn : 0 <= Py.len (burst_samples E w1) <= 10) by (unfold Py.len; lia).
  set (n := Py.len (burst_samples E w1)) in *.
  set (jl := match number_above (get_jitter r2) 5 with
             | Some jitter =>
                 [Jitter_label jitter (if Py.Qltb jitter 30 then Warning else Danger)]
             | None => []
             end).
  assert (Hj : forall l, In l jl -> exists v c, l = Jitter_label v c).
  { unfold jl. intros l Hin. destruct (number_above _ _); [|destruct Hin].
    destruct Hin as [<-|[]]. eauto. }
  clearbody jl.
  assert (Hloss : (10 <= Report.packet_loss r2 <= 100)%Q \/ n = 10).
  { destruct (Z.eq_dec n 10) as [He|He]; [right; exact He|left].
    rewrite Hp. change 10%Q with (inject_Z 10) at 1. change 100%Q with (inject_Z 100).
    rewrite <- !Zle_Qle. lia. }
  split; [|split; [|split]].
  - intros v c Hin. apply in_app_or in Hin. destruct Hin as [Hin|Hin].
    + destruct (n =? 10); [destruct Hin|]. destruct Hin as [Hin|[]]. discriminate Hin.
    + destruct (Hj _ Hin) as (v' & c' & Heq). discriminate Heq.
  - intros v c Hin. apply in_app_or in Hin. destruct Hin as [Hin|Hin].
    + destruct (Z.eqb_spec n 10) as [He|He]; [destruct Hin|].
      destruct Hin as [Hin|[]]. inversion Hin; subst. split; [reflexivity|].
      destruct Hloss as [Hl|Hl]; [exact Hl | contradiction].
    + destruct (Hj _ Hin) as (v' & c' & Heq). discriminate Heq.
  - intros (v & c & Hin). apply in_app_or in Hin. destruct Hin as [Hin|Hin].
    + destruct (Z.eqb_spec n 10) as [He|He]; [destruct Hin | lia].
    + destruct (Hj _ Hin) as (v' & c' & Heq). discriminate Heq.
  - intros Hlt. destruct (Z.eqb_spec n 10) as [He|He]; [lia|].
    eexists _, _. apply in_or_app. left. left. reflexivity.
Qed.

(** X22: one check runs two scoring bursts, 20 [ping_test] calls, and
    leaves the tracker's history, connection state and history file as
    they were; the panel keeps at most the last 60 scores, the newest
    last. *)
Theorem X22_check_runs_two_bursts (E : env) (health_history : list Z) (w : World) :
  exists (p : Panel) (history : list Z),
    _check_health_thread E health_history w
    = (Some (p, history), snd (get_health_score E true (snd (get_health_score E true w))))
    /\ calls (snd (_check_health_thread E health_history w)) = (calls w + 20)%nat
    /\ same_but_cache w (snd (_check_health_thread E health_history w))
    /\ (List.length history <= 60)%nat
    /\ exists older, history = (older ++ [panel_score p])%list.
Proof.
  destruct (check_health_eq E health_history w) as (r1 & r2 & _ & _ & ->).
  eexists _, _. split; [reflexivity|]. cbn [snd panel_score].
  rewrite !get_health_score_eq. cbn [snd]. change (Z.to_nat ping_count) with 10%nat.
  split; [rewrite !burst_calls; lia|].
  split; [eapply same_but_cache_trans; apply burst_frame|].
  unfold deque_append. split; [rewrite lastn_length; lia|].
  change 60%nat with (S 59). rewrite lastn_snoc. eexists. reflexivity.
Qed.

(** ** The curve of the health graph *)

Lemma graph_points_from_inside (n : Z) (scores : list Z) : forall i : nat,
  1 < n ->
  Z.of_nat i + Py.len scores <= n ->
  Forall (fun s => 0 <= s <= 100) scores ->
  Forall (fun p => (40 <= fst p <= 305)%Q /\ (20 <= snd p <= 130)%Q)
    (graph_points_from i n scores).
Proof.
  induction scores as [|s scores IH]; intros i Hn Hi Hs; [constructor|].
  inversion Hs as [|s' l' Hs1 Hs2]; subst.
  rewrite len_cons in Hi. assert (0 <= Py.len scores) by (unfold Py.len; lia).
  cbn [graph_points_from]. constructor.
  - cbn [fst snd]. unfold graph_width, graph_height.
    assert (Hd : (0 < inject_Z (n - 1))%Q).
    { change 0%Q with (inject_Z 0). rewrite <- Zlt_Qlt. lia. }
    assert (Hi0 : (0 <= inject_Z (Z.of_nat i))%Q).
    { change 0%Q with (inject_Z 0). rewrite <- Zle_Qle. lia. }
    assert (Hi1 : (inject_Z (Z.of_nat i) <= inject_Z (n - 1))%Q).
    { rewrite <- Zle_Qle. lia. }
    assert (Hs0 : (0 <= inject_Z s)%Q).
    { change 0%Q with (inject_Z 0). rewrite <- Zle_Qle. lia. }
    assert (Hs100 : (inject_Z s <= 100)%Q).
    { change 100%Q with (inject_Z 100). rewrite <- Zle_Qle. lia. }
    set (d := inject_Z (n - 1)) in *. set (x := inject_Z (Z.of_nat i)) in *.
    assert (Hq0 : (0 <= (320 - 40 - 15) * x / d)%Q).
    { apply Qle_shift_div_l; [exact Hd|]. lra. }
    assert (Hq1 : ((320 - 40 - 15) * x / d <= 265)%Q).
    { apply Qle_shift_div_r; [exact Hd|]. lra. }
    set (q := ((320 - 40 - 15) * x / d)%Q) in *. clearbody q.
    assert (Hy : ((160 - 20 - 30) * inject_Z s / 100 == 1.1 * inject_Z s)%Q) by field.
    rewrite Hy. split; split; lra.
  - apply IH; [exact Hn | rewrite Nat2Z.inj_succ; lia | exact Hs2].
Qed.

Lemma graph_points_from_length (n : Z) (scores : list Z) : forall i : nat,
  List.length (graph_points_from i n scores) = List.length scores.
Proof.
  induction scores as [|s l IH]; intros i; [reflexivity|].
  cbn [graph_points_from List.length]. f_equal. apply IH.
Qed.

(** X23: for a history of two or more scores between 0 and 100, as the
    tracker gives them, every point of the curve lies inside the plotting
    area of the canvas: 40 <= x <= 305 and 20 <= y <= 130, on a canvas of
    320 by 160. *)
Theorem X23_graph_inside_canvas (health_history : list Z) :
  1 < Py.len health_history ->
  Forall (fun s => 0 <= s <= 100) health_history ->
  List.length (graph_points health_history) = List.length health_history
  /\ Forall (fun p => (40 <= fst p <= 305)%Q /\ (20 <= snd p <= 130)%Q)
       (graph_points health_history).
Proof.
  intros Hn Hs. split.
  - apply graph_points_from_length.
  - apply graph_points_from_inside; [exact Hn | cbn; lia | exact Hs].
Qed.

Lemma X23_graph_inside_canvas_witness :
  List.length (graph_points [96; 0; 73]) = List.length [96; 0; 73]
  /\ Forall (fun p => (40 <= fst p <= 305)%Q /\ (20 <= snd p <= 130)%Q)
       (graph_points [96; 0; 73]).
Proof.
  apply (X23_graph_inside_canvas [96; 0; 73]).
  - cbn. lia.
  - repeat constructor; lia.
Defined.

(** ** The matcher finds only matches *)

Section Soundness.

Variable is_digit : Re.char -> bool.
Variable is_space : Re.char -> bool.
Variable same_letter : Re.char -> Re.char -> bool.

Lemma run_sound (A : Type) (ic : bool) (r : Re.regex) :
  forall (s : list Re.char) (cap : option (list Re.char))
         (k : list Re.char -> option (list Re.char) -> option A) (a : A),
  Re.run is_digit is_space same_letter A ic r s cap k = Some a ->
  exists (s1 s2 : list Re.char) (cap' : option (list Re.char)),
    s = (s1 ++ s2)%list /\ matches is_digit is_space same_letter ic r s1 cap cap' /\ k s2 cap' = Some a.
Proof.
  induction r as [|items|r1 IH1 r2 IH2|r1 IH1 r2 IH2|r1 IH1|r1 IH1]; intros s cap k a H.
  - exists [], s, cap. split; [reflexivity|]. split; [constructor | exact H].
  - cbn [Re.run] in H. destruct s as [|c s']; [discriminate H|].
    destruct (existsb _ items) eqn:He; [|discriminate H].
    exists [c], s', cap. split; [reflexivity|]. split; [constructor; exact He | exact H].
  - cbn [Re.run] in H. apply IH1 in H. destruct H as (s1 & s2 & c1 & -> & Hm1 & H).
    apply IH2 in H. destruct H as (s3 & s4 & c2 & -> & Hm2 & H).
    exists (s1 ++ s3)%list, s4, c2. rewrite <- app_assoc. split; [reflexivity|].
    split; [econstructor; eassumption | exact H].
  - cbn [Re.run] in H. destruct (Re.run is_digit is_space same_letter A ic r1 s cap k) as [a'|] eqn:H1.
    + inversion H; subst a'. apply IH1 in H1. destruct H1 as (s1 & s2 & c1 & -> & Hm & Hk).
      exists s1, s2, c1. split; [reflexivity|]. split; [apply M_alt_l; exact Hm | exact Hk].
    + apply IH2 in H. destruct H as (s1 & s2 & c1 & -> & Hm & Hk).
      exists s1, s2, c1. split; [reflexivity|]. split; [apply M_alt_r; exact Hm | exact Hk].
  - cbn [Re.run] in H. revert H. generalize (List.length s) as n. intros n. revert s cap.
    induction n as [|n IHn]; intros s cap H.
    + exists [], s, cap. split; [reflexivity|]. split; [constructor | exact H].
    + match type of H with
      | match ?x with Some _ => _ | None => _ end = _ => destruct x as [a'|] eqn:H1
      end.
      * inversion H; subst a'. apply IH1 in H1.
        destruct H1 as (s1 & s2 & c1 & -> & Hm & Hk).
        destruct (List.length s2 <? List.length (s1 ++ s2))%nat; [|discriminate Hk].
        apply IHn in Hk. destruct Hk as (s3 & s4 & c2 & -> & Hm2 & Hk).
        exists (s1 ++ s3)%list, s4, c2. rewrite <- app_assoc. split; [reflexivity|].
        split; [econstructor; eassumption | exact Hk].
      * exists [], s, cap. split; [reflexivity|]. split; [constructor | exact H].
  - cbn [Re.run] in H. apply IH1 in H. destruct H as (s1 & s2 & c1 & -> & Hm & Hk).
    exists s1, s2, (Some s1). split; [reflexivity|]. split; [econstructor; exact Hm|].
    rewrite length_app in Hk.
    replace (List.length s1 + List.length s2 - List.length s2)%nat
      with (List.length s1) in Hk by lia.
    rewrite firstn_app, firstn_all, Nat.sub_diag, app_nil_r in Hk. exact Hk.
Qed.

Lemma search_sound (ic : bool) (r : Re.regex) (s : list Re.char)
    (cap : option (list Re.char)) :
  Re.search is_digit is_space same_letter ic r s = Some cap ->
  exists before s1 after : list Re.char,
    s = (before ++ s1 ++ after)%list /\ matches is_digit is_space same_letter ic r s1 None cap.
Proof.
  induction s as [|c s IH]; cbn [Re.search]; intros H.
  - destruct (Re.run is_digit is_space same_letter _ ic r [] None _) as [cap'|] eqn:Hr; [|discriminate H].
    inversion H; subst cap'. apply run_sound in Hr.
    destruct Hr as (s1 & s2 & c1 & Hs & Hm & Hk). inversion Hk; subst c1.
    exists [], s1, s2. split; [exact Hs | exact Hm].
  - destruct (Re.run is_digit is_space same_letter _ ic r (c :: s) None _) as [cap'|] eqn:Hr.
    + inversion H; subst cap'. apply run_sound in Hr.
      destruct Hr as (s1 & s2 & c1 & Hs & Hm & Hk). inversion Hk; subst c1.
      exists [], s1, s2. split; [exact Hs | exact Hm].
    + apply IH in H. destruct H as (before & s1 & after & -> & Hm).
      exists (c :: before), s1, after. split; [reflexivity | exact Hm].
Qed.

Lemma findall_from_sound (r : Re.regex) (fuel : nat) :
  forall (s : list Re.char) (cap : option (list Re.char)),
  In cap (Re.findall_from is_digit is_space same_letter fuel r s) ->
  exists before s1 after : list Re.char,
    s = (before ++ s1 ++ after)%list /\ matches is_digit is_space same_letter false r s1 None cap.
Proof.
  induction fuel as [|fuel IH]; intros s cap Hin; [destruct Hin|].
  cbn [Re.findall_from] in Hin.
  assert (Htail : forall c tail, s = c :: tail ->
            In cap (Re.findall_from is_digit is_space same_letter fuel r tail) ->
            exists before s1 after : list Re.char,
              s = (before ++ s1 ++ after)%list /\ matches is_digit is_space same_letter false r s1 None cap).
  { intros c tail -> H. apply IH in H. destruct H as (before & s1 & after & -> & Hm).
    exists (c :: before), s1, after. split; [reflexivity | exact Hm]. }
  destruct (Re.run is_digit is_space same_letter _ false r s None _) as [[s' cap']|] eqn:Hr.
  - apply run_sound in Hr. destruct Hr as (s1 & s2 & c1 & Hs & Hm & Hk).
    inversion Hk; subst s' c1. clear Hk.
    destruct Hin as [<-|Hin].
    + exists [], s1, s2. split; [exact Hs | exact Hm].
    + destruct s as [|c tail]; [destruct Hin|].
      destruct (List.length s2 <? List.length (c :: tail))%nat.
      * apply IH in Hin. destruct Hin as (before & s3 & after & -> & Hm3).
        exists (s1 ++ before)%list, s3, after. rewrite Hs, <- app_assoc.
        split; [reflexivity | exact Hm3].
      * apply (Htail c tail eq_refl Hin).
  - destruct s as [|c tail]; [destruct Hin|]. apply (Htail c tail eq_refl Hin).
Qed.

Lemma item_matches_letter (ic : bool) (c p : Re.char) :
  Re.item_matches is_digit is_space same_letter ic c (Re.I_char p) = true ->
  letter_matches same_letter p c = true.
Proof.
  unfold Re.item_matches, letter_matches. destruct (c =? p)%N; [reflexivity|].
  destruct ic; cbn; [intros H; exact H | discriminate].
Qed.

Lemma matches_seq_last (ic : bool) (x : Re.regex) (rs : list Re.regex) :
  forall (s : list Re.char) (c0 c2 : option (list Re.char)),
  matches is_digit is_space same_letter ic (Re.seq (rs ++ [x])) s c0 c2 ->
  exists (s1 s2 : list Re.char) (c1 : option (list Re.char)),
    s = (s1 ++ s2)%list /\ matches is_digit is_space same_letter ic x s2 c1 c2.
Proof.
  induction rs as [|r rs IH]; intros s c0 c2 H.
  - cbn in H. inversion H as [| |r1 r2 s1 s2 d0 d1 d2 H1 H2| | | | |]; subst.
    inversion H2; subst. exists [], s1, c0. rewrite app_nil_r. split; [reflexivity|exact H1].
  - cbn in H. inversion H as [| |r1 r2 s1 s2 d0 d1 d2 H1 H2| | | | |]; subst.
    apply IH in H2. destruct H2 as (s3 & s4 & c1 & -> & Hm).
    exists (s1 ++ s3)%list, s4, c1. rewrite app_assoc. split; [reflexivity | exact Hm].
Qed.

Lemma matches_ms (ic : bool) (s : list Re.char) (c0 c1 : option (list Re.char)) :
  matches is_digit is_space same_letter ic (Re.lit "ms") s c0 c1 ->
  exists a b : Re.char,
    s = [a; b] /\ letter_matches same_letter 109%N a = true
    /\ letter_matches same_letter 115%N b = true.
Proof.
  intros H. cbv [Re.lit Re.codes Re.seq list_ascii_of_string map fold_right] in H.
  change (N_of_ascii "m") with 109%N in H. change (N_of_ascii "s") with 115%N in H.
  inversion H as [| |r1 r2 s1 s2 d0 d1 d2 H1 H2| | | | |]; subst.
  inversion H1 as [|items a cap Ha| | | | | |]; subst.
  inversion H2 as [| |r1 r2 s1 s2' e0 e1 e2 H3 H4| | | | |]; subst.
  inversion H3 as [|items b cap Hb| | | | | |]; subst.
  inversion H4; subst.
  exists a, b. split; [reflexivity|].
  cbn [existsb] in Ha, Hb. rewrite orb_false_r in Ha, Hb.
  split; eapply item_matches_letter; eassumption.
Qed.

End Soundness.

(** ** What the patterns need and what they capture *)

Section Patterns.

Variable is_digit : Re.char -> bool.
Variable is_space : Re.char -> bool.
Variable same_letter : Re.char -> Re.char -> bool.

Lemma mentions_ms_found (a b : Re.char) (after : list Re.char) :
  letter_matches same_letter 109%N a = true ->
  letter_matches same_letter 115%N b = true ->
  forall before : list Re.char,
  mentions_ms same_letter (before ++ a :: b :: after) = true.
Proof.
  intros Ha Hb. induction before as [|c before IH].
  - cbn [app mentions_ms]. rewrite Ha, Hb. reflexivity.
  - cbn [app mentions_ms]. rewrite IH. apply orb_true_r.
Qed.

Lemma matches_seq_ends (ic : bool) (l : list Re.regex) (x : Re.regex)
    (s : list Re.char) (c0 c2 : option (list Re.char)) :
  l <> [] -> last l Re.Eps = x ->
  matches is_digit is_space same_letter ic (Re.seq l) s c0 c2 ->
  exists (s1 s2 : list Re.char) (c1 : option (list Re.char)),
    s = (s1 ++ s2)%list /\ matches is_digit is_space same_letter ic x s2 c1 c2.
Proof.
  intros Hne Hlast H. rewrite (app_removelast_last Re.Eps Hne), Hlast in H.
  apply (matches_seq_last is_digit is_space same_letter ic x _ _ _ _ H).
Qed.

(** Every pattern ends in [ms]. *)
Lemma pattern_needs_ms (ic : bool) (p : Re.regex) (s : list Re.char)
    (c0 c1 : option (list Re.char)) :
  In p (pattern_any_ms :: patterns) ->
  matches is_digit is_space same_letter ic p s c0 c1 ->
  forall before after : list Re.char,
  mentions_ms same_letter (before ++ s ++ after) = true.
Proof.
  intros Hin Hm before after.
  assert (H : exists (s1 s2 : list Re.char) (c : option (list Re.char)),
            s = (s1 ++ s2)%list
            /\ matches is_digit is_space same_letter ic (Re.lit "ms") s2 c c1).
  { destruct Hin as [<-|[<-|[<-|[<-|[<-|[<-|[]]]]]]];
      (eapply matches_seq_ends; [| |exact Hm]; [discriminate | reflexivity]). }
  destruct H as (s1 & s2 & c & -> & Hms).
  apply matches_ms in Hms. destruct Hms as (a & b & -> & Ha & Hb).
  rewrite <- app_assoc, app_assoc. cbn [app].
  apply mentions_ms_found; assumption.
Qed.

Lemma digits_and_dots_sound (ic : bool) (r : Re.regex) (s : list Re.char)
    (c0 c1 : option (list Re.char)) :
  matches is_digit is_space same_letter ic r s c0 c1 ->
  digits_and_dots r = true ->
  Forall (numeric_char is_digit same_letter) s.
Proof.
  induction 1 as [cap|items c cap He|r1 r2 s1 s2 d0 d1 d2 _ IH1 _ IH2
                 |r1 r2 s d0 d1 _ IH|r1 r2 s d0 d1 _ IH|r cap
                 |r s1 s2 d0 d1 d2 _ IH1 _ IH2|r s d0 d1 _ IH]; cbn [digits_and_dots]; intros Hd.
  - constructor.
  - constructor; [|constructor].
    apply existsb_exists in He. destruct He as (i & Hin & Hi).
    rewrite forallb_forall in Hd. specialize (Hd i Hin).
    destruct i as [p| |]; [|left; exact Hi|discriminate Hd].
    apply N.eqb_eq in Hd. subst p. right.
    eapply item_matches_letter. exact Hi.
  - apply andb_true_iff in Hd. destruct Hd. apply Forall_app. split; auto.
  - apply andb_true_iff in Hd. destruct Hd. auto.
  - apply andb_true_iff in Hd. destruct Hd. auto.
  - constructor.
  - apply Forall_app. split; auto.
  - auto.
Qed.

Lemma groups_numeric_sound (ic : bool) (r : Re.regex) (s : list Re.char)
    (c0 c1 : option (list Re.char)) :
  matches is_digit is_space same_letter ic r s c0 c1 ->
  groups_numeric r = true ->
  c1 = c0 \/ exists text, c1 = Some text /\ Forall (numeric_char is_digit same_letter) text.
Proof.
  induction 1 as [cap|items c cap He|r1 r2 s1 s2 d0 d1 d2 _ IH1 _ IH2
                 |r1 r2 s d0 d1 _ IH|r1 r2 s d0 d1 _ IH|r cap
                 |r s1 s2 d0 d1 d2 _ IH1 _ IH2|r s d0 d1 Hm IH]; cbn [groups_numeric]; intros Hd.
  - left. reflexivity.
  - left. reflexivity.
  - apply andb_true_iff in Hd. destruct Hd as [Hd1 Hd2].
    destruct (IH2 Hd2) as [->|Hg]; [apply IH1; exact Hd1 | right; exact Hg].
  - apply andb_true_iff in Hd. destruct Hd. auto.
  - apply andb_true_iff in Hd. destruct Hd. auto.
  - left. reflexivity.
  - destruct (IH2 Hd) as [->|Hg]; [apply IH1; exact Hd | right; exact Hg].
  - right. exists s. split; [reflexivity|].
    eapply digits_and_dots_sound; eassumption.
Qed.

Lemma patterns_numeric (p : Re.regex) :
  In p (pattern_any_ms :: patterns) -> groups_numeric p = true.
Proof.
  intros [<-|[<-|[<-|[<-|[<-|[<-|[]]]]]]]; reflexivity.
Qed.

Lemma first_match_sound (ps : list Re.regex) (output : list Re.char)
    (group : option (list Re.char)) :
  first_match is_digit is_space same_letter ps output = Some group ->
  exists p, In p ps /\ Re.search is_digit is_space same_letter true p output = Some group.
Proof.
  induction ps as [|p ps IH]; cbn [first_match]; [discriminate|].
  destruct (Re.search _ _ _ true p output) as [g|] eqn:Hs.
  - intros H. inversion H; subst g. exists p. split; [left; reflexivity | exact Hs].
  - intros H. destruct (IH H) as (q & Hin & Hq). exists q. split; [right; exact Hin | exact Hq].
Qed.

Section Float.

Variable float : list Re.char -> option Q.

(** X24: an output that holds no [m] followed by an [s], in either
    case, cannot be parsed: [_parse_ping_output] returns [None], for every
    pattern and the fallback need an [ms]. *)
Theorem X24_no_ms_no_latency (output : list Re.char) :
  mentions_ms same_letter output = false ->
  _parse_ping_output is_digit is_space same_letter float output = None.
Proof.
  intros Hno. unfold _parse_ping_output.
  destruct (first_match _ _ _ patterns output) as [group|] eqn:Hf.
  - exfalso. apply first_match_sound in Hf. destruct Hf as (p & Hin & Hs).
    apply search_sound in Hs. destruct Hs as (before & s1 & after & -> & Hm).
    rewrite (pattern_needs_ms true p s1 None group (or_intror Hin) Hm) in Hno.
    discriminate Hno.
  - destruct (Re.findall _ _ _ pattern_any_ms output) as [|cap numbers] eqn:Ha;
      [reflexivity|].
    exfalso.
    assert (Hin : In cap (Re.findall is_digit is_space same_letter pattern_any_ms output)).
    { rewrite Ha. left. reflexivity. }
    unfold Re.findall in Hin. apply findall_from_sound in Hin.
    destruct Hin as (before & s1 & after & -> & Hm).
    rewrite (pattern_needs_ms false pattern_any_ms s1 None cap (or_introl eq_refl) Hm) in Hno.
    discriminate Hno.
Qed.

Lemma floats_values (numbers : list (option (list Re.char))) :
  forall values : list Q,
  floats float numbers = Some values ->
  forall v, In v values ->
  exists text, In (Some text) numbers /\ float text = Some v.
Proof.
  induction numbers as [|n numbers IH]; cbn [floats]; intros values H v Hin.
  - inversion H; subst. destruct Hin.
  - destruct n as [text|]; [|discriminate H].
    destruct (float text) as [x|] eqn:Hx; [|discriminate H].
    destruct (floats float numbers) as [vs|]; [|discriminate H].
    inversion H; subst values. destruct Hin as [<-|Hin].
    + exists text. split; [left; reflexivity | exact Hx].
    + destruct (IH vs eq_refl v Hin) as (t & Ht & Hv).
      exists t. split; [right; exact Ht | exact Hv].
Qed.

Lemma sum_below (a : Q) (l : list Q) :
  l <> [] -> Forall (fun y => (y < a)%Q) l -> (Py.sum l < inject_Z (Py.len l) * a)%Q.
Proof.
  unfold Py.sum. induction l as [|y l IH]; intros Hne H; [congruence|].
  inversion H as [|y' l' Hy Hl]; subst.
  rewrite len_cons, inject_Z_plus. cbn [fold_right]. change (inject_Z 1) with 1%Q.
  destruct l as [|z l].
  - change (inject_Z (Py.len (@nil Q))) with 0%Q. cbn [fold_right]. lra.
  - assert (fold_right Qplus 0 (z :: l) < inject_Z (Py.len (z :: l)) * a)%Q
      by (apply IH; [discriminate | exact Hl]).
    lra.
Qed.

(** X25: as long as [float] gives no negative number for a text of
    digits and dots, a latency parsed from the output is never negative; one
    that comes from the fallback, no pattern having matched, is below
    5000. *)
Theorem X25_latency_not_negative (output : list Re.char) (v : Q) :
  (forall text x, Forall (numeric_char is_digit same_letter) text ->
                  float text = Some x -> (0 <= x)%Q) ->
  _parse_ping_output is_digit is_space same_letter float output = Some v ->
  (0 <= v)%Q
  /\ (first_match is_digit is_space same_letter patterns output = None -> (v < 5000)%Q).
Proof.
  intros Hfloat. unfold _parse_ping_output.
  destruct (first_match _ _ _ patterns output) as [group|] eqn:Hf.
  - intros H. split; [|discriminate].
    destruct group as [text|]; [|discriminate H].
    apply first_match_sound in Hf. destruct Hf as (p & Hin & Hs).
    apply search_sound in Hs. destruct Hs as (before & s1 & after & _ & Hm).
    destruct (groups_numeric_sound true p s1 None (Some text) Hm
                (patterns_numeric p (or_intror Hin))) as [Hc|(t & Ht & Hnum)];
      [discriminate Hc|].
    inversion Ht; subst t. apply (Hfloat text v Hnum H).
  - destruct (Re.findall _ _ _ pattern_any_ms output) as [|cap numbers] eqn:Ha;
      [discriminate|].
    destruct (floats float (cap :: numbers)) as [values|] eqn:Hv; [|discriminate].
    destruct (filter (fun x => Py.Qltb x 5000) values) as [|y ys] eqn:Hvalid; [discriminate|].
    intros H. inversion H; subst v. clear H.
    assert (Hall : Forall (fun x => (0 <= x)%Q /\ (x < 5000)%Q) (y :: ys)).
    { apply Forall_forall. intros x Hx. rewrite <- Hvalid in Hx.
      apply filter_In in Hx. destruct Hx as [Hx Hlt]. apply Qltb_lt in Hlt.
      split; [|exact Hlt].
      destruct (floats_values _ _ Hv x Hx) as (text & Hin & Hfl).
      rewrite <- Ha in Hin. unfold Re.findall in Hin. apply findall_from_sound in Hin.
      destruct Hin as (before & s1 & after & _ & Hm).
      destruct (groups_numeric_sound false pattern_any_ms s1 None (Some text) Hm
                  (patterns_numeric _ (or_introl eq_refl))) as [Hc|(t & Ht & Hnum)];
        [discriminate Hc|].
      inversion Ht; subst t. apply (Hfloat text x Hnum Hfl). }
    assert (Hn : (0 < inject_Z (Py.len (y :: ys)))%Q).
    { change 0%Q with (inject_Z 0). rewrite <- Zlt_Qlt. rewrite len_cons. unfold Py.len. lia. }
    unfold Py.mean. split.
    + apply Qle_shift_div_l; [exact Hn|]. rewrite Qmult_0_l.
      assert (H0 : (inject_Z (Py.len (y :: ys)) * 0 <= Py.sum (y :: ys))%Q).
      { apply sum_lower. eapply Forall_impl; [|exact Hall]. intros x [Hx _]. exact Hx. }
      lra.
    + intros _. apply Qlt_shift_div_r; [exact Hn|]. rewrite Qmult_comm.
      apply sum_below; [discriminate|].
      eapply Forall_impl; [|exact Hall]. intros x [_ Hx]. exact Hx.
Qed.

End Float.

End Patterns.

(** ** On ASCII text *)

Lemma decimal_float_not_negative (text : list Re.char) (x : Q) :
  decimal_float text = Some x -> (0 <= x)%Q.
Proof.
  unfold decimal_float. destruct (split_at_dot text) as [whole [fraction|]].
  - intros H.
    assert (H' : match digits_value 0 whole, digits_value 0 fraction with
                 | Some a, Some b =>
                     Some (Qmake (Z.of_N (a * Npos (pow10 (List.length fraction)) + b))
                             (pow10 (List.length fraction)))
                 | _, _ => None
                 end = Some x).
    { destruct whole, fraction; first [discriminate H | exact H]. }
    destruct (digits_value 0 whole), (digits_value 0 fraction); try discriminate H'.
    inversion H'; subst x. unfold Qle. cbn [Qnum Qden]. lia.
  - destruct whole as [|c whole]; [discriminate|].
    destruct (digits_value 0 (c :: whole)) as [n|]; [|discriminate].
    cbn [option_map]. intros H. inversion H; subst x.
    unfold Qle. cbn [Qnum Qden inject_Z]. lia.
Qed.

Lemma X24_no_ms_no_latency_witness :
  _parse_ping_output ascii_digit ascii_space ascii_same_letter decimal_float timeout_output
  = None.
Proof.
  apply (X24_no_ms_no_latency ascii_digit ascii_space ascii_same_letter decimal_float
           timeout_output).
  vm_compute. reflexivity.
Defined.

Lemma X25_latency_not_negative_witness :
  (0 <= 45.6)%Q
  /\ (first_match ascii_digit ascii_space ascii_same_letter patterns linux_output = None ->
      (45.6 < 5000)%Q).
Proof.
  apply (X25_latency_not_negative ascii_digit ascii_space ascii_same_letter decimal_float
           linux_output 45.6%Q).
  - intros text x _ H. exact (decimal_float_not_negative text x H).
  - vm_compute. reflexivity.
Defined.

(** What the parser makes of some outputs: the average of the summary
    wins over the time of a reply, whatever their order; [time<1ms] reads as
    1; without a pattern, the mean of the numbers before [ms] that are below
    5000; a group that is no number gives nothing. *)
Lemma parse_examples :
  let parse := _parse_ping_output ascii_digit ascii_space ascii_same_letter decimal_float in
  parse linux_output = Some 45.6%Q
  /\ parse windows_output = Some (inject_Z 12)
  /\ parse (Re.codes "M" ++ [233%N] ++ Re.codes "dia = 12ms")%list = Some (inject_Z 12)
  /\ parse (Re.codes "Reply from 192.168.0.1: bytes=32 time<1ms TTL=64") = Some (inject_Z 1)
  /\ match parse (Re.codes "5 ms, 7 ms, 9000 ms") with
     | Some v => (v == 6)%Q
     | None => False
     end
  /\ parse (Re.codes "rtt min/avg/max/mdev = 1/1.2.3/4/5 ms") = None
  /\ parse (Re.codes "9000 ms") = None.
Proof.
  cbv zeta. repeat split; vm_compute; reflexivity.
Qed.
